(** * AIplanet backend: the workflow execution engine

  A shallow embedding of the Python sources
    - [services/embeddings.py]   ([split_text_into_chunks], [search_similar_chunks]),
    - [services/web_search.py]   ([serpapi_search], [brave_search], [web_search]),
    - [services/llm_service.py]  ([LLMService.generate_response] and the two providers),
    - [routes/workflow.py]       ([run_workflow] and [log_execution]),
  followed by the properties the design document states about them.

  How the Python is read:
    - a statement is a function from the state to a value or an exception,
      and a new state; [try]/[except Exception] is [catch]. What lies
      outside [Exception] ([KeyboardInterrupt], [SystemExit]) is not
      modelled;
    - the state keeps the [execution_logs] table, the clock, and a trace
      of the calls that leave the process, of the runs of the local
      embedding model and of the calls of [log_execution]; [print] is left
      out;
    - the services are given by a [World]: each answers with its payload
      or with the text of the exception it raises. A provider's answer is
      a [str], as the signatures of the two [generate_response_*]
      methods say, and the fields of a request and of a response have the
      types their pydantic classes declare;
    - the workflow definition of a request and the body of a search
      response are decoded JSON, with the operations Python applies to
      them and the exceptions those raise on values of the wrong type;
    - a [str] is the bytes of its UTF-8 encoding, and its [len] the
      number of its characters;
    - a float is a rational: floats are only passed on, tested against
      zero, or subtracted to give the elapsed time;
    - the [while] loop of the chunker takes a bound on its iterations. *)

From Stdlib Require Import String Ascii DecimalString.
From Stdlib Require Import ZArith List Bool Lia QArith.
From Stdlib Require DecimalPos DecimalZ.
From ExtLib Require Import Structures.Monad Structures.MonadExc.
Import ListNotations.
Import MonadNotation.

Local Open Scope Z_scope.

(* ===================================================================== *)
(** * Python sequences: [len] and slicing *)
(* ===================================================================== *)

Module Py.
Section Sequences.
Context {A : Type}.

(** [len(s)], a Python int. *)
Definition len (s : list A) : Z := Z.of_nat (length s).

(** How [s[i:j]] normalises one bound: a negative bound counts from the
    end, and the result is clamped to [0 .. len(s)]. *)
Definition slice_bound (n i : Z) : Z :=
  if i <? 0 then Z.max 0 (i + n) else Z.min i n.

(** [s[start:stop]] (step 1). An empty range gives the empty sequence. *)
Definition slice (s : list A) (start stop : Z) : list A :=
  let lo := slice_bound (len s) start in
  let hi := slice_bound (len s) stop in
  firstn (Z.to_nat (hi - lo)) (skipn (Z.to_nat lo) s).

(** [s[:stop]]. *)
Definition slice_to (s : list A) (stop : Z) : list A := slice s 0 stop.

End Sequences.
End Py.


(* ===================================================================== *)
(** * Python values, exceptions and the execution monad *)
(* ===================================================================== *)

Module PyVal.

#[local] Set Warnings "-register-all".

(** Decoded JSON, as [json.loads] and pydantic's [Dict[str, Any]] give it.
    A dict is kept as its list of items; keys are strings and a lookup
    takes the first item with the key. *)
Inductive pyval : Type :=
| PyNone
| PyBool (b : bool)
| PyInt (n : Z)
| PyFloat (q : Q)
| PyStr (s : string)
| PyList (l : list pyval)
| PyDict (d : list (string * pyval)).

(** The exceptions that occur. Every one of them is an [Exception] for an
    [except Exception] clause. [ExternalError] is raised inside a client
    library (requests, openai, google.generativeai, chromadb, psycopg2) and
    carries the text [str(e)] gives. *)
Inductive exn : Type :=
| Exception (msg : string)
| KeyError (key : pyval)
| TypeError (msg : string)
| AttributeError (msg : string)
| ExternalError (msg : string)
| HTTPException (status_code : Z) (detail : string).

Inductive result (A : Type) : Type :=
| Ok (a : A)
| Raise (e : exn).
Arguments Ok {A} a.
Arguments Raise {A} e.

#[export] Instance Monad_result : Monad result :=
  {| ret := fun _ a => Ok a;
     bind := fun _ _ c k => match c with Ok a => k a | Raise e => Raise e end |}.

#[export] Instance Exc_result : MonadExc exn result :=
  {| raise := fun _ e => Raise e;
     catch := fun _ c h => match c with Ok a => Ok a | Raise e => h e end |}.

Definition nl : string := String "010"%char EmptyString.

(** The separator of ["\n\n".join(...)]. *)
Definition blank_line : string := (nl ++ nl)%string.

(** A [str] is kept as the bytes of its UTF-8 encoding. The bytes
    [10xxxxxx] continue a character begun before. *)
Definition continuation_byte (c : ascii) : bool :=
  match c with
  | Ascii _ _ _ _ _ _ b6 b7 => b7 && negb b6
  end.

(** [len(s)] of a [str]: the number of its characters. *)
Fixpoint str_len (s : string) : Z :=
  match s with
  | EmptyString => 0
  | String c s' => (if continuation_byte c then 0 else 1) + str_len s'
  end.

(** [str(n)] of an int. *)
Definition str_int (n : Z) : string := NilZero.string_of_int (Z.to_int n).

(** [type(v).__name__]. *)
Definition type_name (v : pyval) : string :=
  match v with
  | PyNone => "NoneType"
  | PyBool _ => "bool"
  | PyInt _ => "int"
  | PyFloat _ => "float"
  | PyStr _ => "str"
  | PyList _ => "list"
  | PyDict _ => "dict"
  end.

(** [bool(v)]. *)
Definition truthy (v : pyval) : bool :=
  match v with
  | PyNone => false
  | PyBool b => b
  | PyInt n => negb (n =? 0)
  | PyFloat q => negb (Qeq_bool q 0)
  | PyStr s => negb (String.eqb s "")
  | PyList l => match l with [] => false | _ => true end
  | PyDict d => match d with [] => false | _ => true end
  end.

(** [v == s] against a string literal. *)
Definition eq_str (v : pyval) (s : string) : bool :=
  match v with
  | PyStr s' => String.eqb s' s
  | _ => false
  end.

(** Lookup in the items of a dict. *)
Fixpoint lookup (key : string) (d : list (string * pyval)) : option pyval :=
  match d with
  | [] => None
  | (k, v) :: d' => if String.eqb k key then Some v else lookup key d'
  end.

(** [key in d]. *)
Definition has_key (key : string) (d : list (string * pyval)) : bool :=
  match lookup key d with Some _ => true | None => false end.

Definition no_attribute (v : pyval) (attr : string) : exn :=
  AttributeError ("'" ++ type_name v ++ "' object has no attribute '" ++ attr ++ "'").

(** [v.get(key, default)] with a string key: only a dict has the method. *)
Definition get (v : pyval) (key : string) (default : pyval) : result pyval :=
  match v with
  | PyDict d => Ok (match lookup key d with Some x => x | None => default end)
  | _ => Raise (no_attribute v "get")
  end.

(** [hash(k)] fails on lists and dicts. *)
Definition hashable (k : pyval) : bool :=
  match k with
  | PyList _ | PyDict _ => false
  | _ => true
  end.

(** [v.get(k, default)] with any key [k]. The keys of [v] are strings, so
    only a string finds an item; an unhashable key is a [TypeError]. *)
Definition get_at (v : pyval) (k : pyval) (default : pyval) : result pyval :=
  match v with
  | PyDict d =>
      if hashable k then
        match k with
        | PyStr key => Ok (match lookup key d with Some x => x | None => default end)
        | _ => Ok default
        end
      else Raise (TypeError ("unhashable type: '" ++ type_name k ++ "'"))
  | _ => Raise (no_attribute v "get")
  end.

(** [d[key]] on a dict. *)
Definition getitem (d : list (string * pyval)) (key : string) : result pyval :=
  match lookup key d with
  | Some x => Ok x
  | None => Raise (KeyError (PyStr key))
  end.

(** [v[key]] with a string key, on any value. *)
Definition subscript (v : pyval) (key : string) : result pyval :=
  match v with
  | PyDict d => getitem d key
  | PyStr _ => Raise (TypeError "string indices must be integers, not 'str'")
  | PyList _ => Raise (TypeError "list indices must be integers or slices, not str")
  | _ => Raise (TypeError ("'" ++ type_name v ++ "' object is not subscriptable"))
  end.

Definition one_char (c : ascii) : pyval := PyStr (String c EmptyString).

(** What [for x in v] runs through: the elements of a list, the characters
    of a string, the keys of a dict; anything else is not iterable. *)
Definition iter (v : pyval) : result (list pyval) :=
  match v with
  | PyList l => Ok l
  | PyStr s => Ok (map one_char (list_ascii_of_string s))
  | PyDict d => Ok (map (fun kv => PyStr (fst kv)) d)
  | _ => Raise (TypeError ("'" ++ type_name v ++ "' object is not iterable"))
  end.

(** [v[:n]]: lists and strings can be sliced. *)
Definition slice_to (v : pyval) (n : Z) : result pyval :=
  match v with
  | PyList l => Ok (PyList (Py.slice_to l n))
  | PyStr s => Ok (PyStr (string_of_list_ascii (Py.slice_to (list_ascii_of_string s) n)))
  | PyDict _ => Raise (TypeError "unhashable type: 'slice'")
  | _ => Raise (TypeError ("'" ++ type_name v ++ "' object is not subscriptable"))
  end.

(** [enumerate(l)]. *)
Definition enumerate {A : Type} (l : list A) : list (Z * A) :=
  combine (map Z.of_nat (seq 0 (length l))) l.

(** [sep.join(l)]. *)
Definition join (sep : string) (l : list string) : string := String.concat sep l.

End PyVal.

(* ===================================================================== *)
(** * The process and what surrounds it *)
(* ===================================================================== *)

Module Runtime.
Import PyVal.

(** A row of the [execution_logs] table, as [log_execution] inserts it. *)
Record ExecutionLogEntry : Type := {
  log_workflow_id : option Z;
  log_query : string;
  log_response : string;
  log_model_used : string;
  log_success : bool;
  log_error : option string;
  log_execution_time : option Q;
  log_timestamp : Q
}.

(** The statements of [log_execution], in order; the row is in the table
    once [conn.commit()] has returned. *)
Inductive db_step : Type :=
| DbConnect
| DbCursor
| DbExecute
| DbCommit
| DbCursorClose
| DbClose.

(** Result of [collection.query] (chromadb's [QueryResult]); only the
    [documents] entry is read: one list of documents per query embedding,
    or [None]. *)
Record QueryResult : Type := {
  documents : option (list (list string))
}.

(** Everything outside the program: the interpreter's [repr], the
    environment variables read at import time, and the answers of the
    services it calls. A service answers [inr] with its payload or [inl]
    with the text of the exception it raises. *)
Record World : Type := {
  (** [repr(v)], used where an f-string prints a float, list or dict. *)
  py_repr : pyval -> string;
  OPENAI_API_KEY : option string;
  GOOGLE_API_KEY : option string;
  SERPAPI_API_KEY : option string;
  BRAVE_API_KEY : option string;
  (** [openai_client.chat.completions.create(model, prompt, temperature)],
      down to [response.choices[0].message.content]. *)
  openai_chat : string -> string -> option Q -> string + string;
  (** [genai.GenerativeModel(model_name).generate_content(prompt, ...)],
      down to [response.text]. *)
  gemini_generate : string -> string -> option Q -> string + string;
  (** [chromadb.Client(...)] and [get_or_create_collection]: what they
      raise, if they do. *)
  chroma_client : option string;
  (** [client.embeddings.create(input=text, model=...)], down to
      [response.data[0].embedding]: a request to OpenAI. *)
  embeddings_create : string -> string + list Q;
  (** Loading the sentence-transformers model, [model.encode(text)] and
      [tolist()]. *)
  local_encode : string -> string + list Q;
  (** [collection.query(query_embeddings=[embedding], n_results=n)]. *)
  collection_query : list Q -> option Z -> string + QueryResult;
  (** [requests.get(url, ...)], [raise_for_status()] and [resp.json()]:
      the decoded body, or the exception of whichever of them raises. *)
  http_get_json : string -> string -> Z -> string + pyval;
  (** Whether a statement against the database raises, and with what. *)
  db_fault : db_step -> option string;
  (** The [n]-th reading of the clock. *)
  clock : nat -> Q
}.

(** What the program does to its surroundings. *)
Inductive event : Type :=
| OpenAICall (model prompt : string)
| GeminiCall (model prompt : string)
| EmbeddingsCall (text : string)
| LocalEncode (text : string)
| ChromaQuery (query_embedding : list Q) (n_results : option Z)
| HttpGet (url query : string)
| LogExecution (workflow_id : option Z) (query response model_used : string)
               (success : bool) (error : option string).

Record State : Type := {
  trace : list event;
  execution_logs : list ExecutionLogEntry;
  ticks : nat
}.

(** Python statements: they read and change the state, and return a value
    or raise. What was done before an exception stays done. *)
Definition M (A : Type) : Type := State -> result A * State.

#[export] Instance Monad_M : Monad M :=
  {| ret := fun _ a st => (Ok a, st);
     bind := fun _ _ c k st =>
               match c st with
               | (Ok a, st') => k a st'
               | (Raise e, st') => (Raise e, st')
               end |}.

(** [try: c  except Exception as e: h e]. *)
#[export] Instance Exc_M : MonadExc exn M :=
  {| raise := fun _ e st => (Raise e, st);
     catch := fun _ c h st =>
                match c st with
                | (Ok a, st') => (Ok a, st')
                | (Raise e, st') => h e st'
                end |}.

(** A computation without effect, run as a statement. *)
Definition lift {A : Type} (r : result A) : M A := fun st => (r, st).

Definition emit (ev : event) : M unit :=
  fun st => (Ok tt, {| trace := trace st ++ [ev];
                       execution_logs := execution_logs st;
                       ticks := ticks st |}).

(** [time.time()] and [datetime.utcnow()]. *)
Definition now (w : World) : M Q :=
  fun st => (Ok (clock w (ticks st)),
             {| trace := trace st;
                execution_logs := execution_logs st;
                ticks := S (ticks st) |}).

Definition insert_row (row : ExecutionLogEntry) : M unit :=
  fun st => (Ok tt, {| trace := trace st;
                       execution_logs := execution_logs st ++ [row];
                       ticks := ticks st |}).

(** A statement against the database. *)
Definition db (w : World) (step : db_step) : M unit :=
  match db_fault w step with
  | Some msg => raise (ExternalError msg)
  | None => ret tt
  end.

(** A call into a client library. *)
Definition external {A : Type} (answer : string + A) : M A :=
  match answer with
  | inr a => ret a
  | inl msg => raise (ExternalError msg)
  end.

(** [bool(os.getenv(NAME))]: set and not empty. *)
Definition env_set (v : option string) : bool :=
  match v with
  | Some s => negb (String.eqb s "")
  | None => false
  end.

(** [str(v)] as an f-string field prints it. *)
Definition py_str (w : World) (v : pyval) : string :=
  match v with
  | PyNone => "None"
  | PyBool true => "True"
  | PyBool false => "False"
  | PyInt n => str_int n
  | PyStr s => s
  | _ => py_repr w v
  end.

(** [str(e)]. *)
Definition str_exn (w : World) (e : exn) : string :=
  match e with
  | Exception msg => msg
  | KeyError key => py_repr w key
  | TypeError msg => msg
  | AttributeError msg => msg
  | ExternalError msg => msg
  | HTTPException status_code detail => (str_int status_code ++ ": " ++ detail)%string
  end.

End Runtime.
(* ===================================================================== *)
(** * services/embeddings.py: [split_text_into_chunks] *)
(* ===================================================================== *)

Module Embeddings.
Import PyVal Runtime.

Section Chunking.
(** A Python [str] is a sequence of characters; the chunker only takes its
    length and slices of it, so the character type is left open. *)
Context {char : Type}.

(** The [while start < len(text)] loop. [fuel] bounds the number of
    iterations; [None] means the bound was reached before the loop ended.

<<
    while start < len(text):
        end = start + chunk_size
        chunk = text[start:end]
        chunks.append(chunk)
        start = end - overlap
        if start >= len(text):
            break
    return chunks
>> *)
Fixpoint chunk_loop (fuel : nat) (t : list char) (chunk_size overlap : Z)
         (start : Z) (chunks : list (list char)) : option (list (list char)) :=
  match fuel with
  | O => None
  | S fuel' =>
      if start <? Py.len t then
        let end_ := start + chunk_size in
        let chunk := Py.slice t start end_ in
        let chunks' := chunks ++ [chunk] in
        let start' := end_ - overlap in
        if start' >=? Py.len t then Some chunks'
        else chunk_loop fuel' t chunk_size overlap start' chunks'
      else Some chunks
  end.

Definition split_text_into_chunks (fuel : nat) (t : list char)
           (chunk_size overlap : Z) : option (list (list char)) :=
  if Py.len t <=? chunk_size then Some [t]
  else chunk_loop fuel t chunk_size overlap 0 [].

End Chunking.

Section Search.
Local Open Scope monad_scope.
Local Open Scope string_scope.
Variable w : World.

(** [generate_embeddings_local], as the search runs it. The indexing of a
    document runs the same two functions; [Indexing] has them over the
    record of what the indexing does. *)
Definition generate_embeddings_local (text : string) : M (list Q) :=
  catch
    (emit (LocalEncode text) ;;
     external (local_encode w text))
    (fun e => raise (Exception ("Error generating local embeddings: "
                                ++ str_exn w e))).

(** [generate_embeddings]: the request to OpenAI, and the local model when
    that raises. *)
Definition generate_embeddings (text : string) : M (list Q) :=
  catch
    (emit (EmbeddingsCall text) ;;
     external (embeddings_create w text))
    (fun e => generate_embeddings_local text).

(** [search_similar_chunks]: the client, the embedding of the query and the
    query itself all happen inside one [try]. *)
Definition search_similar_chunks (query : string) (n_results : option Z)
  : M QueryResult :=
  catch
    (match chroma_client w with
     | Some msg => raise (ExternalError msg)
     | None => ret tt
     end ;;
     query_embedding <- generate_embeddings query ;;
     emit (ChromaQuery query_embedding n_results) ;;
     external (collection_query w query_embedding n_results))
    (fun e => raise (Exception ("Error searching similar chunks: " ++ str_exn w e))).

End Search.
End Embeddings.


(* ===================================================================== *)
(** * services/web_search.py *)
(* ===================================================================== *)

Module WebSearch.
Import PyVal Runtime.
Local Open Scope monad_scope.
Local Open Scope string_scope.

Section WithWorld.
Variable w : World.

(** The f-string [f"{title}: {snippet} ({link})"]. *)
Definition entry (title snippet link : pyval) : string :=
  py_str w title ++ ": " ++ py_str w snippet ++ " (" ++ py_str w link ++ ")".

(** The [for item in ...] loop of [serpapi_search]. *)
Fixpoint serpapi_items (items : list pyval) (results : list string)
  : result (list string) :=
  match items with
  | [] => ret results
  | item :: rest =>
      title <- get item "title" PyNone ;;
      snippet <- get item "snippet" PyNone ;;
      link <- get item "link" PyNone ;;
      serpapi_items rest (results ++ [entry title snippet link])
  end.

Definition serpapi_search (query : string) (num_results : Z) : M (list string) :=
  if negb (env_set (SERPAPI_API_KEY w)) then
    raise (Exception "SerpAPI key not set in environment.")
  else
    let url := "https://serpapi.com/search.json" in
    emit (HttpGet url query) ;;
    data <- external (http_get_json w url query num_results) ;;
    organic <- lift (get data "organic_results" (PyList [])) ;;
    shown <- lift (slice_to organic num_results) ;;
    items <- lift (iter shown) ;;
    lift (serpapi_items items []).

(** The [for item in ...] loop of [brave_search]. *)
Fixpoint brave_items (items : list pyval) (results : list string)
  : result (list string) :=
  match items with
  | [] => ret results
  | item :: rest =>
      title <- get item "title" PyNone ;;
      desc <- get item "description" PyNone ;;
      url <- get item "url" PyNone ;;
      brave_items rest (results ++ [entry title desc url])
  end.

Definition brave_search (query : string) (num_results : Z) : M (list string) :=
  if negb (env_set (BRAVE_API_KEY w)) then
    raise (Exception "Brave API key not set in environment.")
  else
    let url := "https://api.search.brave.com/res/v1/web/search" in
    emit (HttpGet url query) ;;
    data <- external (http_get_json w url query num_results) ;;
    web <- lift (get data "web" (PyDict [])) ;;
    found <- lift (get web "results" (PyList [])) ;;
    shown <- lift (slice_to found num_results) ;;
    items <- lift (iter shown) ;;
    lift (brave_items items []).

(** Try SerpAPI first, then Brave. *)
Definition web_search (query : string) (num_results : Z) : M (list string) :=
  catch (serpapi_search query num_results)
        (fun e => catch (brave_search query num_results)
                        (fun e2 => ret [])).

End WithWorld.
End WebSearch.

(* ===================================================================== *)
(** * services/llm_service.py *)
(* ===================================================================== *)

Module LLMService.
Import PyVal Runtime.
Local Open Scope monad_scope.
Local Open Scope string_scope.

(** The dict [response_data] of [generate_response]. *)
Record response_data : Type := {
  response : string;
  model_used : string;
  success : bool;
  error : string
}.

Definition set_response (r : string) (d : response_data) : response_data :=
  {| response := r; model_used := model_used d;
     success := success d; error := error d |}.

Definition set_model_used (m : string) (d : response_data) : response_data :=
  {| response := response d; model_used := m;
     success := success d; error := error d |}.

Definition set_success (b : bool) (d : response_data) : response_data :=
  {| response := response d; model_used := model_used d;
     success := b; error := error d |}.

Definition set_error (e : string) (d : response_data) : response_data :=
  {| response := response d; model_used := model_used d;
     success := success d; error := e |}.

Section WithWorld.
Variable w : World.

(** [self.openai_available], [self.gemini_available]. *)
Definition openai_available : bool := env_set (OPENAI_API_KEY w).
Definition gemini_available : bool := env_set (GOOGLE_API_KEY w).

Definition build_prompt (query context : string) : string :=
  if negb (String.eqb context "") then
    "Context: " ++ context ++ blank_line ++ "Question: " ++ query ++ blank_line ++ "Answer:"
  else
    "Question: " ++ query ++ blank_line ++ "Answer:".

Definition generate_response_openai
           (query context model : string) (temperature : option Q) : M string :=
  catch
    (let prompt := build_prompt query context in
     emit (OpenAICall model prompt) ;;
     external (openai_chat w model prompt temperature))
    (fun e => raise (Exception ("OpenAI API error: " ++ str_exn w e))).

Definition gemini_models : list string :=
  ["gemini-1.5-pro"; "gemini-1.5-flash"; "gemini-pro"].

(** The [for model_name in gemini_models] loop: the first model that
    answers ends it; a model that raises is passed over. *)
Fixpoint gemini_loop (models : list string) (prompt : string)
         (temperature : option Q) : M string :=
  match models with
  | [] => raise (Exception "All Gemini models are unavailable")
  | model_name :: rest =>
      catch
        (emit (GeminiCall model_name prompt) ;;
         external (gemini_generate w model_name prompt temperature))
        (fun e => gemini_loop rest prompt temperature)
  end.

Definition generate_response_gemini
           (query context : string) (temperature : option Q) : M string :=
  catch
    (let prompt := build_prompt query context in
     gemini_loop gemini_models prompt temperature)
    (fun e => raise (Exception ("Gemini API error: " ++ str_exn w e))).

Definition initial_response_data : response_data :=
  {| response := ""; model_used := ""; success := false; error := "" |}.

(** The three assignments that follow a provider's answer. *)
Definition answered (d : response_data) (text model : string) : response_data :=
  set_success true (set_model_used model (set_response text d)).

(** In every branch the provider is called before [response_data] is
    written, so the handler finds the initial dict. *)
Definition generate_response
           (query context : string) (preferred_model : pyval)
           (temperature : option Q) : M response_data :=
  let response_data := initial_response_data in
  catch
    (if eq_str preferred_model "openai" && openai_available then
       text <- generate_response_openai query context "gpt-4o-mini" temperature ;;
       ret (answered response_data text "openai")
     else if eq_str preferred_model "gemini" && gemini_available then
       text <- generate_response_gemini query context temperature ;;
       ret (answered response_data text "gemini")
     else if eq_str preferred_model "auto" then
       if openai_available then
         catch
           (text <- generate_response_openai query context "gpt-4o-mini" temperature ;;
            ret (answered response_data text "openai"))
           (fun _ =>
              if gemini_available then
                text <- generate_response_gemini query context temperature ;;
                ret (answered response_data text "gemini")
              else raise (Exception "No LLM services available"))
       else if gemini_available then
         text <- generate_response_gemini query context temperature ;;
         ret (answered response_data text "gemini")
       else raise (Exception "No LLM services available")
     else
       raise (Exception ("Preferred model '" ++ py_str w preferred_model
                         ++ "' not available")))
    (fun e => ret (set_success false (set_error (str_exn w e) response_data))).

End WithWorld.
End LLMService.

(* ===================================================================== *)
(** * routes/workflow.py: [run_workflow] and [log_execution] *)
(* ===================================================================== *)

Module Workflow.
Import PyVal Runtime.
Local Open Scope monad_scope.
Local Open Scope string_scope.

Record WorkflowRunRequest : Type := {
  workflow : list (string * pyval);
  query : string;
  preferred_model : option string;
  temperature : option Q;
  use_knowledge_base : option bool;
  max_context_chunks : option Z
}.

Record WorkflowRunResponse : Type := {
  response : string;
  model_used : string;
  context_used : option string;
  success : bool;
  error : option string
}.

(** An [Optional[str]] as a value. *)
Definition opt_str (s : option string) : pyval :=
  match s with Some x => PyStr x | None => PyNone end.

(** [bool(b)] of an [Optional[bool]]. *)
Definition opt_true (b : option bool) : bool :=
  match b with Some x => x | None => false end.

Definition nonempty (s : string) : bool := negb (String.eqb s "").

(** The scan for the LLM Engine node: it stops at the first node whose
    [type] is ["llmEngine"]. *)
Fixpoint find_llm_node (nodes : list pyval) : result (option pyval) :=
  match nodes with
  | [] => ret None
  | n :: rest =>
      ty <- get n "type" PyNone ;;
      if eq_str ty "llmEngine" then ret (Some n) else find_llm_node rest
  end.

(** Lines 40-55: [use_web_search] and [selected_model]. *)
Definition extract_config (workflow : list (string * pyval))
           (preferred_model : option string) : result (pyval * pyval) :=
  let use_web_search := PyBool false in
  let selected_model := opt_str preferred_model in
  if truthy (PyDict workflow) && has_key "nodes" workflow
     && has_key "configs" workflow then
    nodes <- getitem workflow "nodes" ;;
    items <- iter nodes ;;
    llm_node <- find_llm_node items ;;
    match llm_node with
    | Some n =>
        if truthy n then
          node_id <- subscript n "id" ;;
          configs <- getitem workflow "configs" ;;
          llm_config <- get_at configs node_id (PyDict []) ;;
          use_web_search <- get llm_config "useWebSearch" (PyBool false) ;;
          selected_model <- get llm_config "model" (opt_str preferred_model) ;;
          ret (use_web_search, selected_model)
        else ret (use_web_search, selected_model)
    | None => ret (use_web_search, selected_model)
    end
  else ret (use_web_search, selected_model).

(** The [for i, doc in enumerate(...)] loop: an empty document is passed
    over, and keeps its number. *)
Fixpoint context_loop (docs : list (Z * string)) (context_chunks : list string)
  : list string :=
  match docs with
  | [] => context_chunks
  | (i, doc) :: rest =>
      if nonempty doc then
        context_loop rest
          (context_chunks ++ ["Context " ++ str_int (i + 1) ++ ": " ++ doc])
      else context_loop rest context_chunks
  end.

(** What lines 63-69 make of the search results; [context] is what the
    variable held before. *)
Definition format_knowledge_base (search_results : QueryResult) (context : string)
  : string :=
  match documents search_results with
  | Some (first :: _) =>
      match context_loop (enumerate first) [] with
      | [] => context
      | context_chunks => join blank_line context_chunks
      end
  | _ => context
  end.

(** The list comprehension of line 78. *)
Definition format_web_results (web_results : list string) : string :=
  join blank_line
       (map (fun ir => "Web Result " ++ str_int (fst ir + 1) ++ ": " ++ snd ir)
            (enumerate web_results)).

(** Lines 82-84. *)
Definition combine_contexts (context web_context : string) : string :=
  if nonempty web_context then
    if nonempty context then context ++ blank_line ++ web_context
    else web_context
  else context.

Section WithWorld.
Variable w : World.

(** The rows are written with the time of the insert. *)
Definition log_execution (query response model_used : string) (success : bool)
           (error : option string) (workflow_id : option Z)
           (execution_time : option Q) : M unit :=
  emit (LogExecution workflow_id query response model_used success error) ;;
  catch
    (db w DbConnect ;;
     db w DbCursor ;;
     timestamp <- now w ;;
     let row := {| log_workflow_id := workflow_id;
                   log_query := query;
                   log_response := response;
                   log_model_used := model_used;
                   log_success := success;
                   log_error := error;
                   log_execution_time := execution_time;
                   log_timestamp := timestamp |} in
     db w DbExecute ;;
     db w DbCommit ;;
     insert_row row ;;
     db w DbCursorClose ;;
     db w DbClose)
    (fun e => ret tt).

(** Lines 59-71: the knowledge base context. *)
Definition knowledge_base_context (request : WorkflowRunRequest) : M string :=
  let context := "" in
  if opt_true (use_knowledge_base request) then
    catch
      (search_results <-
         Embeddings.search_similar_chunks w (query request)
                                          (max_context_chunks request) ;;
       ret (format_knowledge_base search_results context))
      (fun e => ret context)
  else ret context.

(** Lines 72-80: the web search context. *)
Definition web_search_context (request : WorkflowRunRequest)
           (use_web_search : pyval) : M string :=
  let web_context := "" in
  if truthy use_web_search then
    catch
      (web_results <- WebSearch.web_search w (query request) 3 ;;
       match web_results with
       | [] => ret web_context
       | _ => ret (format_web_results web_results)
       end)
      (fun e => ret web_context)
  else ret web_context.

Definition run_workflow (request : WorkflowRunRequest) : M WorkflowRunResponse :=
  start_time <- now w ;;
  catch
    ('(use_web_search, selected_model) <-
        lift (extract_config (workflow request) (preferred_model request)) ;;
     context <- knowledge_base_context request ;;
     web_context <- web_search_context request use_web_search ;;
     let full_context := combine_contexts context web_context in
     result <- LLMService.generate_response w (query request) full_context
                 selected_model (temperature request) ;;
     end_time <- now w ;;
     let execution_time := (end_time - start_time)%Q in
     log_execution (query request)
                   (LLMService.response result)
                   (LLMService.model_used result)
                   (LLMService.success result)
                   (Some (LLMService.error result))
                   None
                   (Some execution_time) ;;
     ret {| response := LLMService.response result;
            model_used := LLMService.model_used result;
            context_used := if nonempty full_context then Some full_context else None;
            success := LLMService.success result;
            error := Some (LLMService.error result) |})
    (fun e =>
       end_time <- now w ;;
       let execution_time := (end_time - start_time)%Q in
       log_execution (query request) "" "unknown" false
                     (Some (str_exn w e)) None (Some execution_time) ;;
       raise (HTTPException 500 ("Workflow execution error: " ++ str_exn w e))).

End WithWorld.
End Workflow.

(* ===================================================================== *)
(** * routes/chat.py: [chat_query] *)
(* ===================================================================== *)

Module Chat.
Import PyVal Runtime.
Local Open Scope monad_scope.
Local Open Scope string_scope.

Record ChatRequest : Type := {
  query : string;
  preferred_model : option string;
  use_knowledge_base : option bool;
  max_context_chunks : option Z
}.

Record ChatResponse : Type := {
  response : string;
  model_used : string;
  context_used : option string;
  success : bool;
  error : option string
}.

(** The [for i, doc in enumerate(...)] loop of [chat_query]. *)
Fixpoint context_loop (docs : list (Z * string)) (context_chunks : list string)
  : list string :=
  match docs with
  | [] => context_chunks
  | (i, doc) :: rest =>
      if Workflow.nonempty doc then
        context_loop rest
          (context_chunks ++ ["Context " ++ str_int (i + 1) ++ ": " ++ doc])
      else context_loop rest context_chunks
  end.

(** What the search results make of [context]. *)
Definition format_knowledge_base (search_results : QueryResult) (context : string)
  : string :=
  match documents search_results with
  | Some (first :: _) =>
      match context_loop (enumerate first) [] with
      | [] => context
      | context_chunks => join blank_line context_chunks
      end
  | _ => context
  end.

(** The default of the [temperature] parameters of [LLMService]. *)
Definition default_temperature : option Q := Some (7 # 10).

Section WithWorld.
Variable w : World.

(** The knowledge base part of [chat_query]. *)
Definition knowledge_base_context (request : ChatRequest) : M string :=
  let context := "" in
  if Workflow.opt_true (use_knowledge_base request) then
    catch
      (search_results <-
         Embeddings.search_similar_chunks w (query request)
                                          (max_context_chunks request) ;;
       ret (format_knowledge_base search_results context))
      (fun e => ret context)
  else ret context.

Definition chat_query (request : ChatRequest) : M ChatResponse :=
  catch
    (context <- knowledge_base_context request ;;
     result <- LLMService.generate_response w (query request) context
                 (Workflow.opt_str (preferred_model request)) default_temperature ;;
     ret {| response := LLMService.response result;
            model_used := LLMService.model_used result;
            context_used :=
              if Workflow.nonempty context then Some context else None;
            success := LLMService.success result;
            error := Some (LLMService.error result) |})
    (fun e => raise (HTTPException 500 ("Chat processing error: " ++ str_exn w e))).

End WithWorld.
End Chat.

(* ===================================================================== *)
(** * services/llm_service.py: [LLMService.test_models] *)
(* ===================================================================== *)

Module LLMProbe.
Import PyVal Runtime LLMService.
Local Open Scope monad_scope.
Local Open Scope string_scope.

(** The dict [results]. *)
Record model_status : Type := {
  openai : bool;
  gemini : bool
}.

Section WithWorld.
Variable w : World.

Definition test_models : M model_status :=
  let results := {| openai := false; gemini := false |} in
  results <-
    (if openai_available w then
       catch
         (test_response <-
            generate_response_openai w "Hello" "" "gpt-4o-mini"
                                     Chat.default_temperature ;;
          ret {| openai := Workflow.nonempty test_response;
                 gemini := gemini results |})
         (fun _ => ret results)
     else ret results) ;;
  results <-
    (if gemini_available w then
       catch
         (test_response <-
            generate_response_gemini w "Hello" "" Chat.default_temperature ;;
          ret {| openai := openai results;
                 gemini := Workflow.nonempty test_response |})
         (fun _ => ret results)
     else ret results) ;;
  ret results.

End WithWorld.
End LLMProbe.

(* ===================================================================== *)
(** * services/embeddings.py: embeddings and [store_embeddings_in_chroma] *)
(* ===================================================================== *)

Module Indexing.
Import PyVal Runtime.
Local Open Scope monad_scope.
Local Open Scope string_scope.

(** An embedding vector. *)
Definition embedding : Type := list Q.

(** The dict [metadata] of a chunk. *)
Record Metadata : Type := {
  document_id : Z;
  filename : string;
  chunk_index : Z;
  chunk_size : Z
}.

(** The arguments of [collection.add]. *)
Record AddCall : Type := {
  embeddings : list embedding;
  documents : list string;
  metadatas : list Metadata;
  ids : list string
}.

(** The services of the indexing side. As in [World], each answers with
    its payload or with the text of the exception it raises. *)
Record Backends : Type := {
  runtime : World;
  (** [client.embeddings.create(input=text, ...).data[0].embedding]. *)
  openai_embedding : string -> string + embedding;
  (** Loading the sentence-transformers model and [model.encode(text)]. *)
  local_embedding : string -> string + embedding;
  (** [chromadb.Client(...)] and [get_or_create_collection]: what they
      raise, if they do. *)
  chroma_collection : option string;
  (** What [collection.add] raises on these arguments, if it does. *)
  chroma_add : AddCall -> option string
}.

(** What the indexing does outside the process; an add is on record when
    [collection.add] has returned. *)
Inductive action : Type :=
| EmbedRemote (text : string)
| EmbedLocal (text : string)
| ChromaAdd (call : AddCall).

(** Statements of the indexing side: the state is the record of actions. *)
Definition I (A : Type) : Type := list action -> result A * list action.

#[export] Instance Monad_I : Monad I :=
  {| ret := fun _ a s => (Ok a, s);
     bind := fun _ _ c k s =>
               match c s with
               | (Ok a, s') => k a s'
               | (Raise e, s') => (Raise e, s')
               end |}.

#[export] Instance Exc_I : MonadExc exn I :=
  {| raise := fun _ e s => (Raise e, s);
     catch := fun _ c h s =>
                match c s with
                | (Ok a, s') => (Ok a, s')
                | (Raise e, s') => h e s'
                end |}.

Definition act (a : action) : I unit := fun s => (Ok tt, (s ++ [a])%list).

Definition call_out {A : Type} (answer : string + A) : I A :=
  match answer with
  | inr a => ret a
  | inl msg => raise (ExternalError msg)
  end.

(** The f-string [f"doc_{document_id}_chunk_{i}"]. *)
Definition chunk_id (document_id i : Z) : string :=
  "doc_" ++ str_int document_id ++ "_chunk_" ++ str_int i.

Section WithBackends.
Variable b : Backends.

Definition generate_embeddings_local (text : string) : I embedding :=
  catch
    (act (EmbedLocal text) ;;
     call_out (local_embedding b text))
    (fun e => raise (Exception ("Error generating local embeddings: "
                                ++ str_exn (runtime b) e))).

Definition generate_embeddings (text : string) : I embedding :=
  catch
    (act (EmbedRemote text) ;;
     call_out (openai_embedding b text))
    (fun e => generate_embeddings_local text).

(** The [for i, chunk in enumerate(text_chunks)] loop. *)
Fixpoint store_loop (chunks : list (Z * string)) (doc_id : Z) (file : string)
         (embeddings : list embedding) (metadatas : list Metadata)
         (ids : list string)
  : I (list embedding * list Metadata * list string) :=
  match chunks with
  | [] => ret (embeddings, metadatas, ids)
  | (i, chunk) :: rest =>
      embedding <- generate_embeddings chunk ;;
      let metadata := {| document_id := doc_id;
                         filename := file;
                         chunk_index := i;
                         chunk_size := str_len chunk |} in
      store_loop rest doc_id file
                 (embeddings ++ [embedding])%list (metadatas ++ [metadata])%list
                 (ids ++ [chunk_id doc_id i])%list
  end.

Definition store_embeddings_in_chroma (text_chunks : list string)
           (doc_id : Z) (file : string) : I Z :=
  catch
    (match chroma_collection b with
     | Some msg => raise (ExternalError msg)
     | None => ret tt
     end ;;
     lists <- store_loop (enumerate text_chunks) doc_id file [] [] [] ;;
     let '(embeddings, metadatas, ids) := lists in
     let call := {| embeddings := embeddings;
                    documents := text_chunks;
                    metadatas := metadatas;
                    ids := ids |} in
     match chroma_add b call with
     | Some msg => raise (ExternalError msg)
     | None => act (ChromaAdd call)
     end ;;
     ret (Z.of_nat (length text_chunks)))
    (fun e => raise (Exception ("Error storing embeddings in ChromaDB: "
                                ++ str_exn (runtime b) e))).

End WithBackends.
End Indexing.

(* ===================================================================== *)
(** * routes/workflow.py: the workflow templates and the chat history *)
(* ===================================================================== *)

Module Templates.
Import PyVal Runtime.
Local Open Scope monad_scope.
Local Open Scope string_scope.
Local Open Scope Z_scope.

(** An entry of the literal [DEFAULT_TEMPLATES]: a dict with these five
    keys. *)
Module Entry.
Record t : Type := {
  name : string;
  description : string;
  category : string;
  tags : list string;
  definition : pyval
}.
End Entry.

Record WorkflowTemplate : Type := {
  id : option Z;
  name : string;
  description : string;
  category : string;
  definition : pyval;
  tags : list string;
  created_at : option string
}.

Record TemplateListResponse : Type := {
  templates : list WorkflowTemplate;
  success : bool;
  error : option string
}.

(** [l[i]] on a list. *)
Definition list_index {A : Type} (l : list A) (i : Z) : result A :=
  let n := Py.len l in
  let j := if i <? 0 then i + n else i in
  if (j <? 0) || (n <=? j) then Raise (Exception "list index out of range")
  else match nth_error l (Z.to_nat j) with
       | Some a => Ok a
       | None => Raise (Exception "list index out of range")
       end.

Section WithTable.
Variable w : World.
(** [datetime.isoformat]. *)
Variable isoformat : Q -> string.
Variable DEFAULT_TEMPLATES : list Entry.t.

(** The [for i, template in enumerate(DEFAULT_TEMPLATES)] loop. *)
Fixpoint templates_loop (items : list (Z * Entry.t))
         (templates : list WorkflowTemplate) : M (list WorkflowTemplate) :=
  match items with
  | [] => ret templates
  | (i, template) :: rest =>
      utcnow <- now w ;;
      templates_loop rest
        (templates ++ [{| id := Some (i + 1);
                          name := Entry.name template;
                          description := Entry.description template;
                          category := Entry.category template;
                          definition := Entry.definition template;
                          tags := Entry.tags template;
                          created_at := Some (isoformat utcnow) |}])%list
  end.

Definition get_workflow_templates : M TemplateListResponse :=
  catch
    (templates <- templates_loop (enumerate DEFAULT_TEMPLATES) [] ;;
     ret {| templates := templates; success := true; error := None |})
    (fun e => ret {| templates := []; success := false;
                     error := Some (str_exn w e) |}).

Definition get_workflow_template (template_id : Z) : M WorkflowTemplate :=
  catch
    ((if (template_id <=? 0) || (Py.len DEFAULT_TEMPLATES <? template_id)
      then raise (HTTPException 404 "Template not found")
      else ret tt) ;;
     template <- lift (list_index DEFAULT_TEMPLATES (template_id - 1)) ;;
     utcnow <- now w ;;
     ret {| id := Some template_id;
            name := Entry.name template;
            description := Entry.description template;
            category := Entry.category template;
            definition := Entry.definition template;
            tags := Entry.tags template;
            created_at := Some (isoformat utcnow) |})
    (fun e => raise (HTTPException 500 (str_exn w e))).

End WithTable.
End Templates.

Module ChatHistory.
Import PyVal Runtime.
Local Open Scope string_scope.

Record ChatMessage : Type := {
  id : option Z;
  workflow_id : option Z;
  sender : string;
  message : string;
  model_used : option string;
  is_workflow : option bool;
  timestamp : option string
}.

(** The values [save_chat_history] passes to its INSERT for one message:
    [workflow_id], [user_message], [bot_response], [timestamp]. *)
Definition insert_values (request_workflow_id : Z) (msg : ChatMessage)
           (utcnow : Q) : Z * string * string * Q :=
  (request_workflow_id,
   if String.eqb (sender msg) "user" then message msg else "",
   if String.eqb (sender msg) "bot" then message msg else "",
   utcnow).

(** A row of [chatlogs], as [get_chat_history] selects it: [id],
    [workflow_id], [user_message], [bot_response], [timestamp]; the last
    four columns can be NULL. *)
Record Row : Type := {
  row_0 : Z;
  row_1 : option Z;
  row_2 : option string;
  row_3 : option string;
  row_4 : option Q
}.

(** [if row[k]] on a text column. *)
Definition text_set (v : option string) : option string :=
  match v with
  | Some s => if String.eqb s "" then None else Some s
  | None => None
  end.

Section WithClock.
(** [datetime.isoformat]. *)
Variable isoformat : Q -> string.

(** One round of the [for row in rows] loop of [get_chat_history]: the
    messages it appends. The default of [is_workflow] is [False]. *)
Definition row_messages (row : Row) : list ChatMessage :=
  (match text_set (row_2 row) with
   | Some text =>
       [{| id := Some (row_0 row);
           workflow_id := row_1 row;
           sender := "user";
           message := text;
           model_used := None;
           is_workflow := Some false;
           timestamp := option_map isoformat (row_4 row) |}]
   | None => []
   end ++
   match text_set (row_3 row) with
   | Some text =>
       [{| id := Some (row_0 row);
           workflow_id := row_1 row;
           sender := "bot";
           message := text;
           model_used := None;
           is_workflow := Some false;
           timestamp := option_map isoformat (row_4 row) |}]
   | None => []
   end)%list.

Fixpoint messages_loop (rows : list Row) (messages : list ChatMessage)
  : list ChatMessage :=
  match rows with
  | [] => messages
  | row :: rest => messages_loop rest (messages ++ row_messages row)%list
  end.

End WithClock.
End ChatHistory.

(* ===================================================================== *)
(** * Vocabulary of the properties *)
(* ===================================================================== *)

Module Observations.
Import PyVal Runtime.

(** ** Chunks of a text *)

Section Chunks.
Context {char : Type}.

(** The window opened at [start]. *)
Definition window (t : list char) (chunk_size start : Z) : list char :=
  Py.slice t start (start + chunk_size).

(** Number of window starts [0, step, 2*step, ...] below [len t]. *)
Definition window_count (t : list char) (step : Z) : nat :=
  Z.to_nat ((Py.len t + step - 1) / step).

(** The windows at [0, step, 2*step, ...], the last one possibly partial. *)
Definition windows (t : list char) (chunk_size overlap : Z) : list (list char) :=
  let step := chunk_size - overlap in
  map (fun k => window t chunk_size (Z.of_nat k * step))
      (seq 0 (window_count t step)).

(** Every window has [chunk_size] characters, or stops at the end of the
    text. *)
Definition full_or_final (t : list char) (chunk_size step : Z)
           (chunks : list (list char)) : Prop :=
  forall k c,
    nth_error chunks k = Some c ->
    Py.len c = Z.min chunk_size (Py.len t - Z.of_nat k * step).

(** Coverage without gap: the first [step] characters of every chunk,
    put end to end, give the text back. *)
Definition covers (t : list char) (step : Z) (chunks : list (list char)) : Prop :=
  concat (map (firstn (Z.to_nat step)) chunks) = t.

(** What a chunk has in common with its successor: the part of it that
    lies at or after the successor's start. *)
Definition carried_over (step : Z) (c : list char) : list char :=
  skipn (Z.to_nat step) c.

(** Adjacent chunks share exactly [overlap] characters. *)
Definition adjacent_share_exactly (step overlap : Z) (chunks : list (list char)) : Prop :=
  forall i c d,
    nth_error chunks i = Some c ->
    nth_error chunks (S i) = Some d ->
    carried_over step c = firstn (Z.to_nat overlap) d /\
    Py.len (carried_over step c) = overlap.

(** Adjacent chunks share [overlap] characters, or the whole of the later
    chunk when that one is shorter than [overlap]. *)
Definition adjacent_share_upto (step overlap : Z) (chunks : list (list char)) : Prop :=
  forall i c d,
    nth_error chunks i = Some c ->
    nth_error chunks (S i) = Some d ->
    carried_over step c = firstn (Z.to_nat overlap) d /\
    Py.len (carried_over step c) = Z.min overlap (Py.len d).

(** The chunking contract, word for word: [share] is the statement about
    adjacent chunks. *)
Definition chunk_contract
           (share : Z -> Z -> list (list char) -> Prop)
           (t : list char) (chunk_size overlap : Z) : Prop :=
  exists chunks,
    (forall fuel, (length t <= fuel)%nat ->
       Embeddings.split_text_into_chunks fuel t chunk_size overlap = Some chunks) /\
    (Py.len t <= chunk_size -> chunks = [t]) /\
    (chunk_size < Py.len t ->
       chunks = windows t chunk_size overlap /\
       full_or_final t chunk_size (chunk_size - overlap) chunks /\
       covers t (chunk_size - overlap) chunks /\
       Forall (fun c => c <> []) chunks /\
       share (chunk_size - overlap) overlap chunks).

End Chunks.

Local Open Scope string_scope.

(** A text written as a literal. *)
Definition chars (s : string) : list ascii := list_ascii_of_string s.

(** ** Results of [generate_response] *)

(** After a provider's answer. *)
Definition answer (text model : string) : LLMService.response_data :=
  {| LLMService.response := text;
     LLMService.model_used := model;
     LLMService.success := true;
     LLMService.error := "" |}.

(** After an exception. *)
Definition failure (message : string) : LLMService.response_data :=
  {| LLMService.response := "";
     LLMService.model_used := "";
     LLMService.success := false;
     LLMService.error := message |}.

(** The state once the call to OpenAI has been recorded. *)
Definition after_openai (query context : string) (st : State) : State :=
  {| trace := trace st
              ++ [OpenAICall "gpt-4o-mini" (LLMService.build_prompt query context)];
     execution_logs := execution_logs st;
     ticks := ticks st |}.

(** ** Web search results *)

(** A result string has the shape [title: snippet (link)]. *)
Definition formatted (w : World) (s : string) : Prop :=
  exists title snippet link, s = WebSearch.entry w title snippet link.

(** ** Calls of [log_execution] *)

Definition is_log (ev : event) : bool :=
  match ev with
  | LogExecution _ _ _ _ _ _ => true
  | _ => false
  end.

(** The calls of [log_execution] so far, oldest first. *)
Definition log_calls (st : State) : list event := filter is_log (trace st).

(** From [st] to [st'] nothing was logged. *)
Definition quiet (st st' : State) : Prop :=
  log_calls st' = log_calls st /\ execution_logs st' = execution_logs st.

(** A statement that logs nothing. *)
Definition Quiet {A : Type} (c : M A) : Prop :=
  forall st, quiet st (snd (c st)).

(** A statement that never raises. *)
Definition Total {A : Type} (c : M A) : Prop :=
  forall st, exists a st', c st = (Ok a, st').

(** One more reading of the clock. *)
Definition tick (st : State) : State :=
  {| trace := trace st; execution_logs := execution_logs st; ticks := S (ticks st) |}.

(** The same surroundings with another database. *)
Definition with_db_fault (fault : db_step -> option string) (w : World) : World :=
  {| py_repr := py_repr w;
     OPENAI_API_KEY := OPENAI_API_KEY w;
     GOOGLE_API_KEY := GOOGLE_API_KEY w;
     SERPAPI_API_KEY := SERPAPI_API_KEY w;
     BRAVE_API_KEY := BRAVE_API_KEY w;
     openai_chat := openai_chat w;
     gemini_generate := gemini_generate w;
     chroma_client := chroma_client w;
     embeddings_create := embeddings_create w;
     local_encode := local_encode w;
     collection_query := collection_query w;
     http_get_json := http_get_json w;
     db_fault := fault;
     clock := clock w |}.

(** ** The assembled context *)

(** [Context N: text] for the document numbered [N - 1]. *)
Definition context_line (numbered : Z * string) : string :=
  "Context " ++ str_int (fst numbered + 1) ++ ": " ++ snd numbered.

(** [Web Result N: snippet]. *)
Definition web_line (numbered : Z * string) : string :=
  "Web Result " ++ str_int (fst numbered + 1) ++ ": " ++ snd numbered.

Definition has_text (numbered : Z * string) : bool :=
  Workflow.nonempty (snd numbered).

(** The knowledge base context with every retrieved chunk in it. *)
Definition every_chunk_context (chunks : list string) : string :=
  join blank_line (map context_line (enumerate chunks)).

(** The knowledge base context with the chunks that have text, each under
    its number in the retrieved list. *)
Definition chunks_with_text_context (chunks : list string) : string :=
  join blank_line (map context_line (filter has_text (enumerate chunks))).

(** ** Workflow definitions *)

(** A node the scan passes over: a dict whose [type] is not "llmEngine". *)
Definition passed_over (n : pyval) : Prop :=
  exists ty, get n "type" PyNone = Ok ty /\ eq_str ty "llmEngine" = false.

(** [d[key] = v]. *)
Fixpoint setitem (key : string) (v : pyval) (d : list (string * pyval))
  : list (string * pyval) :=
  match d with
  | [] => [(key, v)]
  | (k, x) :: d' =>
      if String.eqb k key then (k, v) :: d' else (k, x) :: setitem key v d'
  end.

(** Applies [f] to the value found under [key], if there is one. *)
Fixpoint update (key : string) (f : pyval -> pyval) (d : list (string * pyval))
  : list (string * pyval) :=
  match d with
  | [] => []
  | (k, x) :: d' =>
      if String.eqb k key then (k, f x) :: d' else (k, x) :: update key f d'
  end.

Definition on_dict (f : list (string * pyval) -> list (string * pyval)) (v : pyval)
  : pyval :=
  match v with
  | PyDict d => PyDict (f d)
  | _ => v
  end.

(** The definition after [definition["configs"][node_id][field] = v]. *)
Definition set_config_field (node_id field : string) (v : pyval)
           (definition : list (string * pyval)) : list (string * pyval) :=
  update "configs" (on_dict (update node_id (on_dict (setitem field v)))) definition.

(** ** Runs of the workflow *)

(** The insert reaches [conn.commit()] and that returns. *)
Definition commits (w : World) : bool :=
  match db_fault w DbConnect, db_fault w DbCursor,
        db_fault w DbExecute, db_fault w DbCommit with
  | None, None, None, None => true
  | _, _, _, _ => false
  end.

(** The row [log_execution] inserts when called in state [st]. *)
Definition row_of (w : World) (st : State) (query response model_used : string) (success : bool)
           (error : option string) (workflow_id : option Z)
           (execution_time : option Q) : ExecutionLogEntry :=
  {| log_workflow_id := workflow_id;
     log_query := query;
     log_response := response;
     log_model_used := model_used;
     log_success := success;
     log_error := error;
     log_execution_time := execution_time;
     log_timestamp := clock w (ticks st) |}.

(** The call of [log_execution] a row comes from. *)
Definition entry_of (row : ExecutionLogEntry) : event :=
  LogExecution (log_workflow_id row) (log_query row) (log_response row)
               (log_model_used row) (log_success row) (log_error row).

(** ** The vector index *)

(** The embedding [generate_embeddings] has for a text: OpenAI's, the local
    model's when OpenAI raises, or the message of the local model when
    both raise. *)
Definition embedding_of (w : World) (text : string) : string + list Q :=
  match embeddings_create w text with
  | inr v => inr v
  | inl _ => local_encode w text
  end.

(** What the vector index answers to a query: the client, the embedding
    of the query and [collection.query] on it, in this order; the answer of
    the collection, or the message of the first of them that raises. *)
Definition chroma_query (w : World) (query : string) (n_results : option Z)
  : string + QueryResult :=
  match chroma_client w with
  | Some msg => inl msg
  | None =>
      match embedding_of w query with
      | inr v => collection_query w v n_results
      | inl msg => inl ("Error generating local embeddings: " ++ msg)
      end
  end.

(** What a search of the index does on the way: nothing when the client
    raises; else the request to OpenAI for the embedding, the local model
    when that request raises, and the query of the collection once there is
    an embedding. *)
Definition search_events (w : World) (query : string) (n_results : option Z)
  : list event :=
  match chroma_client w with
  | Some _ => []
  | None =>
      EmbeddingsCall query ::
      match embeddings_create w query with
      | inr v => [ChromaQuery v n_results]
      | inl _ =>
          LocalEncode query ::
          match local_encode w query with
          | inr v => [ChromaQuery v n_results]
          | inl _ => []
          end
      end
  end.

(** The state once the search of the vector index has been recorded. *)
Definition after_chroma_query (w : World) (request : Workflow.WorkflowRunRequest)
           (st : State) : State :=
  {| trace := trace st ++ search_events w (Workflow.query request)
                                        (Workflow.max_context_chunks request);
     execution_logs := execution_logs st;
     ticks := ticks st |}.

(** The response built from the result of the generation. *)
Definition respond (result : LLMService.response_data) (full_context : string)
  : Workflow.WorkflowRunResponse :=
  {| Workflow.response := LLMService.response result;
     Workflow.model_used := LLMService.model_used result;
     Workflow.context_used :=
       if Workflow.nonempty full_context then Some full_context else None;
     Workflow.success := LLMService.success result;
     Workflow.error := Some (LLMService.error result) |}.

(** The same request with another workflow definition. *)
Definition with_workflow (definition : list (string * pyval))
           (request : Workflow.WorkflowRunRequest) : Workflow.WorkflowRunRequest :=
  {| Workflow.workflow := definition;
     Workflow.query := Workflow.query request;
     Workflow.preferred_model := Workflow.preferred_model request;
     Workflow.temperature := Workflow.temperature request;
     Workflow.use_knowledge_base := Workflow.use_knowledge_base request;
     Workflow.max_context_chunks := Workflow.max_context_chunks request |}.

End Observations.

(* ===================================================================== *)
(** * Some surroundings to run the program in *)
(* ===================================================================== *)

Module Scenarios.
Import PyVal Runtime.
Local Open Scope string_scope.

(** No credential is set and no service answers; the local embedding model
    and the database work. *)
Definition offline : World :=
  {| py_repr := fun _ => "<repr>";
     OPENAI_API_KEY := None;
     GOOGLE_API_KEY := None;
     SERPAPI_API_KEY := None;
     BRAVE_API_KEY := None;
     openai_chat := fun _ _ _ => inl "Connection error.";
     gemini_generate := fun _ _ _ => inl "Connection error.";
     chroma_client := None;
     embeddings_create := fun _ => inl "Connection error.";
     local_encode := fun _ => inr [1 # 2; 1 # 4];
     collection_query := fun _ _ => inl "Connection error.";
     http_get_json := fun _ _ _ => inl "Connection error.";
     db_fault := fun _ => None;
     clock := fun n => inject_Z (Z.of_nat n) |}.

(** Both LLM credentials are set; OpenAI refuses every request and Gemini
    answers "ok". *)
Definition openai_down : World :=
  {| py_repr := py_repr offline;
     OPENAI_API_KEY := Some "sk-test";
     GOOGLE_API_KEY := Some "g-test";
     SERPAPI_API_KEY := None;
     BRAVE_API_KEY := None;
     openai_chat := fun _ _ _ => inl "Rate limit reached";
     gemini_generate := fun _ _ _ => inr "ok";
     chroma_client := chroma_client offline;
     embeddings_create := embeddings_create offline;
     local_encode := local_encode offline;
     collection_query := collection_query offline;
     http_get_json := http_get_json offline;
     db_fault := db_fault offline;
     clock := clock offline |}.

(** Only the Gemini credential is set, and Gemini answers "ok". *)
Definition gemini_only : World :=
  {| py_repr := py_repr offline;
     OPENAI_API_KEY := None;
     GOOGLE_API_KEY := Some "g-test";
     SERPAPI_API_KEY := None;
     BRAVE_API_KEY := None;
     openai_chat := openai_chat offline;
     gemini_generate := fun _ _ _ => inr "ok";
     chroma_client := chroma_client offline;
     embeddings_create := embeddings_create offline;
     local_encode := local_encode offline;
     collection_query := collection_query offline;
     http_get_json := http_get_json offline;
     db_fault := db_fault offline;
     clock := clock offline |}.

(** The index holds "foo" and "bar"; Brave finds one page; OpenAI answers. *)
Definition online : World :=
  {| py_repr := py_repr offline;
     OPENAI_API_KEY := Some "sk-test";
     GOOGLE_API_KEY := None;
     SERPAPI_API_KEY := None;
     BRAVE_API_KEY := Some "b-test";
     openai_chat := fun _ _ _ => inr "ok";
     gemini_generate := gemini_generate offline;
     chroma_client := None;
     embeddings_create := fun _ => inr [1 # 3; 2 # 3];
     local_encode := local_encode offline;
     collection_query := fun _ _ => inr {| documents := Some [["foo"; "bar"]] |};
     http_get_json := fun _ _ _ =>
       inr (PyDict [("web", PyDict [("results", PyList [
              PyDict [("title", PyStr "Baz"); ("description", PyStr "a page");
                      ("url", PyStr "https://baz.example")]])])]);
     db_fault := db_fault offline;
     clock := clock offline |}.

(** A request without workflow definition: everything at its default. *)
Definition plain_request : Workflow.WorkflowRunRequest :=
  {| Workflow.workflow := [];
     Workflow.query := "hi";
     Workflow.preferred_model := Some "auto";
     Workflow.temperature := None;
     Workflow.use_knowledge_base := Some true;
     Workflow.max_context_chunks := Some 3 |}.

(** A definition with a query node and two LLM Engine nodes. *)
Definition query_node : pyval :=
  PyDict [("id", PyStr "query-1"); ("type", PyStr "userQuery")].

Definition first_llm_node : list (string * pyval) :=
  [("id", PyStr "llm-1"); ("type", PyStr "llmEngine")].

Definition second_llm_node : pyval :=
  PyDict [("id", PyStr "llm-2"); ("type", PyStr "llmEngine")].

Definition first_llm_config : list (string * pyval) :=
  [("model", PyStr "gemini"); ("temperature", PyFloat (1 # 2));
   ("useKnowledgeBase", PyBool false); ("maxContextChunks", PyInt 10);
   ("useWebSearch", PyBool true)].

Definition graph_configs : list (string * pyval) :=
  [("llm-2", PyDict [("model", PyStr "openai")]);
   ("llm-1", PyDict first_llm_config)].

Definition graph_request : Workflow.WorkflowRunRequest :=
  {| Workflow.workflow :=
       [("nodes", PyList [query_node; PyDict first_llm_node; second_llm_node]);
        ("edges", PyList []);
        ("configs", PyDict graph_configs)];
     Workflow.query := "hi";
     Workflow.preferred_model := Some "auto";
     Workflow.temperature := None;
     Workflow.use_knowledge_base := Some true;
     Workflow.max_context_chunks := Some 3 |}.

(** A definition whose node list is a number. *)
Definition malformed_request : Workflow.WorkflowRunRequest :=
  {| Workflow.workflow := [("nodes", PyInt 5); ("configs", PyDict [])];
     Workflow.query := "hi";
     Workflow.preferred_model := Some "auto";
     Workflow.temperature := None;
     Workflow.use_knowledge_base := Some true;
     Workflow.max_context_chunks := Some 3 |}.

(** As [offline], with a database that refuses connections. *)
Definition database_down : World :=
  {| py_repr := py_repr offline;
     OPENAI_API_KEY := None;
     GOOGLE_API_KEY := None;
     SERPAPI_API_KEY := None;
     BRAVE_API_KEY := None;
     openai_chat := openai_chat offline;
     gemini_generate := gemini_generate offline;
     chroma_client := chroma_client offline;
     embeddings_create := embeddings_create offline;
     local_encode := local_encode offline;
     collection_query := collection_query offline;
     http_get_json := http_get_json offline;
     db_fault := fun _ => Some "connection refused";
     clock := clock offline |}.

Definition start : State :=
  {| trace := []; execution_logs := []; ticks := 0 |}.

End Scenarios.

(* ===================================================================== *)
(** * Counting what a statement does *)
(* ===================================================================== *)

Module Measures.
Import PyVal Runtime.

(** The state with more calls on record. *)
Definition add_events (evs : list event) (st : State) : State :=
  {| trace := trace st ++ evs;
     execution_logs := execution_logs st;
     ticks := ticks st |}.

(** The calls the Gemini loop makes when it goes through [models]. *)
Definition gemini_calls (models : list string) (prompt : string) : list event :=
  map (fun model_name => GeminiCall model_name prompt) models.

(** A chat completion asked of OpenAI. *)
Definition is_openai_call (ev : event) : bool :=
  match ev with OpenAICall _ _ => true | _ => false end.

Definition is_gemini_call (ev : event) : bool :=
  match ev with GeminiCall _ _ => true | _ => false end.

(** An embedding asked of OpenAI. *)
Definition is_embeddings_call (ev : event) : bool :=
  match ev with EmbeddingsCall _ => true | _ => false end.

(** A run of the local embedding model. *)
Definition is_local_encode (ev : event) : bool :=
  match ev with LocalEncode _ => true | _ => false end.

Definition is_chroma_query (ev : event) : bool :=
  match ev with ChromaQuery _ _ => true | _ => false end.

Definition is_http_get (ev : event) : bool :=
  match ev with HttpGet _ _ => true | _ => false end.

(** How many of the events are of kind [p]. *)
Definition count (p : event -> bool) (evs : list event) : nat :=
  length (filter p evs).

(** The statement keeps what is on record and adds at most [n] events of
    kind [p]. *)
Definition adds_at_most (p : event -> bool) (n : nat) {A : Type} (c : M A) : Prop :=
  forall st, exists evs,
    trace (snd (c st)) = trace st ++ evs /\ (count p evs <= n)%nat.

(** The kinds of calls a run of the workflow makes, each with the number
    of calls of that kind a run can make at most. *)
Definition budget (p : event -> bool) (n : nat) : Prop :=
  (p = is_embeddings_call /\ n = 1%nat) \/
  (p = is_openai_call /\ n = 1%nat) \/
  (p = is_local_encode /\ n = 1%nat) \/
  (p = is_chroma_query /\ n = 1%nat) \/
  (p = is_http_get /\ n = 2%nat) \/
  (p = is_gemini_call /\ n = 3%nat).

(** The value of the statement, or its exception, does not depend on the
    state it is run in. *)
Definition Steady {A : Type} (c : M A) : Prop :=
  forall st st', fst (c st) = fst (c st').

(** ** Search results *)

Local Open Scope string_scope.

Definition is_dict (v : pyval) : Prop := exists d, v = PyDict d.

(** [item.get(key)] of an object: the value, or [None]. *)
Definition field (item : pyval) (key : string) : pyval :=
  match item with
  | PyDict d => match lookup key d with Some v => v | None => PyNone end
  | _ => PyNone
  end.

(** The entry made of a SerpAPI result, and of a Brave result. *)
Definition serpapi_entry (w : World) (item : pyval) : string :=
  WebSearch.entry w (field item "title") (field item "snippet") (field item "link").

Definition brave_entry (w : World) (item : pyval) : string :=
  WebSearch.entry w (field item "title") (field item "description") (field item "url").

Definition serpapi_url : string := "https://serpapi.com/search.json".
Definition brave_url : string := "https://api.search.brave.com/res/v1/web/search".

(** The value under [key], or [default]. *)
Definition value_or (default : pyval) (d : list (string * pyval)) (key : string)
  : pyval :=
  match lookup key d with Some v => v | None => default end.

(** ** Indexing *)

(** The character [c] occurs in [s]. *)
Fixpoint has_char (c : ascii) (s : string) : bool :=
  match s with
  | EmptyString => false
  | String c' s' => Ascii.eqb c' c || has_char c s'
  end.

(** The embedding [generate_embeddings] returns for a text: the remote one,
    the local one when the remote service raises, none when both raise. *)
Definition chosen_embedding (b : Indexing.Backends) (text : string)
  : option Indexing.embedding :=
  match Indexing.openai_embedding b text with
  | inr v => Some v
  | inl _ =>
      match Indexing.local_embedding b text with
      | inr v => Some v
      | inl _ => None
      end
  end.

(** What embedding a text does outside the process. *)
Definition attempts (b : Indexing.Backends) (text : string) : list Indexing.action :=
  match Indexing.openai_embedding b text with
  | inr _ => [Indexing.EmbedRemote text]
  | inl _ => [Indexing.EmbedRemote text; Indexing.EmbedLocal text]
  end.

Definition is_add (a : Indexing.action) : bool :=
  match a with Indexing.ChromaAdd _ => true | _ => false end.

(** The metadata of the chunk numbered [i]. *)
Definition metadata_of (doc_id : Z) (file : string) (numbered : Z * string)
  : Indexing.Metadata :=
  {| Indexing.document_id := doc_id;
     Indexing.filename := file;
     Indexing.chunk_index := fst numbered;
     Indexing.chunk_size := str_len (snd numbered) |}.

(** ** The model test *)

(** The verdict on OpenAI: it has a credential and answers "Hello" with
    some text. *)
Definition openai_verdict (w : World) : bool :=
  if LLMService.openai_available w then
    match openai_chat w "gpt-4o-mini" (LLMService.build_prompt "Hello" "") Chat.default_temperature with
    | inr text => Workflow.nonempty text
    | inl _ => false
    end
  else false.

(** The verdict on Gemini, with [st] the state the call is made in. *)
Definition gemini_verdict (w : World) (st : State) : bool :=
  if LLMService.gemini_available w then
    match fst (LLMService.generate_response_gemini w "Hello" "" Chat.default_temperature st) with
    | Ok text => Workflow.nonempty text
    | Raise _ => false
    end
  else false.

(** ** The chat endpoint *)

(** The response [chat_query] builds. *)
Definition chat_response (result : LLMService.response_data) (context : string)
  : Chat.ChatResponse :=
  {| Chat.response := LLMService.response result;
     Chat.model_used := LLMService.model_used result;
     Chat.context_used := if Workflow.nonempty context then Some context else None;
     Chat.success := LLMService.success result;
     Chat.error := Some (LLMService.error result) |}.

(** A chat response as a response of the workflow run. *)
Definition as_run_response (r : Chat.ChatResponse) : Workflow.WorkflowRunResponse :=
  {| Workflow.response := Chat.response r;
     Workflow.model_used := Chat.model_used r;
     Workflow.context_used := Chat.context_used r;
     Workflow.success := Chat.success r;
     Workflow.error := Chat.error r |}.

(** ** The templates *)

(** The template made of the entry numbered [i] (from 0), its date left
    out. *)
Definition listed (item : Z * Templates.Entry.t) : Templates.WorkflowTemplate :=
  {| Templates.id := Some (fst item + 1);
     Templates.name := Templates.Entry.name (snd item);
     Templates.description := Templates.Entry.description (snd item);
     Templates.category := Templates.Entry.category (snd item);
     Templates.definition := Templates.Entry.definition (snd item);
     Templates.tags := Templates.Entry.tags (snd item);
     Templates.created_at := None |}.

Definition sans_date (t : Templates.WorkflowTemplate) : Templates.WorkflowTemplate :=
  {| Templates.id := Templates.id t;
     Templates.name := Templates.name t;
     Templates.description := Templates.description t;
     Templates.category := Templates.category t;
     Templates.definition := Templates.definition t;
     Templates.tags := Templates.tags t;
     Templates.created_at := None |}.

(** ** The chat history *)

(** The row the database holds after the INSERT of [save_chat_history] for
    one message, [id] being the key the table gives it. *)
Definition stored (request_workflow_id : Z) (entry : Z * Q * ChatHistory.ChatMessage)
  : ChatHistory.Row :=
  let '(id, utcnow, msg) := entry in
  let '(workflow_id, user_message, bot_response, timestamp) :=
    ChatHistory.insert_values request_workflow_id msg utcnow in
  {| ChatHistory.row_0 := id;
     ChatHistory.row_1 := Some workflow_id;
     ChatHistory.row_2 := Some user_message;
     ChatHistory.row_3 := Some bot_response;
     ChatHistory.row_4 := Some timestamp |}.

(** Who said what. *)
Definition said (m : ChatHistory.ChatMessage) : string * string :=
  (ChatHistory.sender m, ChatHistory.message m).

(** The messages that come back: from the user or the bot, and not
    empty. *)
Definition kept (m : ChatHistory.ChatMessage) : bool :=
  (String.eqb (ChatHistory.sender m) "user" || String.eqb (ChatHistory.sender m) "bot")
  && negb (String.eqb (ChatHistory.message m) "").

End Measures.

(* ===================================================================== *)
(** * More surroundings *)
(* ===================================================================== *)

Module MoreScenarios.
Import PyVal Runtime.
Local Open Scope string_scope.

(** Both LLM credentials are set. OpenAI refuses; of the Gemini models only
    "gemini-1.5-flash" answers. *)
Definition flash_only : World :=
  {| py_repr := py_repr Scenarios.offline;
     OPENAI_API_KEY := Some "sk-test";
     GOOGLE_API_KEY := Some "g-test";
     SERPAPI_API_KEY := None;
     BRAVE_API_KEY := None;
     openai_chat := fun _ _ _ => inl "Rate limit reached";
     gemini_generate := fun model_name _ _ =>
       if String.eqb model_name "gemini-1.5-flash" then inr "ok"
       else inl "404 model not found";
     chroma_client := chroma_client Scenarios.offline;
     embeddings_create := embeddings_create Scenarios.offline;
     local_encode := local_encode Scenarios.offline;
     collection_query := collection_query Scenarios.offline;
     http_get_json := http_get_json Scenarios.offline;
     db_fault := db_fault Scenarios.offline;
     clock := clock Scenarios.offline |}.

(** Both LLM credentials are set and every provider refuses. *)
Definition all_refuse : World :=
  {| py_repr := py_repr Scenarios.offline;
     OPENAI_API_KEY := Some "sk-test";
     GOOGLE_API_KEY := Some "g-test";
     SERPAPI_API_KEY := None;
     BRAVE_API_KEY := None;
     openai_chat := fun _ _ _ => inl "Rate limit reached";
     gemini_generate := fun _ _ _ => inl "404 model not found";
     chroma_client := chroma_client Scenarios.offline;
     embeddings_create := embeddings_create Scenarios.offline;
     local_encode := local_encode Scenarios.offline;
     collection_query := collection_query Scenarios.offline;
     http_get_json := http_get_json Scenarios.offline;
     db_fault := db_fault Scenarios.offline;
     clock := clock Scenarios.offline |}.

(** Only the OpenAI credential is set, and OpenAI refuses. *)
Definition openai_refuses : World :=
  {| py_repr := py_repr Scenarios.offline;
     OPENAI_API_KEY := Some "sk-test";
     GOOGLE_API_KEY := None;
     SERPAPI_API_KEY := None;
     BRAVE_API_KEY := None;
     openai_chat := fun _ _ _ => inl "Rate limit reached";
     gemini_generate := gemini_generate Scenarios.offline;
     chroma_client := chroma_client Scenarios.offline;
     embeddings_create := embeddings_create Scenarios.offline;
     local_encode := local_encode Scenarios.offline;
     collection_query := collection_query Scenarios.offline;
     http_get_json := http_get_json Scenarios.offline;
     db_fault := db_fault Scenarios.offline;
     clock := clock Scenarios.offline |}.

(** SerpAPI has a key and answers with two results, the second without
    snippet; Brave has a key too. *)
Definition serpapi_answers : World :=
  {| py_repr := py_repr Scenarios.offline;
     OPENAI_API_KEY := None;
     GOOGLE_API_KEY := None;
     SERPAPI_API_KEY := Some "s-test";
     BRAVE_API_KEY := Some "b-test";
     openai_chat := openai_chat Scenarios.offline;
     gemini_generate := gemini_generate Scenarios.offline;
     chroma_client := chroma_client Scenarios.offline;
     embeddings_create := embeddings_create Scenarios.offline;
     local_encode := local_encode Scenarios.offline;
     collection_query := collection_query Scenarios.offline;
     http_get_json := fun _ _ _ =>
       inr (PyDict [("organic_results", PyList [
              PyDict [("title", PyStr "A"); ("snippet", PyStr "first");
                      ("link", PyStr "https://a.example")];
              PyDict [("title", PyStr "B"); ("link", PyStr "https://b.example")];
              PyInt 7])]);
     db_fault := db_fault Scenarios.offline;
     clock := clock Scenarios.offline |}.

(** A chat request, and the run request with the same fields, the default
    temperature and a definition without nodes. *)
Definition chat_request : Chat.ChatRequest :=
  {| Chat.query := "hi";
     Chat.preferred_model := Some "auto";
     Chat.use_knowledge_base := Some true;
     Chat.max_context_chunks := Some 3 |}.

Definition bare_run_request : Workflow.WorkflowRunRequest :=
  {| Workflow.workflow := [("edges", PyList [])];
     Workflow.query := "hi";
     Workflow.preferred_model := Some "auto";
     Workflow.temperature := Chat.default_temperature;
     Workflow.use_knowledge_base := Some true;
     Workflow.max_context_chunks := Some 3 |}.

(** A definition whose LLM Engine node has no [id]. *)
Definition nameless_node_request : Workflow.WorkflowRunRequest :=
  {| Workflow.workflow :=
       [("nodes", PyList [Scenarios.query_node; PyDict [("type", PyStr "llmEngine")]]);
        ("configs", PyDict [])];
     Workflow.query := "hi";
     Workflow.preferred_model := Some "auto";
     Workflow.temperature := None;
     Workflow.use_knowledge_base := Some true;
     Workflow.max_context_chunks := Some 3 |}.

(** The word "caf" and U+00E9, e with an acute accent: four characters,
    five bytes. *)
Definition cafe : string :=
  String "c" (String "a" (String "f" (String "195" (String "169" EmptyString)))).

(** An index that takes what it is given; OpenAI gives no embeddings, the
    local model does. *)
Definition local_index : Indexing.Backends :=
  {| Indexing.runtime := Scenarios.offline;
     Indexing.openai_embedding := fun _ => inl "Connection error.";
     Indexing.local_embedding := fun _ => inr [1 # 2; 1 # 4];
     Indexing.chroma_collection := None;
     Indexing.chroma_add := fun _ => None |}.

(** A table of two templates without nodes. *)
Definition two_templates : list Templates.Entry.t :=
  [{| Templates.Entry.name := "Document Q&A Assistant";
      Templates.Entry.description := "Upload documents and ask questions.";
      Templates.Entry.category := "Document Analysis";
      Templates.Entry.tags := ["documents"; "qa"];
      Templates.Entry.definition := PyDict [("nodes", PyList []); ("edges", PyList [])] |};
   {| Templates.Entry.name := "Web Research Assistant";
      Templates.Entry.description := "Search the web.";
      Templates.Entry.category := "Web Research";
      Templates.Entry.tags := ["web"];
      Templates.Entry.definition := PyDict [("nodes", PyList []); ("edges", PyList [])] |}].

(** A rendering of dates that tells nothing. *)
Definition no_date (t : Q) : string := "1970-01-01T00:00:00".

End MoreScenarios.
(* ===================================================================== *)
(** * Properties of the chunker *)
(* ===================================================================== *)

Module EmbeddingsFacts.
Import Observations Embeddings.

Section SliceFacts.
Context {A : Type}.
Implicit Types s : list A.

Lemma slice_nonneg s (a b : Z) :
  0 <= a -> 0 <= b ->
  Py.slice s a b =
  firstn (Z.to_nat (Z.min b (Py.len s)) - Z.to_nat (Z.min a (Py.len s)))
         (skipn (Z.to_nat (Z.min a (Py.len s))) s).
Proof.
  intros Ha Hb. unfold Py.slice, Py.slice_bound.
  destruct (Z.ltb_spec a 0); [lia|].
  destruct (Z.ltb_spec b 0); [lia|].
  f_equal. unfold Py.len. lia.
Qed.

(** A window that starts inside the sequence. *)
Lemma slice_window s (a w : Z) :
  0 <= a <= Py.len s -> 0 <= w ->
  Py.slice s a (a + w) = firstn (Z.to_nat w) (skipn (Z.to_nat a) s).
Proof.
  intros Ha Hw. rewrite slice_nonneg by lia.
  replace (Z.min a (Py.len s)) with a by lia.
  set (r := skipn (Z.to_nat a) s).
  assert (Hr : length r = (length s - Z.to_nat a)%nat)
    by (unfold r; apply length_skipn).
  unfold Py.len in *.
  destruct (Z.le_gt_cases (a + w) (Z.of_nat (length s))).
  - f_equal. lia.
  - rewrite !firstn_all2; trivial; lia.
Qed.

Lemma firstn_add (n m : nat) s :
  firstn (n + m) s = firstn n s ++ firstn m (skipn n s).
Proof.
  revert s. induction n as [|n IH]; intros [|x s]; simpl; trivial.
  - now rewrite firstn_nil.
  - now rewrite IH.
Qed.

(** Consecutive blocks of [step] elements, put end to end. *)
Lemma concat_blocks (step m : nat) s :
  concat (map (fun k => firstn step (skipn (k * step) s)) (seq 0 m))
  = firstn (m * step) s.
Proof.
  induction m as [|m IH]; [reflexivity|].
  rewrite seq_S, map_app, concat_app, IH. simpl.
  rewrite app_nil_r.
  replace (step + m * step)%nat with (m * step + step)%nat by lia.
  now rewrite firstn_add.
Qed.
End SliceFacts.
End EmbeddingsFacts.

Module ChunkerFacts.
Import Observations Embeddings EmbeddingsFacts.

Section Loop.
Context {char : Type}.
Variables (t : list char) (chunk_size overlap : Z).
Hypothesis overlap_nonneg : 0 <= overlap.
Hypothesis overlap_small : overlap < chunk_size.

Let step := chunk_size - overlap.
Let m := window_count t step.

Lemma window_count_spec (k : nat) :
  (k < m)%nat <-> Z.of_nat k * step < Py.len t.
Proof.
  unfold m, window_count. subst step.
  set (s := chunk_size - overlap). assert (0 < s) by (unfold s; lia).
  assert (0 <= Py.len t) by (unfold Py.len; lia).
  pose proof (Z.div_mod (Py.len t + s - 1) s ltac:(lia)) as E.
  pose proof (Z.mod_pos_bound (Py.len t + s - 1) s ltac:(lia)) as B.
  set (q := (Py.len t + s - 1) / s) in *.
  assert (0 <= q) by (apply Z.div_pos; lia).
  split; intros Hk.
  - assert (Z.of_nat k + 1 <= q) by lia. nia.
  - assert (Z.of_nat k < q) by nia. lia.
Qed.

Lemma window_count_le_len : (m <= length t)%nat.
Proof.
  destruct m as [|k] eqn:E; [lia|].
  assert (Hk : (k < m)%nat) by lia.
  apply window_count_spec in Hk. unfold Py.len in Hk. subst step. nia.
Qed.

(** The loop entered at the [k]-th window start appends the windows
    [k .. m-1] to what it was given, provided it may run that often. *)
Lemma chunk_loop_spec (fuel k : nat) (acc : list (list char)) :
  (k < m)%nat -> (m - k <= fuel)%nat ->
  chunk_loop fuel t chunk_size overlap (Z.of_nat k * step) acc
  = Some (acc ++ map (fun j => window t chunk_size (Z.of_nat j * step))
                     (seq k (m - k))).
Proof.
  revert k acc. induction fuel as [|fuel IH]; intros k acc Hk Hfuel; [lia|].
  simpl. pose proof (proj1 (window_count_spec k) Hk) as Hlt.
  destruct (Z.ltb_spec (Z.of_nat k * step) (Py.len t)); [|lia].
  replace (Z.of_nat k * step + chunk_size - overlap)
    with (Z.of_nat (S k) * step) by (subst step; lia).
  destruct (Z.geb_spec (Z.of_nat (S k) * step) (Py.len t)) as [Hge|Hnext].
  - assert (~ (S k < m)%nat) by (rewrite window_count_spec; lia).
    replace (m - k)%nat with 1%nat by lia. reflexivity.
  - assert (S k < m)%nat by (rewrite window_count_spec; lia).
    rewrite IH by lia. rewrite <- app_assoc. simpl.
    replace (m - k)%nat with (S (m - S k)) by lia. reflexivity.
Qed.

Lemma window_unfold (k : nat) :
  (k < m)%nat ->
  window t chunk_size (Z.of_nat k * step)
  = firstn (Z.to_nat chunk_size) (skipn (k * Z.to_nat step) t).
Proof.
  intros Hk. apply window_count_spec in Hk. unfold window.
  rewrite slice_window by (subst step; nia).
  do 2 f_equal. subst step. nia.
Qed.

Lemma windows_unfold :
  windows t chunk_size overlap
  = map (fun k => firstn (Z.to_nat chunk_size) (skipn (k * Z.to_nat step) t))
        (seq 0 m).
Proof.
  unfold windows. fold step. fold m. apply map_ext_in.
  intros k Hk. apply in_seq in Hk. apply window_unfold. lia.
Qed.

Lemma windows_cover : covers t step (windows t chunk_size overlap).
Proof.
  unfold covers. rewrite windows_unfold, map_map.
  rewrite (map_ext _ (fun k => firstn (Z.to_nat step) (skipn (k * Z.to_nat step) t))).
  - rewrite concat_blocks. apply firstn_all2.
    destruct (Nat.le_gt_cases (length t) (m * Z.to_nat step)) as [|Hlt]; trivial.
    exfalso.
    assert (Hm : ~ (m < m)%nat) by lia. apply Hm.
    apply window_count_spec. unfold Py.len. subst step. nia.
  - intros k. rewrite firstn_firstn. f_equal. subst step. lia.
Qed.

Lemma windows_nonempty : Forall (fun c => c <> []) (windows t chunk_size overlap).
Proof.
  rewrite windows_unfold. apply Forall_forall. intros c Hc.
  apply in_map_iff in Hc as (k & <- & Hk). apply in_seq in Hk.
  assert (Hlt : (k < m)%nat) by lia. apply window_count_spec in Hlt.
  intros E. apply (f_equal (@length _)) in E.
  rewrite length_firstn, length_skipn in E. simpl in E.
  unfold Py.len in Hlt. subst step. nia.
Qed.

Lemma windows_nth (k : nat) (c : list char) :
  nth_error (windows t chunk_size overlap) k = Some c ->
  (k < m)%nat /\
  c = firstn (Z.to_nat chunk_size) (skipn (k * Z.to_nat step) t).
Proof.
  rewrite windows_unfold. intros H.
  assert (Hk : (k < m)%nat).
  { assert (Hn : nth_error (map (fun k => firstn (Z.to_nat chunk_size)
                                   (skipn (k * Z.to_nat step) t)) (seq 0 m)) k <> None)
      by (rewrite H; discriminate).
    apply nth_error_Some in Hn. now rewrite length_map, length_seq in Hn. }
  split; [exact Hk|].
  rewrite nth_error_map, nth_error_seq in H.
  destruct (Nat.ltb_spec k m); [|lia]. now injection H as <-.
Qed.

Lemma windows_full_or_final :
  full_or_final t chunk_size step (windows t chunk_size overlap).
Proof.
  intros k c H. apply windows_nth in H as [Hk ->].
  apply window_count_spec in Hk.
  unfold Py.len in *. rewrite length_firstn, length_skipn. subst step. nia.
Qed.

Lemma windows_share :
  adjacent_share_upto step overlap (windows t chunk_size overlap).
Proof.
  intros i c d Hc Hd.
  apply windows_nth in Hc as [_ ->]. apply windows_nth in Hd as [_ ->].
  assert (Hcarry :
    carried_over step (firstn (Z.to_nat chunk_size) (skipn (i * Z.to_nat step) t))
    = firstn (Z.to_nat overlap) (skipn (S i * Z.to_nat step) t)).
  { unfold carried_over. rewrite skipn_firstn_comm, skipn_skipn.
    f_equal. subst step. lia. }
  rewrite Hcarry. split.
  - rewrite firstn_firstn. f_equal. lia.
  - unfold Py.len. rewrite !length_firstn.
    change (Z.to_nat step + i * Z.to_nat step)%nat with (S i * Z.to_nat step)%nat.
    generalize (length (skipn (S i * Z.to_nat step) t)). lia.
Qed.

End Loop.
End ChunkerFacts.

Module ChunkerClaims.
Import Observations Embeddings EmbeddingsFacts ChunkerFacts.

(** With [chunk_size <= overlap] the start never moves forward, and the loop
    of a text longer than one chunk does not end: no bound is enough. *)
Lemma chunk_loop_stuck {char : Type} (t : list char) (chunk_size overlap : Z) :
  chunk_size <= overlap ->
  forall fuel start acc,
    start < Py.len t ->
    chunk_loop fuel t chunk_size overlap start acc = None.
Proof.
  intros Hstep. induction fuel as [|fuel IH]; intros start acc Hstart; [reflexivity|].
  simpl. destruct (Z.ltb_spec start (Py.len t)); [|lia].
  destruct (Z.geb_spec (start + chunk_size - overlap) (Py.len t)); [lia|].
  apply IH. lia.
Qed.

(** C2, as amended. For [0 <= overlap < chunk_size] and every text: a text
    of at most [chunk_size] characters is returned whole, as the only chunk;
    a longer text is cut into the windows starting at
    [0, step, 2*step, ...] with [step = chunk_size - overlap], the last ones
    possibly partial; these cover the text without gap, none is empty, and a
    chunk shares with its successor [overlap] characters, or all of the
    successor when that is shorter than [overlap]. The text of 1000 'A's and
    500 'B's gives two chunks at sizes 1000 and 200: the 1000 'A's, then 200
    'A's followed by the 500 'B's. *)
Theorem split_text_into_chunks_contract
        {char : Type} (t : list char) (chunk_size overlap : Z) :
  0 <= overlap < chunk_size ->
  chunk_contract adjacent_share_upto t chunk_size overlap /\
  (forall fuel, (2 <= fuel)%nat ->
     split_text_into_chunks fuel (repeat "A"%char 1000 ++ repeat "B"%char 500)
                            1000 200
     = Some [repeat "A"%char 1000;
             repeat "A"%char 200 ++ repeat "B"%char 500]).
Proof.
  intros [Hov Hcs]. split.
  - destruct (Z.le_gt_cases (Py.len t) chunk_size) as [Hshort|Hlong].
    + exists [t]. repeat split; try lia.
      intros fuel _. unfold split_text_into_chunks.
      destruct (Z.leb_spec (Py.len t) chunk_size); [reflexivity|lia].
    + exists (windows t chunk_size overlap). split; [|split; [lia|]].
      * intros fuel Hfuel. unfold split_text_into_chunks.
        destruct (Z.leb_spec (Py.len t) chunk_size); [lia|].
        assert (Hm : (window_count t (chunk_size - overlap) <= length t)%nat)
          by (apply window_count_le_len; lia).
        assert (H0 : (0 < window_count t (chunk_size - overlap))%nat)
          by (apply window_count_spec; lia).
        change 0 with (Z.of_nat 0 * (chunk_size - overlap)).
        rewrite chunk_loop_spec; try lia.
        rewrite Nat.sub_0_r. reflexivity.
      * intros _. split; [reflexivity|]. split; [|split; [|split]].
        -- now apply windows_full_or_final.
        -- now apply windows_cover.
        -- now apply windows_nonempty.
        -- now apply windows_share.
  - intros [|[|fuel]] Hfuel; try lia. vm_compute. reflexivity.
Qed.

Lemma split_text_into_chunks_contract_witness :
  chunk_contract adjacent_share_upto (chars "abcde") 4 2.
Proof.
  apply (split_text_into_chunks_contract (chars "abcde") 4 2). lia.
Defined.

(** C2, as first stated, fails: "abcde" cut at size 4 with overlap 2 gives
    "abcd", "cde", "e", and "cde" shares one character with "e", not two. *)
Lemma split_text_into_chunks_overlap_not_exact :
  split_text_into_chunks 5 (chars "abcde") 4 2
    = Some [chars "abcd"; chars "cde"; chars "e"] /\
  ~ chunk_contract adjacent_share_exactly (chars "abcde") 4 2.
Proof.
  split; [reflexivity|].
  intros (chunks & Hrun & _ & Hlong).
  specialize (Hrun 5%nat (Nat.le_refl _)). vm_compute in Hrun.
  injection Hrun as <-.
  destruct (Hlong ltac:(reflexivity)) as (_ & _ & _ & _ & Hshare).
  destruct (Hshare 1%nat (chars "cde") (chars "e") eq_refl eq_refl) as [_ Hlen].
  vm_compute in Hlen. discriminate.
Qed.

End ChunkerClaims.

(* ===================================================================== *)
(** * Running statements *)
(* ===================================================================== *)

Module RuntimeFacts.
Import PyVal Runtime Observations.

Section Steps.
Context {A B : Type}.

Lemma bind_ok (c : M A) (k : A -> M B) st a st' :
  c st = (Ok a, st') -> bind c k st = k a st'.
Proof. intros H. cbn. now rewrite H. Qed.

Lemma bind_raise (c : M A) (k : A -> M B) st e st' :
  c st = (Raise e, st') -> bind c k st = (Raise e, st').
Proof. intros H. cbn. now rewrite H. Qed.

Lemma catch_ok (c : M A) (h : exn -> M A) st a st' :
  c st = (Ok a, st') -> catch c h st = (Ok a, st').
Proof. intros H. cbn. now rewrite H. Qed.

Lemma catch_raise (c : M A) (h : exn -> M A) st e st' :
  c st = (Raise e, st') -> catch c h st = h e st'.
Proof. intros H. cbn. now rewrite H. Qed.

End Steps.

(** ** Statements that log nothing *)

Lemma quiet_refl st : quiet st st.
Proof. split; reflexivity. Qed.

Lemma quiet_trans st1 st2 st3 : quiet st1 st2 -> quiet st2 st3 -> quiet st1 st3.
Proof. intros [A1 B1] [A2 B2]. split; congruence. Qed.

Lemma quiet_tick st : quiet st (tick st).
Proof. split; reflexivity. Qed.

Section Quiet.
Context {A B : Type}.

Lemma Quiet_ret (a : A) : Quiet (ret a : M A).
Proof. intros st. apply quiet_refl. Qed.

Lemma Quiet_raise (e : exn) : Quiet (raise e : M A).
Proof. intros st. apply quiet_refl. Qed.

Lemma Quiet_lift (r : result A) : Quiet (lift r).
Proof. intros st. apply quiet_refl. Qed.

Lemma Quiet_external (answer : string + A) : Quiet (external answer).
Proof. intros st. destruct answer; apply quiet_refl. Qed.

Lemma Quiet_bind (c : M A) (k : A -> M B) :
  Quiet c -> (forall a, Quiet (k a)) -> Quiet (bind c k).
Proof.
  intros Hc Hk st. specialize (Hc st). cbn.
  destruct (c st) as [[a|e] st1]; cbn in *; trivial.
  eapply quiet_trans; [exact Hc | apply Hk].
Qed.

Lemma Quiet_catch (c : M A) (h : exn -> M A) :
  Quiet c -> (forall e, Quiet (h e)) -> Quiet (catch c h).
Proof.
  intros Hc Hh st. specialize (Hc st). cbn.
  destruct (c st) as [[a|e] st1]; cbn in *; trivial.
  eapply quiet_trans; [exact Hc | apply Hh].
Qed.

Lemma Total_ret (a : A) : Total (ret a : M A).
Proof. intros st. now exists a, st. Qed.

(** A [try] whose handler returns a value never raises. *)
Lemma Total_catch (c : M A) (h : exn -> M A) :
  (forall e, Total (h e)) -> Total (catch c h).
Proof.
  intros Hh st. cbn. destruct (c st) as [[a|e] st1]; [eauto | apply Hh].
Qed.

End Quiet.

Lemma Quiet_run {A : Type} (c : M A) st r st' :
  Quiet c -> c st = (r, st') -> quiet st st'.
Proof. intros H E. specialize (H st). now rewrite E in H. Qed.

Lemma Quiet_emit (ev : event) : is_log ev = false -> Quiet (emit ev).
Proof.
  intros H st. split; [|reflexivity].
  unfold log_calls. cbn. rewrite filter_app. cbn. rewrite H. apply app_nil_r.
Qed.

Lemma Quiet_now (w : World) : Quiet (now w).
Proof. intros st. split; reflexivity. Qed.

Create HintDb quiet.

#[export] Hint Resolve Quiet_ret Quiet_raise Quiet_lift Quiet_external
  Quiet_now : quiet.

(** Takes a statement apart down to its primitive steps. *)
Ltac prove_quiet :=
  repeat first
    [ solve [auto with quiet]
    | apply Quiet_emit; reflexivity
    | apply Quiet_bind; [|intros ?]
    | apply Quiet_catch; [|intros ?]
    | match goal with
      | |- Quiet (if ?b then _ else _) => destruct b
      | |- Quiet (match ?x with _ => _ end) => destruct x
      | |- Quiet (let _ := _ in _) => cbv zeta
      end ].

End RuntimeFacts.

(* ===================================================================== *)
(** * Properties of the provider pool and the selection policy *)
(* ===================================================================== *)

Module LLMFacts.
Import PyVal Runtime Observations RuntimeFacts LLMService.
Local Open Scope string_scope.

Section WithWorld.
Variable w : World.

Lemma generate_response_openai_ok query context temperature st text :
  openai_chat w "gpt-4o-mini" (build_prompt query context) temperature = inr text ->
  generate_response_openai w query context "gpt-4o-mini" temperature st
  = (Ok text, after_openai query context st).
Proof.
  intros H. unfold generate_response_openai. cbn. rewrite H. reflexivity.
Qed.

Lemma generate_response_openai_raises query context temperature st msg :
  openai_chat w "gpt-4o-mini" (build_prompt query context) temperature = inl msg ->
  generate_response_openai w query context "gpt-4o-mini" temperature st
  = (Raise (Exception ("OpenAI API error: " ++ msg)), after_openai query context st).
Proof.
  intros H. unfold generate_response_openai. cbn. rewrite H. reflexivity.
Qed.

(** The loop over the Gemini models either returns an answer or ends in
    its own exception; an exception of a model never leaves it. *)
Lemma gemini_loop_cases models prompt temperature st :
  (exists text st', gemini_loop w models prompt temperature st = (Ok text, st')) \/
  (exists st', gemini_loop w models prompt temperature st
               = (Raise (Exception "All Gemini models are unavailable"), st')).
Proof.
  revert st. induction models as [|model_name rest IH]; intros st.
  - right. eexists. reflexivity.
  - cbn. destruct (gemini_generate w model_name prompt temperature) as [msg|text]; cbn.
    + apply IH.
    + left. eauto.
Qed.

Lemma generate_response_gemini_cases query context temperature st :
  (exists text st',
     generate_response_gemini w query context temperature st = (Ok text, st')) \/
  (exists st',
     generate_response_gemini w query context temperature st
     = (Raise (Exception "Gemini API error: All Gemini models are unavailable"), st')).
Proof.
  unfold generate_response_gemini.
  destruct (gemini_loop_cases gemini_models (build_prompt query context) temperature st)
    as [(text & st' & E)|(st' & E)].
  - left. exists text, st'. now apply catch_ok.
  - right. exists st'. now rewrite (catch_raise _ _ _ _ _ E).
Qed.

(** The first Gemini model answers. *)
Lemma generate_response_gemini_first query context temperature st text :
  gemini_generate w "gemini-1.5-pro" (build_prompt query context) temperature = inr text ->
  generate_response_gemini w query context temperature st
  = (Ok text,
     {| trace := trace st ++ [GeminiCall "gemini-1.5-pro" (build_prompt query context)];
        execution_logs := execution_logs st;
        ticks := ticks st |}).
Proof.
  intros H. unfold generate_response_gemini. cbn. rewrite H. reflexivity.
Qed.

Lemma generate_response_openai_cases query context temperature st :
  (exists text,
     generate_response_openai w query context "gpt-4o-mini" temperature st
     = (Ok text, after_openai query context st)) \/
  (exists msg,
     generate_response_openai w query context "gpt-4o-mini" temperature st
     = (Raise (Exception ("OpenAI API error: " ++ msg)), after_openai query context st)).
Proof.
  destruct (openai_chat w "gpt-4o-mini" (build_prompt query context) temperature)
    as [msg|text] eqn:E.
  - right. exists msg. now apply generate_response_openai_raises.
  - left. exists text. now apply generate_response_openai_ok.
Qed.

(** ** The provider pool logs nothing *)

Lemma Quiet_generate_response_openai query context model temperature :
  Quiet (generate_response_openai w query context model temperature).
Proof. unfold generate_response_openai. prove_quiet. Qed.

Lemma Quiet_gemini_loop models prompt temperature :
  Quiet (gemini_loop w models prompt temperature).
Proof. induction models as [|model_name rest IH]; cbn [gemini_loop]; prove_quiet. Qed.

Lemma Quiet_generate_response_gemini query context temperature :
  Quiet (generate_response_gemini w query context temperature).
Proof.
  unfold generate_response_gemini. apply Quiet_catch; [|prove_quiet].
  apply Quiet_gemini_loop.
Qed.

Lemma Quiet_generate_response query context preferred_model temperature :
  Quiet (generate_response w query context preferred_model temperature).
Proof.
  unfold generate_response.
  pose proof Quiet_generate_response_openai.
  pose proof Quiet_generate_response_gemini.
  prove_quiet.
Qed.

Lemma Total_generate_response query context preferred_model temperature :
  Total (generate_response w query context preferred_model temperature).
Proof. unfold generate_response. apply Total_catch. intros e. apply Total_ret. Qed.

(** Without any provider every request fails, and no call is made. *)
Lemma generate_response_none_available query context preferred_model temperature st :
  openai_available w = false -> gemini_available w = false ->
  exists msg,
    generate_response w query context preferred_model temperature st
    = (Ok (failure msg), st).
Proof.
  intros Ho Hg. unfold generate_response. rewrite Ho, Hg, !andb_false_r.
  destruct (eq_str preferred_model "auto"); eexists; reflexivity.
Qed.

End WithWorld.

(** Case analysis on the next provider call of the goal. *)
Ltac run_openai :=
  match goal with
  | |- context [generate_response_openai ?w ?q ?c _ ?t ?st] =>
      let text := fresh "text" in
      let msg := fresh "msg" in
      let E := fresh "Eopenai" in
      destruct (generate_response_openai_cases w q c t st)
        as [(text & E)|(msg & E)]; rewrite E; cbn
  end.

Ltac run_gemini :=
  match goal with
  | |- context [generate_response_gemini ?w ?q ?c ?t ?st] =>
      let text := fresh "text" in
      let st' := fresh "st'" in
      let E := fresh "Egemini" in
      destruct (generate_response_gemini_cases w q c t st)
        as [(text & st' & E)|(st' & E)]; rewrite E; cbn
  end.

End LLMFacts.

Module LLMClaims.
Import PyVal Runtime Observations LLMService LLMFacts.
Local Open Scope string_scope.

#[local] Arguments generate_response_openai : simpl never.
#[local] Arguments generate_response_gemini : simpl never.

(** Closes a branch of [generate_response]: the result is there to read. *)
Ltac consistent :=
  do 2 eexists; split; [reflexivity|]; cbn; split; intros H;
  first [ discriminate H | reflexivity | split; [reflexivity | discriminate] ].

(** C9. Whatever the inputs, [generate_response] returns a result, and in
    it failure goes with an empty response and a non-empty error, and
    success goes with an empty error. *)
Theorem generate_response_consistent
        (w : World) (query context : string) (preferred_model : pyval)
        (temperature : option Q) (st : State) :
  exists d st',
    generate_response w query context preferred_model temperature st = (Ok d, st') /\
    (success d = false -> response d = "" /\ error d <> "") /\
    (success d = true -> error d = "").
Proof.
  unfold generate_response.
  destruct (eq_str preferred_model "openai" && openai_available w);
    [cbn; run_openai; consistent|].
  destruct (eq_str preferred_model "gemini" && gemini_available w);
    [cbn; run_gemini; consistent|].
  destruct (eq_str preferred_model "auto"); [|cbn; consistent].
  destruct (openai_available w), (gemini_available w); cbn;
    try run_openai; try run_gemini; consistent.
Qed.

(** Offline, the result is a failure with a message. *)
Lemma generate_response_consistent_witness :
  exists d st',
    generate_response Scenarios.offline "hi" "" (PyStr "auto") None Scenarios.start
    = (Ok d, st') /\
    response d = "" /\ error d <> "".
Proof.
  destruct (generate_response_consistent Scenarios.offline "hi" "" (PyStr "auto")
                                         None Scenarios.start)
    as (d & st' & Hrun & Hfail & _).
  exists d, st'. split; [exact Hrun|]. apply Hfail.
  cbv in Hrun. now injection Hrun as <- _.
Defined.

(** C1. The automatic choice. With OpenAI available and answering, the
    result is OpenAI's. With OpenAI available but raising and Gemini
    available, Gemini is called next: its answer is the result, with
    [model_used = "gemini"], success and an empty error, so OpenAI's error
    does not show. With OpenAI unavailable, Gemini is called at once (no
    call to OpenAI is recorded) and its failure is the result's error. With
    neither available the result is the failure "No LLM services
    available". *)
Theorem generate_response_auto
        (w : World) (query context : string) (temperature : option Q) (st : State) :
  let prompt := build_prompt query context in
  let run := generate_response w query context (PyStr "auto") temperature in
  (openai_available w = true ->
   forall text,
     openai_chat w "gpt-4o-mini" prompt temperature = inr text ->
     run st = (Ok (answer text "openai"), after_openai query context st)) /\
  (openai_available w = true -> gemini_available w = true ->
   forall msg,
     openai_chat w "gpt-4o-mini" prompt temperature = inl msg ->
     forall text st',
       generate_response_gemini w query context temperature
                                (after_openai query context st) = (Ok text, st') ->
       run st = (Ok (answer text "gemini"), st')) /\
  (openai_available w = false -> gemini_available w = true ->
   (forall text st',
      generate_response_gemini w query context temperature st = (Ok text, st') ->
      run st = (Ok (answer text "gemini"), st')) /\
   (forall e st',
      generate_response_gemini w query context temperature st = (Raise e, st') ->
      run st = (Ok (failure (str_exn w e)), st'))) /\
  (openai_available w = false -> gemini_available w = false ->
   run st = (Ok (failure "No LLM services available"), st)).
Proof.
  cbv zeta. unfold generate_response.
  change (eq_str (PyStr "auto") "openai") with false.
  change (eq_str (PyStr "auto") "gemini") with false.
  change (eq_str (PyStr "auto") "auto") with true.
  cbv iota beta. rewrite !andb_false_l.
  split; [|split; [|split]].
  - intros Ho text Hchat. rewrite Ho. cbn.
    now rewrite (generate_response_openai_ok w _ _ _ _ _ Hchat).
  - intros Ho Hg msg Hchat text st' Hgemini. rewrite Ho, Hg. cbn.
    rewrite (generate_response_openai_raises w _ _ _ _ _ Hchat). cbn.
    now rewrite Hgemini.
  - intros Ho Hg. rewrite Ho, Hg. cbn.
    split; [intros text st' Hgemini | intros e st' Hgemini]; now rewrite Hgemini.
  - intros Ho Hg. rewrite Ho, Hg. reflexivity.
Qed.

(** The fallback at work: OpenAI refuses, Gemini answers "ok". *)
Lemma generate_response_auto_witness :
  fst (generate_response Scenarios.openai_down "hi" "" (PyStr "auto") None
                         Scenarios.start)
  = Ok (answer "ok" "gemini").
Proof.
  pose proof (generate_response_auto Scenarios.openai_down "hi" "" None
                                     Scenarios.start) as H.
  cbv zeta in H. destruct H as (_ & H & _).
  specialize (H eq_refl eq_refl "Rate limit reached" eq_refl "ok").
  erewrite H; reflexivity.
Defined.

(** C7. A preferred model that names an unavailable provider, or no
    provider at all, fails at once with the "not available" error: the
    state is untouched, so neither provider has been called. *)
Theorem generate_response_not_available
        (w : World) (query context : string) (preferred_model : pyval)
        (temperature : option Q) (st : State) :
  (preferred_model = PyStr "openai" /\ openai_available w = false) \/
  (preferred_model = PyStr "gemini" /\ gemini_available w = false) \/
  (eq_str preferred_model "openai" = false /\
   eq_str preferred_model "gemini" = false /\
   eq_str preferred_model "auto" = false) ->
  generate_response w query context preferred_model temperature st
  = (Ok (failure ("Preferred model '" ++ py_str w preferred_model ++ "' not available")),
     st).
Proof.
  unfold generate_response.
  intros [[-> Ha]|[[-> Hg]|(Ho & Hg & Ha)]].
  - rewrite Ha. reflexivity.
  - rewrite Hg. reflexivity.
  - rewrite Ho, Hg, Ha. reflexivity.
Qed.

(** Asking for OpenAI where only Gemini is configured. *)
Lemma generate_response_not_available_witness :
  generate_response Scenarios.gemini_only "hi" "" (PyStr "openai") None Scenarios.start
  = (Ok (failure "Preferred model 'openai' not available"), Scenarios.start).
Proof.
  apply (generate_response_not_available Scenarios.gemini_only "hi" ""
                                         (PyStr "openai") None Scenarios.start).
  left. split; reflexivity.
Defined.

End LLMClaims.

(* ===================================================================== *)
(** * Properties of the web search *)
(* ===================================================================== *)

Module WebSearchFacts.
Import PyVal Runtime Observations RuntimeFacts WebSearch.
Local Open Scope string_scope.

Lemma slice_to_length {A : Type} (l : list A) (n : Z) :
  0 <= n -> Py.len (Py.slice_to l n) <= n.
Proof.
  intros Hn. unfold Py.slice_to, Py.slice, Py.slice_bound, Py.len.
  destruct (Z.ltb_spec n 0); [lia|]. simpl.
  rewrite length_firstn. lia.
Qed.

(** Slicing to [n] and running through the slice visits at most [n] items. *)
Lemma sliced_items_length (v shown : pyval) (items : list pyval) (n : Z) :
  0 <= n -> slice_to v n = Ok shown -> iter shown = Ok items ->
  Py.len items <= n.
Proof.
  intros Hn Hs Hi. destruct v; try discriminate; injection Hs as <-;
    injection Hi as <-.
  - unfold Py.len. rewrite length_map, list_ascii_of_string_of_list_ascii.
    now apply slice_to_length.
  - now apply slice_to_length.
Qed.

Section WithWorld.
Variable w : World.

Lemma serpapi_items_spec items : forall acc results,
  serpapi_items w items acc = Ok results ->
  length results = (length acc + length items)%nat /\
  (Forall (formatted w) acc -> Forall (formatted w) results).
Proof.
  induction items as [|item rest IH]; intros acc results H.
  - injection H as <-. split; [simpl; lia | trivial].
  - cbn in H.
    destruct (get item "title" PyNone) as [title|]; [|discriminate].
    destruct (get item "snippet" PyNone) as [snippet|]; [|discriminate].
    destruct (get item "link" PyNone) as [link|]; [|discriminate].
    apply IH in H as [Hlen Hfmt]. split.
    + rewrite Hlen, length_app. simpl. lia.
    + intros Hacc. apply Hfmt, Forall_app. split; trivial.
      constructor; [|constructor]. now exists title, snippet, link.
Qed.

Lemma brave_items_spec items : forall acc results,
  brave_items w items acc = Ok results ->
  length results = (length acc + length items)%nat /\
  (Forall (formatted w) acc -> Forall (formatted w) results).
Proof.
  induction items as [|item rest IH]; intros acc results H.
  - injection H as <-. split; [simpl; lia | trivial].
  - cbn in H.
    destruct (get item "title" PyNone) as [title|]; [|discriminate].
    destruct (get item "description" PyNone) as [desc|]; [|discriminate].
    destruct (get item "url" PyNone) as [url|]; [|discriminate].
    apply IH in H as [Hlen Hfmt]. split.
    + rewrite Hlen, length_app. simpl. lia.
    + intros Hacc. apply Hfmt, Forall_app. split; trivial.
      constructor; [|constructor]. now exists title, desc, url.
Qed.

Lemma serpapi_search_results query n st results st' :
  serpapi_search w query n st = (Ok results, st') ->
  (0 <= n -> Py.len results <= n) /\ Forall (formatted w) results.
Proof.
  unfold serpapi_search. destruct (env_set (SERPAPI_API_KEY w)); [|discriminate].
  cbn. destruct (http_get_json w _ query n) as [msg|data]; [discriminate|]. cbn.
  destruct (get data "organic_results" (PyList [])) as [organic|]; [|discriminate].
  destruct (slice_to organic n) as [shown|] eqn:Hs; [|discriminate].
  destruct (iter shown) as [items|] eqn:Hi; [|discriminate].
  destruct (serpapi_items w items []) as [r|] eqn:Hr; [|discriminate].
  intros [= <- <-]. apply serpapi_items_spec in Hr as [Hlen Hfmt]. split.
  - intros Hn. pose proof (sliced_items_length _ _ _ _ Hn Hs Hi) as Hb.
    unfold Py.len in *. simpl in Hlen. lia.
  - apply Hfmt. constructor.
Qed.

Lemma brave_search_results query n st results st' :
  brave_search w query n st = (Ok results, st') ->
  (0 <= n -> Py.len results <= n) /\ Forall (formatted w) results.
Proof.
  unfold brave_search. destruct (env_set (BRAVE_API_KEY w)); [|discriminate].
  cbn. destruct (http_get_json w _ query n) as [msg|data]; [discriminate|]. cbn.
  destruct (get data "web" (PyDict [])) as [web|]; [|discriminate].
  destruct (get web "results" (PyList [])) as [found|]; [|discriminate].
  destruct (slice_to found n) as [shown|] eqn:Hs; [|discriminate].
  destruct (iter shown) as [items|] eqn:Hi; [|discriminate].
  destruct (brave_items w items []) as [r|] eqn:Hr; [|discriminate].
  intros [= <- <-]. apply brave_items_spec in Hr as [Hlen Hfmt]. split.
  - intros Hn. pose proof (sliced_items_length _ _ _ _ Hn Hs Hi) as Hb.
    unfold Py.len in *. simpl in Hlen. lia.
  - apply Hfmt. constructor.
Qed.

Lemma Quiet_web_search query n : Quiet (web_search w query n).
Proof.
  unfold web_search, serpapi_search, brave_search. prove_quiet.
Qed.

End WithWorld.
End WebSearchFacts.

Module WebSearchClaims.
Import PyVal Runtime Observations RuntimeFacts WebSearch WebSearchFacts.
Local Open Scope string_scope.

(** C6. [web_search] always returns a list and never raises. The list is
    SerpAPI's when SerpAPI returns; when SerpAPI raises, whatever the
    exception, it is Brave's, run after SerpAPI; when Brave raises too, it
    is empty. The results are formatted entries, at most [num_results] of
    them. *)
Theorem web_search_never_raises
        (w : World) (query : string) (num_results : Z) (st : State) :
  exists results st',
    web_search w query num_results st = (Ok results, st') /\
    (forall r st1,
       serpapi_search w query num_results st = (Ok r, st1) ->
       results = r /\ st' = st1) /\
    (forall e st1,
       serpapi_search w query num_results st = (Raise e, st1) ->
       (forall r st2,
          brave_search w query num_results st1 = (Ok r, st2) ->
          results = r /\ st' = st2) /\
       (forall e2 st2,
          brave_search w query num_results st1 = (Raise e2, st2) ->
          results = [] /\ st' = st2)) /\
    (0 <= num_results -> Py.len results <= num_results) /\
    Forall (formatted w) results.
Proof.
  unfold web_search.
  destruct (serpapi_search w query num_results st) as [[r|e] st1] eqn:Hserp.
  - exists r, st1. rewrite (catch_ok _ _ _ _ _ Hserp).
    destruct (serpapi_search_results w _ _ _ _ _ Hserp) as [Hlen Hfmt].
    repeat split; trivial; try congruence; intros; discriminate.
  - rewrite (catch_raise _ _ _ _ _ Hserp).
    destruct (brave_search w query num_results st1) as [[r|e2] st2] eqn:Hbrave.
    + exists r, st2. rewrite (catch_ok _ _ _ _ _ Hbrave).
      destruct (brave_search_results w _ _ _ _ _ Hbrave) as [Hlen Hfmt].
      split; [reflexivity|]. split; [intros; discriminate|].
      split; [|split; trivial].
      intros e' st1' [= <- <-]. rewrite Hbrave.
      split; intros ? ? [= <- <-]; auto.
    + exists [], st2. rewrite (catch_raise _ _ _ _ _ Hbrave).
      split; [reflexivity|]. split; [intros; discriminate|].
      split; [|split; [intros; unfold Py.len; simpl; lia | constructor]].
      intros e' st1' [= <- <-]. rewrite Hbrave.
      split; intros ? ? [= <- <-]; auto.
Qed.

(** Without a SerpAPI key the results are Brave's, three at most. *)
Lemma web_search_never_raises_witness :
  exists results st',
    web_search Scenarios.online "hi" 3 Scenarios.start = (Ok results, st') /\
    Py.len results <= 3.
Proof.
  destruct (web_search_never_raises Scenarios.online "hi" 3 Scenarios.start)
    as (results & st' & Hrun & _ & _ & Hlen & _).
  exists results, st'. split; [exact Hrun | apply Hlen; lia].
Defined.

End WebSearchClaims.

(* ===================================================================== *)
(** * Properties of the workflow run *)
(* ===================================================================== *)

Module WorkflowFacts.
Import PyVal Runtime Observations RuntimeFacts Workflow.
Local Open Scope string_scope.

(** Closes a case of [log_execution]: the call is on record, and the row
    is in the table or not. *)
Ltac logged :=
  eexists; split; [reflexivity|]; split;
  [ unfold log_calls; cbn; rewrite filter_app; reflexivity | reflexivity ].

(** ** Reading the configuration *)

Lemma find_llm_node_first before n after ty :
  Forall passed_over before ->
  get n "type" PyNone = Ok ty -> eq_str ty "llmEngine" = true ->
  find_llm_node (before ++ n :: after) = Ok (Some n).
Proof.
  intros Hbefore Hty Hllm. induction Hbefore as [|m before (ty' & Hm & Hno) _ IH].
  - cbn. rewrite Hty. cbn. now rewrite Hllm.
  - cbn. rewrite Hm. cbn. now rewrite Hno.
Qed.

Lemma lookup_update_same key f d :
  lookup key (update key f d) = option_map f (lookup key d).
Proof.
  induction d as [|[k x] d IH]; [reflexivity|]. cbn.
  destruct (String.eqb k key) eqn:E; cbn; rewrite E; [reflexivity | exact IH].
Qed.

Lemma lookup_update_other key key' f d :
  key' <> key -> lookup key' (update key f d) = lookup key' d.
Proof.
  intros Hne. induction d as [|[k x] d IH]; [reflexivity|]. cbn.
  destruct (String.eqb_spec k key) as [->|]; cbn.
  - destruct (String.eqb_spec key key'); [congruence | reflexivity].
  - now rewrite IH.
Qed.

Lemma lookup_setitem_other key key' v d :
  key' <> key -> lookup key' (setitem key v d) = lookup key' d.
Proof.
  intros Hne. induction d as [|[k x] d IH]; cbn.
  - destruct (String.eqb_spec key key'); [congruence | reflexivity].
  - destruct (String.eqb_spec k key) as [->|]; cbn.
    + destruct (String.eqb_spec key key'); [congruence | reflexivity].
    + now rewrite IH.
Qed.

Lemma update_nil key f d : update key f d = [] <-> d = [].
Proof.
  destruct d as [|[k x] d]; cbn; [tauto|].
  destruct (String.eqb k key); split; discriminate.
Qed.

(** A field other than [useWebSearch] and [model] is not read from a
    configuration. *)
Lemma get_field_irrelevant field v llm_config key default :
  key <> field ->
  get (on_dict (setitem field v) llm_config) key default
  = get llm_config key default.
Proof.
  intros Hne. destruct llm_config; try reflexivity. cbn.
  now rewrite lookup_setitem_other.
Qed.

Lemma extract_config_field_irrelevant node_id field v definition preferred :
  field <> "useWebSearch" -> field <> "model" ->
  extract_config (set_config_field node_id field v definition) preferred
  = extract_config definition preferred.
Proof.
  intros Hweb Hmodel. unfold extract_config, set_config_field, has_key, getitem.
  set (f := on_dict (update node_id (on_dict (setitem field v)))).
  rewrite lookup_update_same, (lookup_update_other "configs" "nodes") by discriminate.
  replace (truthy (PyDict (update "configs" f definition)))
    with (truthy (PyDict definition))
    by (cbn; destruct definition as [|[k x] d]; cbn;
        [reflexivity | now destruct (String.eqb k "configs")]).
  destruct (lookup "configs" definition) as [configs|]; cbn [option_map];
    [|reflexivity].
  destruct (truthy (PyDict definition) && _ && true); [|reflexivity].
  destruct (lookup "nodes" definition) as [nodes|]; [|reflexivity]. cbn [bind Monad_result].
  destruct (iter nodes) as [items|]; [|reflexivity].
  destruct (find_llm_node items) as [[n|]|]; try reflexivity.
  destruct (truthy n); [|reflexivity].
  destruct (subscript n "id") as [id|]; [|reflexivity]. cbn [bind Monad_result].
  assert (Hcfg : forall default,
    match get_at (f configs) id default with
    | Ok c => exists c0, get_at configs id default = Ok c0 /\
                         (c = c0 \/ c = on_dict (setitem field v) c0)
    | Raise e => get_at configs id default = Raise e
    end).
  { intros default. subst f. destruct configs; try reflexivity. cbn.
    destruct (hashable id); [|reflexivity].
    destruct id; try (eexists; split; [reflexivity | now left]).
    destruct (String.eqb_spec s node_id) as [->|Hne].
    - rewrite lookup_update_same. destruct (lookup node_id d); cbn.
      + eexists. split; [reflexivity | now right].
      + eexists. split; [reflexivity | now left].
    - rewrite lookup_update_other by assumption.
      eexists. split; [reflexivity | now left]. }
  specialize (Hcfg (PyDict [])).
  destruct (get_at (f configs) id (PyDict [])) as [c|e].
  - destruct Hcfg as (c0 & -> & [->| ->]); [reflexivity|].
    rewrite !get_field_irrelevant by congruence. reflexivity.
  - now rewrite Hcfg.
Qed.

(** ** Formatting the context *)

Lemma context_loop_spec docs : forall context_chunks,
  context_loop docs context_chunks
  = (context_chunks ++ map context_line (filter has_text docs))%list.
Proof.
  induction docs as [|[i doc] rest IH]; intros acc; cbn [context_loop filter].
  - now rewrite app_nil_r.
  - unfold has_text at 1. cbn [snd]. destruct (nonempty doc).
    + rewrite IH, <- app_assoc. reflexivity.
    + apply IH.
Qed.

Lemma format_knowledge_base_spec first others :
  format_knowledge_base {| documents := Some (first :: others) |} ""
  = chunks_with_text_context first.
Proof.
  unfold format_knowledge_base, chunks_with_text_context. cbn [documents].
  rewrite context_loop_spec. cbn [app].
  now destruct (map context_line (filter has_text (enumerate first))).
Qed.

Lemma combine_contexts_both context web_context :
  context <> "" -> web_context <> "" ->
  combine_contexts context web_context = context ++ blank_line ++ web_context.
Proof.
  intros Hc Hw. unfold combine_contexts, nonempty.
  destruct (String.eqb_spec web_context ""); [contradiction|].
  destruct (String.eqb_spec context ""); [contradiction|]. reflexivity.
Qed.

Lemma combine_contexts_empty_web context : combine_contexts context "" = context.
Proof. reflexivity. Qed.

Section WithWorld.
Variable w : World.

(** ** [log_execution] *)

Lemma log_execution_spec query response model_used success error workflow_id
      execution_time st :
  exists st',
    log_execution w query response model_used success error workflow_id
                  execution_time st = (Ok tt, st') /\
    log_calls st' = (log_calls st
                     ++ [LogExecution workflow_id query response model_used success error])%list /\
    execution_logs st' =
      if commits w then
        (execution_logs st ++ [row_of w st query response model_used success error
                                      workflow_id execution_time])%list
      else execution_logs st.
Proof.
  unfold log_execution, commits, db. cbn.
  destruct (db_fault w DbConnect); cbn; [logged|].
  destruct (db_fault w DbCursor); cbn; [logged|].
  destruct (db_fault w DbExecute); cbn; [logged|].
  destruct (db_fault w DbCommit); cbn; [logged|].
  destruct (db_fault w DbCursorClose); cbn; [logged|].
  destruct (db_fault w DbClose); cbn; logged.
Qed.

(** ** The search of the vector index *)

Lemma search_similar_chunks_spec request st :
  Embeddings.search_similar_chunks w (query request) (max_context_chunks request) st
  = (match chroma_query w (query request) (max_context_chunks request) with
     | inr results => Ok results
     | inl msg => Raise (Exception ("Error searching similar chunks: " ++ msg))
     end,
     after_chroma_query w request st).
Proof.
  unfold Embeddings.search_similar_chunks, Embeddings.generate_embeddings,
    Embeddings.generate_embeddings_local, chroma_query, embedding_of,
    after_chroma_query, search_events.
  destruct st as [tr rows n]. cbn.
  destruct (chroma_client w) as [msg|]; cbn; [now rewrite app_nil_r|].
  destruct (embeddings_create w (query request)) as [msg|v]; cbn.
  - destruct (local_encode w (query request)) as [msg'|v]; cbn;
      rewrite <- ?app_assoc; cbn; [reflexivity|].
    now destruct (collection_query w v (max_context_chunks request)).
  - rewrite <- ?app_assoc. cbn.
    now destruct (collection_query w v (max_context_chunks request)).
Qed.

(** ** The two context stages *)

Lemma Quiet_knowledge_base_context request :
  Quiet (knowledge_base_context w request).
Proof.
  unfold knowledge_base_context, Embeddings.search_similar_chunks. prove_quiet.
Qed.

Lemma Total_knowledge_base_context request :
  Total (knowledge_base_context w request).
Proof.
  unfold knowledge_base_context. cbv zeta.
  destruct (opt_true (use_knowledge_base request)); [|apply Total_ret].
  apply Total_catch. intros e. apply Total_ret.
Qed.

Lemma Quiet_web_search_context request use_web_search :
  Quiet (web_search_context w request use_web_search).
Proof.
  unfold web_search_context. pose proof (WebSearchFacts.Quiet_web_search w).
  prove_quiet.
Qed.

Lemma Total_web_search_context request use_web_search :
  Total (web_search_context w request use_web_search).
Proof.
  unfold web_search_context. cbv zeta.
  destruct (truthy use_web_search); [|apply Total_ret].
  apply Total_catch. intros e. apply Total_ret.
Qed.

(** A failing search of the vector index leaves the context empty. *)
Lemma knowledge_base_context_index_raises request st msg :
  opt_true (use_knowledge_base request) = true ->
  chroma_query w (query request) (max_context_chunks request) = inl msg ->
  knowledge_base_context w request st = (Ok "", after_chroma_query w request st).
Proof.
  intros Hkb Hq. unfold knowledge_base_context. rewrite Hkb.
  pose proof (search_similar_chunks_spec request st) as Hsearch.
  rewrite Hq in Hsearch.
  rewrite (catch_raise _ _ _ _ _ (bind_raise _ _ _ _ _ Hsearch)). reflexivity.
Qed.

Lemma knowledge_base_context_found request st first others :
  opt_true (use_knowledge_base request) = true ->
  chroma_query w (query request) (max_context_chunks request)
  = inr {| documents := Some (first :: others) |} ->
  knowledge_base_context w request st
  = (Ok (chunks_with_text_context first), after_chroma_query w request st).
Proof.
  intros Hkb Hq. unfold knowledge_base_context. rewrite Hkb.
  pose proof (search_similar_chunks_spec request st) as Hsearch.
  rewrite Hq in Hsearch.
  apply catch_ok. rewrite (bind_ok _ _ _ _ _ Hsearch).
  now rewrite format_knowledge_base_spec.
Qed.

Lemma web_search_context_found request use_web_search st web_results st' :
  truthy use_web_search = true ->
  WebSearch.web_search w (query request) 3 st = (Ok web_results, st') ->
  web_search_context w request use_web_search st
  = (Ok (format_web_results web_results), st').
Proof.
  intros Hon H. unfold web_search_context. rewrite Hon.
  apply catch_ok. rewrite (bind_ok _ _ _ _ _ H). now destruct web_results.
Qed.

Lemma web_search_context_disabled request use_web_search st :
  truthy use_web_search = false ->
  web_search_context w request use_web_search st = (Ok "", st).
Proof. intros H. unfold web_search_context. now rewrite H. Qed.

Lemma web_search_context_no_results request use_web_search st st' :
  WebSearch.web_search w (query request) 3 st = (Ok [], st') ->
  exists st'', web_search_context w request use_web_search st = (Ok "", st'').
Proof.
  intros H. unfold web_search_context. destruct (truthy use_web_search).
  - exists st'. apply catch_ok. now rewrite (bind_ok _ _ _ _ _ H).
  - now exists st.
Qed.

(** The web stage is the search, when it is switched on, and nothing
    otherwise. *)
Lemma web_search_context_spec request use_web_search st :
  exists web_results st',
    (if truthy use_web_search
     then WebSearch.web_search w (query request) 3 st = (Ok web_results, st')
     else web_results = [] /\ st' = st) /\
    web_search_context w request use_web_search st
    = (Ok (format_web_results web_results), st').
Proof.
  destruct (truthy use_web_search) eqn:Hon.
  - assert (Htotal : Total (WebSearch.web_search w (query request) 3)).
    { unfold WebSearch.web_search. apply Total_catch. intros e.
      apply Total_catch. intros e2. apply Total_ret. }
    destruct (Htotal st) as (web_results & st' & Hweb).
    exists web_results, st'. split; [exact Hweb|].
    now apply web_search_context_found.
  - exists [], st. split; [now split|].
    now apply web_search_context_disabled.
Qed.

(** The knowledge base stage is the search of the index for the query of
    the request. *)
Lemma knowledge_base_context_on request st :
  opt_true (use_knowledge_base request) = true ->
  knowledge_base_context w request st
  = (Ok match chroma_query w (query request) (max_context_chunks request) with
        | inr search_results => format_knowledge_base search_results ""
        | inl _ => ""
        end,
     after_chroma_query w request st).
Proof.
  intros Hkb. unfold knowledge_base_context. rewrite Hkb.
  pose proof (search_similar_chunks_spec request st) as Hsearch.
  destruct (chroma_query w (query request) (max_context_chunks request))
    as [msg|search_results].
  - now rewrite (catch_raise _ _ _ _ _ (bind_raise _ _ _ _ _ Hsearch)).
  - apply catch_ok. now rewrite (bind_ok _ _ _ _ _ Hsearch).
Qed.

Lemma combine_contexts_empty_kb web_context :
  combine_contexts "" web_context = web_context.
Proof.
  unfold combine_contexts, nonempty.
  destruct (String.eqb_spec web_context ""); subst; reflexivity.
Qed.

(** ** The run, stage by stage *)

Lemma now_tick st : now w st = (Ok (clock w (ticks st)), tick st).
Proof. reflexivity. Qed.

(** Once the configuration is read, nothing raises any more: the run goes
    through the two context stages, the generation and the logging, and
    returns the response. *)
Lemma run_workflow_ok request st use_web_search selected_model :
  extract_config (workflow request) (preferred_model request)
  = Ok (use_web_search, selected_model) ->
  exists context st1 web_context st2 result st3 st',
    knowledge_base_context w request (tick st) = (Ok context, st1) /\
    web_search_context w request use_web_search st1 = (Ok web_context, st2) /\
    LLMService.generate_response w (query request)
      (combine_contexts context web_context) selected_model
      (temperature request) st2 = (Ok result, st3) /\
    log_execution w (query request) (LLMService.response result)
      (LLMService.model_used result) (LLMService.success result)
      (Some (LLMService.error result)) None
      (Some (clock w (ticks st3) - clock w (ticks st))%Q) (tick st3) = (Ok tt, st') /\
    run_workflow w request st
    = (Ok (respond result (combine_contexts context web_context)), st').
Proof.
  intros Hcfg.
  destruct (Total_knowledge_base_context request (tick st)) as (context & st1 & Hkb).
  destruct (Total_web_search_context request use_web_search st1)
    as (web_context & st2 & Hweb).
  destruct (LLMFacts.Total_generate_response w (query request)
              (combine_contexts context web_context) selected_model
              (temperature request) st2) as (result & st3 & Hgen).
  destruct (log_execution_spec (query request) (LLMService.response result)
              (LLMService.model_used result) (LLMService.success result)
              (Some (LLMService.error result)) None
              (Some (clock w (ticks st3) - clock w (ticks st))%Q) (tick st3))
    as (st' & Hlog & _).
  exists context, st1, web_context, st2, result, st3, st'.
  repeat (split; [assumption|]).
  unfold run_workflow.
  rewrite (bind_ok _ _ _ _ _ (now_tick st)).
  apply catch_ok.
  erewrite bind_ok by (unfold lift; rewrite Hcfg; reflexivity).
  cbv beta iota.
  rewrite (bind_ok _ _ _ _ _ Hkb).
  rewrite (bind_ok _ _ _ _ _ Hweb).
  rewrite (bind_ok _ _ _ _ _ Hgen).
  rewrite (bind_ok _ _ _ _ _ (now_tick st3)).
  rewrite (bind_ok _ _ _ _ _ Hlog).
  reflexivity.
Qed.

(** An exception while the configuration is read is logged and turned into
    the HTTP error. *)
Lemma run_workflow_raise request st e :
  extract_config (workflow request) (preferred_model request) = Raise e ->
  exists st',
    log_execution w (query request) "" "unknown" false (Some (str_exn w e)) None
      (Some (clock w (S (ticks st)) - clock w (ticks st))%Q) (tick (tick st))
    = (Ok tt, st') /\
    run_workflow w request st
    = (Raise (HTTPException 500 ("Workflow execution error: " ++ str_exn w e)), st').
Proof.
  intros Hcfg.
  destruct (log_execution_spec (query request) "" "unknown" false
              (Some (str_exn w e)) None
              (Some (clock w (S (ticks st)) - clock w (ticks st))%Q) (tick (tick st)))
    as (st' & Hlog & _).
  exists st'. split; [assumption|].
  unfold run_workflow.
  rewrite (bind_ok _ _ _ _ _ (now_tick st)).
  erewrite catch_raise
    by (erewrite bind_raise by (unfold lift; rewrite Hcfg; reflexivity); reflexivity).
  rewrite (bind_ok _ _ _ _ _ (now_tick (tick st))).
  rewrite (bind_ok _ _ _ _ _ Hlog).
  reflexivity.
Qed.

(** The workflow definition enters the run through [extract_config] only. *)
Lemma run_workflow_same_config request definition st :
  extract_config definition (preferred_model request)
  = extract_config (workflow request) (preferred_model request) ->
  run_workflow w (with_workflow definition request) st = run_workflow w request st.
Proof.
  intros H. destruct request as [wf q pm t kb n]. cbn in H.
  unfold run_workflow, with_workflow. cbn [workflow query preferred_model temperature
    use_knowledge_base max_context_chunks]. rewrite H. reflexivity.
Qed.

Lemma extract_config_llm_node definition preferred before node after
      node_id configs cfg :
  lookup "nodes" definition = Some (PyList (before ++ PyDict node :: after)) ->
  lookup "configs" definition = Some (PyDict configs) ->
  Forall passed_over before ->
  lookup "type" node = Some (PyStr "llmEngine") ->
  lookup "id" node = Some (PyStr node_id) ->
  match lookup node_id configs with Some c => c | None => PyDict [] end = PyDict cfg ->
  extract_config definition preferred
  = Ok (match lookup "useWebSearch" cfg with Some v => v | None => PyBool false end,
        match lookup "model" cfg with Some v => v | None => opt_str preferred end).
Proof.
  intros Hnodes Hconfigs Hbefore Htype Hid Hcfg.
  unfold extract_config, has_key, getitem. rewrite Hnodes, Hconfigs.
  assert (Hwf : truthy (PyDict definition) = true)
    by (destruct definition; [discriminate | reflexivity]).
  rewrite Hwf. cbn [andb bind Monad_result iter].
  rewrite (find_llm_node_first before (PyDict node) after (PyStr "llmEngine"));
    [|assumption|cbn; now rewrite Htype|reflexivity].
  assert (Hnode : truthy (PyDict node) = true)
    by (destruct node; [discriminate | reflexivity]).
  rewrite Hnode. cbn [subscript getitem]. unfold getitem. rewrite Hid.
  cbn [bind Monad_result get_at hashable]. rewrite Hcfg. reflexivity.
Qed.

End WithWorld.

(** ** The database does not show in the stages before the logging *)

Section Database.
Variables (w : World) (fault : db_step -> option string).

Lemma knowledge_base_context_db request :
  knowledge_base_context (with_db_fault fault w) request
  = knowledge_base_context w request.
Proof. reflexivity. Qed.

Lemma web_search_context_db request use_web_search :
  web_search_context (with_db_fault fault w) request use_web_search
  = web_search_context w request use_web_search.
Proof. reflexivity. Qed.

Lemma generate_response_db query context preferred_model temperature :
  LLMService.generate_response (with_db_fault fault w) query context
                               preferred_model temperature
  = LLMService.generate_response w query context preferred_model temperature.
Proof. reflexivity. Qed.

End Database.
End WorkflowFacts.

Module WorkflowClaims.
Import PyVal Runtime Observations RuntimeFacts Workflow WorkflowFacts.
Local Open Scope string_scope.

(** C3. Every run calls [log_execution] exactly once, whether it returns
    a response or ends in the HTTP error. When it returns, the entry
    carries the response's text, model and success flag; when it raises,
    the entry carries an empty response, the model "unknown", failure and
    the text of the caught exception. The workflow id is null in both. With
    a database that takes the insert the table gains exactly that row, and
    without any LLM provider the one entry is a failure. *)
Theorem run_workflow_logs_once (w : World) (request : WorkflowRunRequest) (st : State) :
  exists outcome st' entry,
    run_workflow w request st = (outcome, st') /\
    log_calls st' = (log_calls st ++ [entry])%list /\
    match outcome with
    | Ok r =>
        entry = LogExecution None (query request) (response r) (model_used r)
                             (success r) (error r)
    | Raise e =>
        exists cause,
          e = HTTPException 500 ("Workflow execution error: " ++ str_exn w cause) /\
          entry = LogExecution None (query request) "" "unknown" false
                               (Some (str_exn w cause))
    end /\
    (commits w = true ->
     exists row,
       execution_logs st' = (execution_logs st ++ [row])%list /\ entry_of row = entry) /\
    (LLMService.openai_available w = false ->
     LLMService.gemini_available w = false ->
     forall workflow_id q r m s e,
       entry = LogExecution workflow_id q r m s e -> s = false).
Proof.
  destruct (extract_config (workflow request) (preferred_model request))
    as [[use_web_search selected_model]|cause] eqn:Hcfg.
  - destruct (run_workflow_ok w request st _ _ Hcfg)
      as (context & st1 & web_context & st2 & result & st3 & st'
          & Hkb & Hweb & Hgen & Hlog & Hrun).
    destruct (log_execution_spec w (query request) (LLMService.response result)
                (LLMService.model_used result) (LLMService.success result)
                (Some (LLMService.error result)) None
                (Some (clock w (ticks st3) - clock w (ticks st))%Q) (tick st3))
      as (st'' & Hlog' & Hcalls & Hrows).
    rewrite Hlog in Hlog'. injection Hlog' as <-.
    pose proof (Quiet_run _ _ _ _ (Quiet_knowledge_base_context w request) Hkb) as Q1.
    pose proof (Quiet_run _ _ _ _ (Quiet_web_search_context w request _) Hweb) as Q2.
    pose proof (Quiet_run _ _ _ _ (LLMFacts.Quiet_generate_response w _ _ _ _) Hgen) as Q3.
    assert (Q : quiet st (tick st3)).
    { eapply quiet_trans; [apply quiet_tick|].
      eapply quiet_trans; [exact Q1|].
      eapply quiet_trans; [exact Q2|].
      eapply quiet_trans; [exact Q3|apply quiet_tick]. }
    destruct Q as [Qcalls Qrows].
    eexists _, st', _. split; [exact Hrun|].
    split; [rewrite Hcalls, Qcalls; reflexivity|].
    split; [reflexivity|]. split.
    + intros Hc. rewrite Hc in Hrows. eexists. split.
      * rewrite Hrows, Qrows. reflexivity.
      * reflexivity.
    + intros Ho Hg workflow_id q r m s e [= _ _ _ _ <- _].
      destruct (LLMFacts.generate_response_none_available w (query request)
                  (combine_contexts context web_context) selected_model
                  (temperature request) st2 Ho Hg) as (msg & Hfail).
      rewrite Hgen in Hfail. now injection Hfail as -> _.
  - destruct (run_workflow_raise w request st cause Hcfg) as (st' & Hlog & Hrun).
    destruct (log_execution_spec w (query request) "" "unknown" false
                (Some (str_exn w cause)) None
                (Some (clock w (S (ticks st)) - clock w (ticks st))%Q) (tick (tick st)))
      as (st'' & Hlog' & Hcalls & Hrows).
    rewrite Hlog in Hlog'. injection Hlog' as <-.
    eexists _, st', _. split; [exact Hrun|].
    split; [exact Hcalls|].
    split; [exists cause; split; reflexivity|]. split.
    + intros Hc. rewrite Hc in Hrows. eexists. split; [exact Hrows|reflexivity].
    + now intros _ _ workflow_id q r m s e [= _ _ _ _ <- _].
Qed.

(** Offline, the one entry is a failure and ends up in the table. *)
Lemma run_workflow_logs_once_witness :
  exists outcome st' row,
    run_workflow Scenarios.offline Scenarios.plain_request Scenarios.start
    = (outcome, st') /\
    execution_logs st' = [row] /\
    log_success row = false.
Proof.
  destruct (run_workflow_logs_once Scenarios.offline Scenarios.plain_request
                                   Scenarios.start)
    as (outcome & st' & entry & Hrun & _ & _ & Hrows & Hfail).
  destruct (Hrows eq_refl) as (row & Hrow & Hentry).
  exists outcome, st', row. split; [exact Hrun|]. split; [exact Hrow|].
  exact (Hfail eq_refl eq_refl _ _ _ _ _ _ (eq_sym Hentry)).
Defined.

(** C5. When the search of the vector index raises (its client, the
    embedding of the query or the query of the collection), the knowledge
    base stage returns the empty context and the run goes on: it returns a
    response, whose success is that of the generation and whose
    [context_used] is the web search context alone, null when web search is
    off or finds nothing. *)
Theorem run_workflow_survives_index_failure
        (w : World) (request : WorkflowRunRequest) (st : State)
        (use_web_search selected_model : pyval) (msg : string) :
  extract_config (workflow request) (preferred_model request)
  = Ok (use_web_search, selected_model) ->
  opt_true (use_knowledge_base request) = true ->
  chroma_query w (query request) (max_context_chunks request) = inl msg ->
  let st1 := after_chroma_query w request (tick st) in
  knowledge_base_context w request (tick st) = (Ok "", st1) /\
  exists web_context st2 result st3 r st',
    web_search_context w request use_web_search st1 = (Ok web_context, st2) /\
    LLMService.generate_response w (query request) web_context selected_model
                                 (temperature request) st2 = (Ok result, st3) /\
    run_workflow w request st = (Ok r, st') /\
    success r = LLMService.success result /\
    response r = LLMService.response result /\
    context_used r = (if nonempty web_context then Some web_context else None) /\
    (truthy use_web_search = false -> context_used r = None) /\
    (forall st'',
       WebSearch.web_search w (query request) 3 st1 = (Ok [], st'') ->
       context_used r = None).
Proof.
  intros Hcfg Hkb Hq st1.
  pose proof (knowledge_base_context_index_raises w request (tick st) msg Hkb Hq) as Hctx.
  split; [exact Hctx|].
  destruct (run_workflow_ok w request st _ _ Hcfg)
    as (context & st1' & web_context & st2 & result & st3 & st'
        & Hkb' & Hweb & Hgen & _ & Hrun).
  rewrite Hctx in Hkb'. injection Hkb' as <- <-.
  rewrite combine_contexts_empty_kb in Hgen, Hrun.
  exists web_context, st2, result, st3, (respond result web_context), st'.
  fold st1 in Hweb. repeat (split; [first [assumption | reflexivity]|]). split.
  - intros Hoff. rewrite (web_search_context_disabled w _ _ _ Hoff) in Hweb.
    now injection Hweb as <- _.
  - intros st'' Hnone.
    destruct (web_search_context_no_results w request use_web_search _ _ Hnone)
      as (st2' & Hweb').
    rewrite Hweb in Hweb'. now injection Hweb' as -> _.
Qed.

(** The index is unreachable, OpenAI refuses, Gemini answers: the run
    succeeds, without context. *)
Lemma run_workflow_survives_index_failure_witness :
  exists r st',
    run_workflow Scenarios.openai_down Scenarios.plain_request Scenarios.start
    = (Ok r, st') /\
    success r = true /\ response r = "ok" /\ context_used r = None.
Proof.
  destruct (run_workflow_survives_index_failure
              Scenarios.openai_down Scenarios.plain_request Scenarios.start
              (PyBool false) (PyStr "auto") "Connection error."
              eq_refl eq_refl eq_refl)
    as (_ & web_context & st2 & result & st3 & r & st'
        & Hweb & Hgen & Hrun & Hsuccess & Hresponse & _ & Hnone & _).
  exists r, st'. split; [exact Hrun|].
  injection Hweb as <- <-. injection Hgen as <- _.
  split; [exact Hsuccess|]. split; [exact Hresponse|]. exact (Hnone eq_refl).
Defined.

(** C10. [log_execution] returns whatever the database does: an exception
    of the insert stays inside it, and when the insert does not get
    through the table is left as it was. A run returns the same response,
    or raises the same HTTP error, with any database. *)
Theorem log_execution_swallows_failures
        (w : World) (fault : db_step -> option string)
        (request : WorkflowRunRequest) (st : State)
        (query response model_used : string) (success : bool)
        (error : option string) (workflow_id : option Z)
        (execution_time : option Q) :
  (exists st',
     log_execution w query response model_used success error workflow_id
                   execution_time st = (Ok tt, st') /\
     (commits w = false -> execution_logs st' = execution_logs st)) /\
  fst (run_workflow (with_db_fault fault w) request st)
  = fst (run_workflow w request st).
Proof.
  split.
  - destruct (log_execution_spec w query response model_used success error
                workflow_id execution_time st) as (st' & Hlog & _ & Hrows).
    exists st'. split; [exact Hlog|]. intros Hc. now rewrite Hc in Hrows.
  - destruct (extract_config (Workflow.workflow request) (preferred_model request))
      as [[use_web_search selected_model]|cause] eqn:Hcfg.
    + destruct (run_workflow_ok w request st _ _ Hcfg)
        as (context & st1 & web_context & st2 & result & st3 & st'
            & Hkb & Hweb & Hgen & _ & Hrun).
      destruct (run_workflow_ok (with_db_fault fault w) request st _ _ Hcfg)
        as (context' & st1' & web_context' & st2' & result' & st3' & st''
            & Hkb' & Hweb' & Hgen' & _ & Hrun').
      rewrite knowledge_base_context_db, Hkb in Hkb'. injection Hkb' as <- <-.
      rewrite web_search_context_db, Hweb in Hweb'. injection Hweb' as <- <-.
      rewrite generate_response_db, Hgen in Hgen'. injection Hgen' as <- <-.
      now rewrite Hrun, Hrun'.
    + destruct (run_workflow_raise w request st cause Hcfg) as (st' & _ & Hrun).
      destruct (run_workflow_raise (with_db_fault fault w) request st cause Hcfg)
        as (st'' & _ & Hrun').
      now rewrite Hrun, Hrun'.
Qed.

(** C8, as amended. The knowledge base context is made of the retrieved
    chunks that have text, each as "Context N: text" with [N] its 1-based
    place in the retrieved list (a chunk without text is left out and keeps
    its number), joined by blank lines; the web context is every result as
    "Web Result N: snippet", joined by blank lines. The two are put together
    with a blank line between them when both have text; otherwise the
    combined context is the one that has, or empty. The chunks "foo", "bar"
    and the web result "baz" give
    "Context 1: foo", "Context 2: bar", "Web Result 1: baz", separated by
    blank lines. *)
Theorem context_assembly
        (w : World) (request : WorkflowRunRequest) (st : State)
        (chunks : list string) (others : list (list string))
        (web_results : list string) :
  (opt_true (use_knowledge_base request) = true ->
   chroma_query w (query request) (max_context_chunks request)
   = inr {| documents := Some (chunks :: others) |} ->
   knowledge_base_context w request st
   = (Ok (join blank_line (map context_line (filter has_text (enumerate chunks)))),
      after_chroma_query w request st)) /\
  (forall use_web_search st',
     truthy use_web_search = true ->
     WebSearch.web_search w (query request) 3 st = (Ok web_results, st') ->
     web_search_context w request use_web_search st
     = (Ok (join blank_line (map web_line (enumerate web_results))), st')) /\
  (forall context web_context,
     (context <> "" -> web_context <> "" ->
      combine_contexts context web_context = context ++ blank_line ++ web_context) /\
     combine_contexts context "" = context /\
     combine_contexts "" web_context = web_context) /\
  combine_contexts
    (format_knowledge_base {| documents := Some [["foo"; "bar"]] |} "")
    (format_web_results ["baz"])
  = "Context 1: foo" ++ blank_line ++ "Context 2: bar" ++ blank_line
    ++ "Web Result 1: baz".
Proof.
  split; [|split; [|split]].
  - intros Hkb Hq. now apply knowledge_base_context_found with (others := others).
  - intros use_web_search st' Hon Hweb.
    now apply web_search_context_found.
  - intros context web_context. split; [|split].
    + apply combine_contexts_both.
    + apply combine_contexts_empty_web.
    + apply combine_contexts_empty_kb.
  - reflexivity.
Qed.

(** With "foo" and "bar" in the index, the knowledge base stage returns the
    two numbered chunks. *)
Lemma context_assembly_witness :
  fst (knowledge_base_context Scenarios.online Scenarios.plain_request Scenarios.start)
  = Ok ("Context 1: foo" ++ blank_line ++ "Context 2: bar").
Proof.
  destruct (context_assembly Scenarios.online Scenarios.plain_request Scenarios.start
                             ["foo"; "bar"] [] []) as (Hkb & _).
  now rewrite (Hkb eq_refl eq_refl).
Defined.

(** C8, as first stated, fails: of the retrieved chunks "" and "bar" only
    the second is in the context, under the number 2, while formatting
    every retrieved chunk would also give a "Context 1: " entry. *)
Lemma context_skips_empty_chunk :
  format_knowledge_base {| documents := Some [[""; "bar"]] |} "" = "Context 2: bar" /\
  format_knowledge_base {| documents := Some [[""; "bar"]] |} ""
  <> every_chunk_context [""; "bar"].
Proof. split; [reflexivity | discriminate]. Qed.

(** C4. The configuration is read from the first node of type "llmEngine"
    in the definition's node list: web search is switched by the
    [useWebSearch] entry of that node's configuration, false when there is
    none, and the model is its [model] entry, the request's
    [preferred_model] when there is none. The run obeys the two: it searches
    the web, for the query of the request, exactly when the entry is true,
    and sends nothing otherwise; it asks [generate_response] for that
    model, with the context made of the knowledge base context and the web
    results, and returns what the generation gives. The entries
    [useKnowledgeBase] and [maxContextChunks] of a configuration are not
    read: whatever is written there the run is the same. The knowledge base
    stage does nothing when the request's [use_knowledge_base] is not set;
    when it is set, the stage is the search of the index for the request's
    query and [max_context_chunks]. *)
Theorem config_extraction
        (w : World) (request : WorkflowRunRequest) (st : State)
        (before after : list pyval) (node configs cfg : list (string * pyval))
        (node_id : string) :
  lookup "nodes" (workflow request) = Some (PyList (before ++ PyDict node :: after)) ->
  lookup "configs" (workflow request) = Some (PyDict configs) ->
  Forall passed_over before ->
  lookup "type" node = Some (PyStr "llmEngine") ->
  lookup "id" node = Some (PyStr node_id) ->
  match lookup node_id configs with Some c => c | None => PyDict [] end = PyDict cfg ->
  let use_web_search :=
    match lookup "useWebSearch" cfg with Some v => v | None => PyBool false end in
  let selected_model :=
    match lookup "model" cfg with
    | Some v => v
    | None => opt_str (preferred_model request)
    end in
  extract_config (workflow request) (preferred_model request)
  = Ok (use_web_search, selected_model) /\
  (exists context st1 web_results st2 result st3 r st',
     knowledge_base_context w request (tick st) = (Ok context, st1) /\
     (if truthy use_web_search
      then WebSearch.web_search w (query request) 3 st1 = (Ok web_results, st2)
      else web_results = [] /\ st2 = st1) /\
     LLMService.generate_response w (query request)
       (combine_contexts context (format_web_results web_results))
       selected_model (temperature request) st2 = (Ok result, st3) /\
     run_workflow w request st = (Ok r, st') /\
     r = respond result (combine_contexts context (format_web_results web_results))) /\
  (forall any_node field v,
     field = "useKnowledgeBase" \/ field = "maxContextChunks" ->
     run_workflow w (with_workflow
                       (set_config_field any_node field v (workflow request)) request) st
     = run_workflow w request st) /\
  (opt_true (use_knowledge_base request) = false ->
   knowledge_base_context w request st = (Ok "", st)) /\
  (opt_true (use_knowledge_base request) = true ->
   knowledge_base_context w request st
   = (Ok match chroma_query w (query request) (max_context_chunks request) with
         | inr search_results => format_knowledge_base search_results ""
         | inl _ => ""
         end,
      after_chroma_query w request st)).
Proof.
  intros Hnodes Hconfigs Hbefore Htype Hid Hcfg use_web_search selected_model.
  assert (Hread : extract_config (workflow request) (preferred_model request)
                  = Ok (use_web_search, selected_model))
    by now apply extract_config_llm_node
         with (before := before) (node := node) (after := after)
              (node_id := node_id) (configs := configs).
  split; [exact Hread|]. split; [|split; [|split]].
  - destruct (run_workflow_ok w request st _ _ Hread)
      as (context & st1 & web_context & st2 & result & st3 & st'
          & Hkb & Hweb & Hgen & _ & Hrun).
    destruct (web_search_context_spec w request use_web_search st1)
      as (web_results & st2' & Hsearch & Hweb').
    rewrite Hweb in Hweb'. injection Hweb' as -> ->.
    exists context, st1, web_results, st2', result, st3.
    eexists. exists st'. repeat (split; [eassumption|]). reflexivity.
  - intros any_node field v Hfield. apply run_workflow_same_config.
    apply extract_config_field_irrelevant; destruct Hfield; subst; discriminate.
  - intros Hoff. unfold knowledge_base_context. now rewrite Hoff.
  - apply knowledge_base_context_on.
Qed.

(** Of the two LLM Engine nodes the first is read: web search on, model
    "gemini". With Brave answering and no credential for Gemini, the run
    has the page in its context and fails for the model of the node, while
    the request's own preference, "auto", would have been served. *)
Lemma config_extraction_witness :
  extract_config (workflow Scenarios.graph_request)
                 (preferred_model Scenarios.graph_request)
  = Ok (PyBool true, PyStr "gemini") /\
  exists r st',
    run_workflow Scenarios.online Scenarios.graph_request Scenarios.start
    = (Ok r, st') /\
    context_used r
    = Some ("Context 1: foo" ++ blank_line ++ "Context 2: bar" ++ blank_line
            ++ "Web Result 1: Baz: a page (https://baz.example)") /\
    error r = Some "Preferred model 'gemini' not available".
Proof.
  assert (Hbefore : Forall passed_over [Scenarios.query_node]).
  { constructor; [|constructor]. exists (PyStr "userQuery"). split; reflexivity. }
  destruct (config_extraction Scenarios.online Scenarios.graph_request Scenarios.start
              [Scenarios.query_node] [Scenarios.second_llm_node]
              Scenarios.first_llm_node Scenarios.graph_configs
              Scenarios.first_llm_config "llm-1"
              eq_refl eq_refl Hbefore eq_refl eq_refl eq_refl)
    as (Hread & (context & st1 & web_results & st2 & result & st3 & r & st'
                 & Hkb & Hweb & Hgen & Hrun & Hr) & _).
  split; [exact Hread|]. exists r, st'. split; [exact Hrun|].
  vm_compute in Hkb. injection Hkb as <- <-.
  vm_compute in Hweb. injection Hweb as <- <-.
  vm_compute in Hgen. injection Hgen as <- _.
  rewrite Hr. split; reflexivity.
Defined.

(** With the database down, the call returns and the table stays empty. *)
Lemma log_execution_swallows_failures_witness :
  exists st',
    log_execution Scenarios.database_down "hi" "" "unknown" false None None None
                  Scenarios.start = (Ok tt, st') /\
    execution_logs st' = [].
Proof.
  destruct (log_execution_swallows_failures
              Scenarios.database_down (fun _ => None) Scenarios.plain_request
              Scenarios.start "hi" "" "unknown" false None None None)
    as [(st' & Hlog & Hrows) _].
  exists st'. split; [exact Hlog | exact (Hrows eq_refl)].
Defined.

End WorkflowClaims.

(* ===================================================================== *)
(** * More on the provider pool *)
(* ===================================================================== *)

Module LLMExtras.
Import PyVal Runtime Observations Measures RuntimeFacts LLMService LLMFacts.
Local Open Scope string_scope.

#[local] Arguments generate_response_openai : simpl never.
#[local] Arguments generate_response_gemini : simpl never.

Section WithWorld.
Variable w : World.

Lemma add_events_app evs1 evs2 st :
  add_events evs2 (add_events evs1 st) = add_events (evs1 ++ evs2)%list st.
Proof. unfold add_events. cbn. now rewrite <- app_assoc. Qed.

(** Models that raise are passed over, the first that answers ends the
    loop, and the models after it are not called. *)
Lemma gemini_loop_first_answer passed model_name rest prompt temperature text st :
  Forall (fun m => exists msg, gemini_generate w m prompt temperature = inl msg) passed ->
  gemini_generate w model_name prompt temperature = inr text ->
  gemini_loop w (passed ++ model_name :: rest) prompt temperature st
  = (Ok text, add_events (gemini_calls (passed ++ [model_name]) prompt) st).
Proof.
  intros Hpassed Hanswer. revert st.
  induction Hpassed as [|m passed (msg & Hm) _ IH]; intros st.
  - cbn. rewrite Hanswer. reflexivity.
  - cbn [app gemini_loop]. cbn. rewrite Hm. cbn. rewrite IH.
    unfold add_events. cbn. now rewrite <- app_assoc.
Qed.

Lemma gemini_loop_all_raise models prompt temperature st :
  Forall (fun m => exists msg, gemini_generate w m prompt temperature = inl msg) models ->
  gemini_loop w models prompt temperature st
  = (Raise (Exception "All Gemini models are unavailable"),
     add_events (gemini_calls models prompt) st).
Proof.
  intros Hall. revert st. induction Hall as [|m models (msg & Hm) _ IH]; intros st.
  - cbn. unfold add_events. cbn. rewrite app_nil_r. now destruct st.
  - cbn [gemini_loop]. cbn. rewrite Hm. cbn. rewrite IH.
    unfold add_events. cbn. now rewrite <- app_assoc.
Qed.

Lemma generate_response_gemini_all_raise query context temperature st :
  Forall (fun m => exists msg,
            gemini_generate w m (build_prompt query context) temperature = inl msg)
         gemini_models ->
  generate_response_gemini w query context temperature st
  = (Raise (Exception "Gemini API error: All Gemini models are unavailable"),
     add_events (gemini_calls gemini_models (build_prompt query context)) st).
Proof.
  intros Hall. unfold generate_response_gemini.
  now rewrite (catch_raise _ _ _ _ _ (gemini_loop_all_raise _ _ _ st Hall)).
Qed.

End WithWorld.

(** X1. Gemini's models are tried in the order of the list: those that
    raise are passed over, the first that answers gives the text, and the
    models after it are never called. *)
Theorem gemini_first_answer_wins
        (w : World) (query context : string) (temperature : option Q) (st : State)
        (passed rest : list string) (model_name text : string) :
  gemini_models = (passed ++ model_name :: rest)%list ->
  Forall (fun m => exists msg,
            gemini_generate w m (build_prompt query context) temperature = inl msg)
         passed ->
  gemini_generate w model_name (build_prompt query context) temperature = inr text ->
  generate_response_gemini w query context temperature st
  = (Ok text,
     add_events (gemini_calls (passed ++ [model_name]) (build_prompt query context)) st).
Proof.
  intros Hmodels Hpassed Hanswer. unfold generate_response_gemini. cbv zeta.
  rewrite Hmodels. apply catch_ok. now apply gemini_loop_first_answer.
Qed.

Lemma gemini_first_answer_wins_witness :
  generate_response_gemini MoreScenarios.flash_only "hi" "" None Scenarios.start
  = (Ok "ok",
     add_events [GeminiCall "gemini-1.5-pro" (build_prompt "hi" "");
                 GeminiCall "gemini-1.5-flash" (build_prompt "hi" "")]
                Scenarios.start).
Proof.
  apply (gemini_first_answer_wins MoreScenarios.flash_only "hi" "" None Scenarios.start
           ["gemini-1.5-pro"] ["gemini-pro"] "gemini-1.5-flash" "ok").
  - reflexivity.
  - constructor; [|constructor]. now exists "404 model not found".
  - reflexivity.
Defined.

(** X2. A provider asked for by name and available is the only one called:
    when it raises, its error is the result and the other provider is not
    tried, whether it is available or not. *)
Theorem named_provider_no_fallback
        (w : World) (query context : string) (temperature : option Q) (st : State) :
  let prompt := build_prompt query context in
  (openai_available w = true ->
   forall msg,
     openai_chat w "gpt-4o-mini" prompt temperature = inl msg ->
     generate_response w query context (PyStr "openai") temperature st
     = (Ok (failure ("OpenAI API error: " ++ msg)), after_openai query context st)) /\
  (gemini_available w = true ->
   Forall (fun m => exists msg, gemini_generate w m prompt temperature = inl msg)
          gemini_models ->
   generate_response w query context (PyStr "gemini") temperature st
   = (Ok (failure "Gemini API error: All Gemini models are unavailable"),
      add_events (gemini_calls gemini_models prompt) st)).
Proof.
  cbv zeta. unfold generate_response. split.
  - intros Ho msg Hchat. rewrite Ho. cbn.
    now rewrite (generate_response_openai_raises w _ _ _ _ _ Hchat).
  - intros Hg Hall. rewrite Hg.
    change (eq_str (PyStr "gemini") "openai") with false.
    change (eq_str (PyStr "gemini") "gemini") with true. cbn.
    now rewrite (generate_response_gemini_all_raise w _ _ _ st Hall).
Qed.

Lemma named_provider_no_fallback_witness :
  generate_response MoreScenarios.flash_only "hi" "" (PyStr "openai") None Scenarios.start
  = (Ok (failure "OpenAI API error: Rate limit reached"),
     after_openai "hi" "" Scenarios.start).
Proof.
  destruct (named_provider_no_fallback MoreScenarios.flash_only "hi" "" None
                                       Scenarios.start) as [H _].
  exact (H eq_refl "Rate limit reached" eq_refl).
Defined.

(** X3. What the automatic choice reports when nothing answers. With both
    providers available and both raising, the error is Gemini's and
    OpenAI's is lost. With OpenAI available and raising and Gemini
    unavailable, the error is "No LLM services available", although OpenAI
    was called. *)
Theorem auto_failure_messages
        (w : World) (query context : string) (temperature : option Q) (st : State)
        (msg : string) :
  let prompt := build_prompt query context in
  openai_available w = true ->
  openai_chat w "gpt-4o-mini" prompt temperature = inl msg ->
  (gemini_available w = true ->
   Forall (fun m => exists msg', gemini_generate w m prompt temperature = inl msg')
          gemini_models ->
   generate_response w query context (PyStr "auto") temperature st
   = (Ok (failure "Gemini API error: All Gemini models are unavailable"),
      add_events (gemini_calls gemini_models prompt) (after_openai query context st))) /\
  (gemini_available w = false ->
   generate_response w query context (PyStr "auto") temperature st
   = (Ok (failure "No LLM services available"), after_openai query context st)).
Proof.
  cbv zeta. intros Ho Hchat. unfold generate_response. rewrite Ho.
  change (eq_str (PyStr "auto") "openai") with false.
  change (eq_str (PyStr "auto") "gemini") with false.
  change (eq_str (PyStr "auto") "auto") with true.
  cbv iota beta. rewrite !andb_false_l. cbn.
  rewrite (generate_response_openai_raises w _ _ _ _ _ Hchat). cbn.
  split.
  - intros Hg Hall. rewrite Hg. cbn.
    now rewrite (generate_response_gemini_all_raise w _ _ _ _ Hall).
  - intros Hg. now rewrite Hg.
Qed.

Lemma auto_failure_messages_witness :
  generate_response MoreScenarios.openai_refuses "hi" "" (PyStr "auto") None
                    Scenarios.start
  = (Ok (failure "No LLM services available"), after_openai "hi" "" Scenarios.start).
Proof.
  destruct (auto_failure_messages MoreScenarios.openai_refuses "hi" "" None
              Scenarios.start "Rate limit reached" eq_refl eq_refl) as [_ H].
  exact (H eq_refl).
Defined.

(** Closes a branch of [generate_response] for the next theorem. *)
Ltac credited :=
  do 2 eexists; split; [reflexivity|]; cbn; split; intros H;
  first [ discriminate H | reflexivity
        | left; repeat split; auto; fail
        | right; repeat split; auto; fail ].

(** X4. A successful result names a provider that has a credential and
    that the preference allows: "openai" only under the preference
    "openai" or "auto", "gemini" only under "gemini" or "auto". A failed
    result names no model. *)
Theorem model_used_is_credited
        (w : World) (query context : string) (preferred_model : pyval)
        (temperature : option Q) (st : State) :
  exists d st',
    generate_response w query context preferred_model temperature st = (Ok d, st') /\
    (success d = true ->
     (model_used d = "openai" /\ openai_available w = true /\
      (eq_str preferred_model "openai" = true \/ eq_str preferred_model "auto" = true)) \/
     (model_used d = "gemini" /\ gemini_available w = true /\
      (eq_str preferred_model "gemini" = true \/ eq_str preferred_model "auto" = true))) /\
    (success d = false -> model_used d = "").
Proof.
  unfold generate_response.
  destruct (eq_str preferred_model "openai") eqn:Eo;
    destruct (openai_available w) eqn:Ao; cbn [andb];
    try (cbn; run_openai; credited).
  all: destruct (eq_str preferred_model "gemini") eqn:Eg;
    destruct (gemini_available w) eqn:Ag; cbn [andb];
    try (cbn; run_gemini; credited).
  all: destruct (eq_str preferred_model "auto") eqn:Ea; cbn;
    try run_openai; try run_gemini; credited.
Qed.

Lemma model_used_is_credited_witness :
  exists d st',
    generate_response Scenarios.online "hi" "" (PyStr "auto") None Scenarios.start
    = (Ok d, st') /\
    model_used d = "openai".
Proof.
  destruct (model_used_is_credited Scenarios.online "hi" "" (PyStr "auto") None
              Scenarios.start) as (d & st' & Hrun & Hs & _).
  exists d, st'. split; [exact Hrun|].
  assert (Hd : success d = true) by (cbv in Hrun; now injection Hrun as <- _).
  destruct (Hs Hd) as [[H _]|[_ [H _]]]; [exact H | discriminate H].
Defined.

End LLMExtras.

(* ===================================================================== *)
(** * More on the web search *)
(* ===================================================================== *)

Module WebSearchExtras.
Import PyVal Runtime Observations Measures RuntimeFacts WebSearch.
Local Open Scope string_scope.

Section WithWorld.
Variable w : World.

Lemma serpapi_items_objects items : forall results,
  Forall is_dict items ->
  serpapi_items w items results = Ok (results ++ map (serpapi_entry w) items)%list.
Proof.
  induction items as [|item rest IH]; intros results Hitems.
  - cbn. now rewrite app_nil_r.
  - inversion Hitems as [|? ? (d & ->) Hrest]; subst.
    cbn [serpapi_items]. cbn. rewrite IH by assumption.
    now rewrite <- app_assoc.
Qed.

Lemma brave_items_objects items : forall results,
  Forall is_dict items ->
  brave_items w items results = Ok (results ++ map (brave_entry w) items)%list.
Proof.
  induction items as [|item rest IH]; intros results Hitems.
  - cbn. now rewrite app_nil_r.
  - inversion Hitems as [|? ? (d & ->) Hrest]; subst.
    cbn [brave_items]. cbn. rewrite IH by assumption.
    now rewrite <- app_assoc.
Qed.

Lemma serpapi_search_objects query n st d items :
  env_set (SERPAPI_API_KEY w) = true ->
  http_get_json w serpapi_url query n = inr (PyDict d) ->
  value_or (PyList []) d "organic_results" = PyList items ->
  Forall is_dict (Py.slice_to items n) ->
  serpapi_search w query n st
  = (Ok (map (serpapi_entry w) (Py.slice_to items n)),
     add_events [HttpGet serpapi_url query] st).
Proof.
  intros Hkey Hbody Hresults Hitems. unfold serpapi_search. rewrite Hkey.
  cbn. unfold serpapi_url in Hbody. rewrite Hbody. cbn.
  unfold value_or in Hresults. rewrite Hresults. cbn.
  now rewrite serpapi_items_objects.
Qed.

Lemma brave_search_objects query n st d web items :
  env_set (BRAVE_API_KEY w) = true ->
  http_get_json w brave_url query n = inr (PyDict d) ->
  value_or (PyDict []) d "web" = PyDict web ->
  value_or (PyList []) web "results" = PyList items ->
  Forall is_dict (Py.slice_to items n) ->
  brave_search w query n st
  = (Ok (map (brave_entry w) (Py.slice_to items n)),
     add_events [HttpGet brave_url query] st).
Proof.
  intros Hkey Hbody Hweb Hresults Hitems. unfold brave_search. rewrite Hkey.
  cbn. unfold brave_url in Hbody. rewrite Hbody. cbn.
  unfold value_or in Hweb, Hresults. rewrite Hweb. cbn. rewrite Hresults. cbn.
  now rewrite brave_items_objects.
Qed.

Lemma serpapi_search_no_key query n st :
  env_set (SERPAPI_API_KEY w) = false ->
  serpapi_search w query n st
  = (Raise (Exception "SerpAPI key not set in environment."), st).
Proof. intros H. unfold serpapi_search. now rewrite H. Qed.

Lemma brave_search_no_key query n st :
  env_set (BRAVE_API_KEY w) = false ->
  brave_search w query n st
  = (Raise (Exception "Brave API key not set in environment."), st).
Proof. intros H. unfold brave_search. now rewrite H. Qed.

End WithWorld.

(** X5. When SerpAPI has a key and answers with a JSON object, the result
    is made of the first [num_results] entries of its [organic_results], in
    their order, each with the text None for a field it lacks; only these
    entries have to be objects. No request goes to Brave, also when there
    are no results at all. *)
Theorem serpapi_answer_is_final
        (w : World) (query : string) (num_results : Z) (st : State)
        (d : list (string * pyval)) (items : list pyval) :
  env_set (SERPAPI_API_KEY w) = true ->
  http_get_json w serpapi_url query num_results = inr (PyDict d) ->
  value_or (PyList []) d "organic_results" = PyList items ->
  Forall is_dict (Py.slice_to items num_results) ->
  web_search w query num_results st
  = (Ok (map (serpapi_entry w) (Py.slice_to items num_results)),
     add_events [HttpGet serpapi_url query] st).
Proof.
  intros Hkey Hbody Hresults Hitems. unfold web_search.
  apply catch_ok. now apply serpapi_search_objects with (d := d).
Qed.

Lemma serpapi_answer_is_final_witness :
  web_search MoreScenarios.serpapi_answers "hi" 2 Scenarios.start
  = (Ok ["A: first (https://a.example)"; "B: None (https://b.example)"],
     add_events [HttpGet serpapi_url "hi"] Scenarios.start).
Proof.
  apply (serpapi_answer_is_final MoreScenarios.serpapi_answers "hi" 2 Scenarios.start
           _ _ eq_refl eq_refl eq_refl).
  repeat constructor; eexists; reflexivity.
Defined.

(** X6. Without a SerpAPI key no request goes to SerpAPI. Brave is asked
    instead when it has a key, and its [web.results] give the entries in
    the same way; with neither key the result is empty and no request is
    sent at all. *)
Theorem missing_keys_send_nothing
        (w : World) (query : string) (num_results : Z) (st : State) :
  env_set (SERPAPI_API_KEY w) = false ->
  (env_set (BRAVE_API_KEY w) = false ->
   web_search w query num_results st = (Ok [], st)) /\
  (env_set (BRAVE_API_KEY w) = true ->
   forall d web items,
     http_get_json w brave_url query num_results = inr (PyDict d) ->
     value_or (PyDict []) d "web" = PyDict web ->
     value_or (PyList []) web "results" = PyList items ->
     Forall is_dict (Py.slice_to items num_results) ->
     web_search w query num_results st
     = (Ok (map (brave_entry w) (Py.slice_to items num_results)),
        add_events [HttpGet brave_url query] st)).
Proof.
  intros Hserp. unfold web_search.
  rewrite (catch_raise _ _ _ _ _ (serpapi_search_no_key w query num_results st Hserp)).
  split.
  - intros Hbrave.
    now rewrite (catch_raise _ _ _ _ _ (brave_search_no_key w query num_results st Hbrave)).
  - intros Hbrave d web items Hbody Hweb Hresults Hitems.
    apply catch_ok. now apply brave_search_objects with (d := d) (web := web).
Qed.

Lemma missing_keys_send_nothing_witness :
  web_search Scenarios.online "hi" 3 Scenarios.start
  = (Ok ["Baz: a page (https://baz.example)"],
     add_events [HttpGet brave_url "hi"] Scenarios.start).
Proof.
  destruct (missing_keys_send_nothing Scenarios.online "hi" 3 Scenarios.start eq_refl)
    as [_ H].
  apply (H eq_refl _ _ _ eq_refl eq_refl eq_refl).
  repeat constructor; eexists; reflexivity.
Defined.

End WebSearchExtras.

(* ===================================================================== *)
(** * Counting calls, and values that do not depend on the state *)
(* ===================================================================== *)

Module MeasureFacts.
Import PyVal Runtime Observations Measures RuntimeFacts.

Lemma count_app p evs1 evs2 :
  count p (evs1 ++ evs2) = (count p evs1 + count p evs2)%nat.
Proof. unfold count. now rewrite filter_app, length_app. Qed.

Section Adds.
Variable p : event -> bool.
Context {A B : Type}.

Lemma adds_same (c : M A) :
  (forall st, trace (snd (c st)) = trace st) -> adds_at_most p 0 c.
Proof.
  intros H st. exists []. rewrite H, app_nil_r. split; [reflexivity | apply Nat.le_refl].
Qed.

Lemma adds_ret (a : A) : adds_at_most p 0 (ret a : M A).
Proof. now apply adds_same. Qed.

Lemma adds_raise (e : exn) : adds_at_most p 0 (raise e : M A).
Proof. now apply adds_same. Qed.

Lemma adds_lift (r : result A) : adds_at_most p 0 (lift r).
Proof. now apply adds_same. Qed.

Lemma adds_external (answer : string + A) : adds_at_most p 0 (external answer).
Proof. apply adds_same. intros st. now destruct answer. Qed.

Lemma adds_bind (c : M A) (k : A -> M B) n m :
  adds_at_most p n c -> (forall a, adds_at_most p m (k a)) ->
  adds_at_most p (n + m) (bind c k).
Proof.
  intros Hc Hk st. destruct (Hc st) as (evs1 & E1 & L1). cbn.
  destruct (c st) as [[a|e] st1]; cbn in *.
  - destruct (Hk a st1) as (evs2 & E2 & L2).
    exists (evs1 ++ evs2). rewrite E2, E1, app_assoc, count_app.
    split; [reflexivity | lia].
  - exists evs1. split; [exact E1 | lia].
Qed.

Lemma adds_weaken (c : M A) n n' :
  adds_at_most p n c -> (n <= n')%nat -> adds_at_most p n' c.
Proof.
  intros Hc Hle st. destruct (Hc st) as (evs & E & L). exists evs. split; [exact E | lia].
Qed.

Lemma adds_if (b : bool) (c1 c2 : M A) n m :
  adds_at_most p n c1 -> adds_at_most p m c2 ->
  adds_at_most p (Nat.max n m) (if b then c1 else c2).
Proof.
  intros H1 H2. destruct b; [apply (adds_weaken _ _ _ H1) | apply (adds_weaken _ _ _ H2)]; lia.
Qed.

End Adds.

Section AddsCatch.
Variable p : event -> bool.
Context {A : Type}.

Lemma adds_catch (c : M A) (h : exn -> M A) n m :
  adds_at_most p n c -> (forall e, adds_at_most p m (h e)) ->
  adds_at_most p (n + m) (catch c h).
Proof.
  intros Hc Hh st. destruct (Hc st) as (evs1 & E1 & L1). cbn.
  destruct (c st) as [[a|e] st1]; cbn in *.
  - exists evs1. split; [exact E1 | lia].
  - destruct (Hh e st1) as (evs2 & E2 & L2).
    exists (evs1 ++ evs2). rewrite E2, E1, app_assoc, count_app.
    split; [reflexivity | lia].
Qed.

End AddsCatch.

Lemma adds_emit p (ev : event) : adds_at_most p 1 (emit ev).
Proof.
  intros st. exists [ev]. split; [reflexivity|].
  unfold count. cbn. destruct (p ev); cbn; lia.
Qed.

Lemma adds_emit_other p (ev : event) : p ev = false -> adds_at_most p 0 (emit ev).
Proof.
  intros H st. exists [ev]. split; [reflexivity|].
  unfold count. cbn. rewrite H. apply Nat.le_refl.
Qed.

Lemma adds_now p (w : World) : adds_at_most p 0 (now w).
Proof. now apply adds_same. Qed.

Lemma adds_insert_row p row : adds_at_most p 0 (insert_row row).
Proof. now apply adds_same. Qed.

Lemma adds_db p (w : World) step : adds_at_most p 0 (db w step).
Proof. apply adds_same. intros st. unfold db. now destruct (db_fault w step). Qed.

(** The events a statement adds are determined by its final state. *)
Lemma added_unique (st st' : State) evs1 evs2 :
  trace st' = trace st ++ evs1 -> trace st' = trace st ++ evs2 -> evs1 = evs2.
Proof. intros E1 E2. rewrite E1 in E2. now apply app_inv_head in E2. Qed.

(** ** Values that do not depend on the state *)

Section Steady.
Context {A B : Type}.

Lemma Steady_const (c : M A) r : (forall st, fst (c st) = r) -> Steady c.
Proof. intros H st st'. now rewrite !H. Qed.

Lemma Steady_ret (a : A) : Steady (ret a : M A).
Proof. now apply Steady_const with (r := Ok a). Qed.

Lemma Steady_raise (e : exn) : Steady (raise e : M A).
Proof. now apply Steady_const with (r := Raise e). Qed.

Lemma Steady_lift (r : result A) : Steady (lift r).
Proof. now apply Steady_const with (r := r). Qed.

Lemma Steady_external (answer : string + A) : Steady (external answer).
Proof. intros st st'. now destruct answer. Qed.

Lemma Steady_bind (c : M A) (k : A -> M B) :
  Steady c -> (forall a, Steady (k a)) -> Steady (bind c k).
Proof.
  intros Hc Hk st st'. specialize (Hc st st'). cbn.
  destruct (c st) as [[a|e] st1], (c st') as [[a'|e'] st1']; cbn in *;
    try congruence.
  injection Hc as <-. apply Hk.
Qed.

Lemma Steady_catch (c : M A) (h : exn -> M A) :
  Steady c -> (forall e, Steady (h e)) -> Steady (catch c h).
Proof.
  intros Hc Hh st st'. specialize (Hc st st'). cbn.
  destruct (c st) as [[a|e] st1], (c st') as [[a'|e'] st1']; cbn in *;
    try congruence.
  injection Hc as <-. apply Hh.
Qed.

End Steady.

Lemma Steady_emit (ev : event) : Steady (emit ev).
Proof. now apply Steady_const with (r := Ok tt). Qed.

(** Takes a statement apart down to steps that do not read the state. *)
Ltac prove_steady :=
  repeat first
    [ assumption
    | apply Steady_ret | apply Steady_raise | apply Steady_lift
    | apply Steady_external | apply Steady_emit
    | apply Steady_bind; [|intros ?]
    | apply Steady_catch; [|intros ?]
    | match goal with
      | |- Steady (if ?b then _ else _) => destruct b
      | |- Steady (let _ := _ in _) => cbv zeta
      | |- Steady (match ?x with _ => _ end) => destruct x
      end ].

Section Services.
Variable w : World.

Lemma Steady_gemini_loop models prompt temperature :
  Steady (LLMService.gemini_loop w models prompt temperature).
Proof.
  induction models as [|model_name rest IH]; cbn [LLMService.gemini_loop]; prove_steady.
Qed.

Lemma Steady_generate_response query context preferred_model temperature :
  Steady (LLMService.generate_response w query context preferred_model temperature).
Proof.
  pose proof Steady_gemini_loop.
  unfold LLMService.generate_response, LLMService.generate_response_openai,
    LLMService.generate_response_gemini.
  prove_steady.
Qed.

Lemma Steady_search_similar_chunks query n :
  Steady (Embeddings.search_similar_chunks w query n).
Proof. unfold Embeddings.search_similar_chunks. prove_steady. Qed.

Lemma Steady_web_search query n : Steady (WebSearch.web_search w query n).
Proof.
  unfold WebSearch.web_search, WebSearch.serpapi_search, WebSearch.brave_search.
  prove_steady.
Qed.

End Services.

(** Takes a statement apart and adds up what its steps may emit. *)
Ltac prove_adds :=
  repeat first
    [ assumption
    | apply adds_ret | apply adds_raise | apply adds_lift | apply adds_external
    | apply adds_now | apply adds_insert_row | apply adds_db
    | apply adds_emit_other; reflexivity | apply adds_emit
    | eapply adds_bind; [|intros ?]
    | eapply adds_catch; [|intros ?]
    | eapply adds_if
    | match goal with
      | |- adds_at_most _ _ (let _ := _ in _) => cbv zeta
      | |- adds_at_most _ _ (match ?x with _ => _ end) => destruct x
      end ].

(** Proves a bound on what a statement emits: the steps are added up and
    the sum is compared with the bound. *)
Ltac bound_adds := eapply adds_weaken; [prove_adds | cbn; lia].

End MeasureFacts.

(* ===================================================================== *)
(** * The chat endpoint and the model test *)
(* ===================================================================== *)

Module ChatFacts.
Import PyVal Runtime Observations Measures RuntimeFacts MeasureFacts.
Local Open Scope string_scope.

Section WithWorld.
Variable w : World.

Lemma Steady_chat_knowledge_base_context request :
  Steady (Chat.knowledge_base_context w request).
Proof.
  pose proof (Steady_search_similar_chunks w).
  unfold Chat.knowledge_base_context. prove_steady.
Qed.

(** The two endpoints build the knowledge base context alike. *)
Lemma chat_knowledge_base_context_same (c : Chat.ChatRequest)
      (r : Workflow.WorkflowRunRequest) :
  Chat.query c = Workflow.query r ->
  Chat.use_knowledge_base c = Workflow.use_knowledge_base r ->
  Chat.max_context_chunks c = Workflow.max_context_chunks r ->
  Chat.knowledge_base_context w c = Workflow.knowledge_base_context w r.
Proof.
  intros Hq Hkb Hn.
  unfold Chat.knowledge_base_context, Workflow.knowledge_base_context.
  rewrite Hq, Hkb, Hn. reflexivity.
Qed.

Lemma Total_chat_knowledge_base_context request :
  Total (Chat.knowledge_base_context w request).
Proof.
  unfold Chat.knowledge_base_context. cbv zeta.
  destruct (Workflow.opt_true (Chat.use_knowledge_base request)); [|apply Total_ret].
  apply Total_catch. intros e. apply Total_ret.
Qed.

Lemma Quiet_chat_knowledge_base_context request :
  Quiet (Chat.knowledge_base_context w request).
Proof.
  unfold Chat.knowledge_base_context, Embeddings.search_similar_chunks. prove_quiet.
Qed.

Lemma chat_query_ok request st :
  exists context st1 result st2,
    Chat.knowledge_base_context w request st = (Ok context, st1) /\
    LLMService.generate_response w (Chat.query request) context
      (Workflow.opt_str (Chat.preferred_model request)) Chat.default_temperature st1
    = (Ok result, st2) /\
    Chat.chat_query w request st = (Ok (chat_response result context), st2).
Proof.
  destruct (Total_chat_knowledge_base_context request st) as (context & st1 & Hkb).
  destruct (LLMFacts.Total_generate_response w (Chat.query request) context
              (Workflow.opt_str (Chat.preferred_model request))
              Chat.default_temperature st1) as (result & st2 & Hgen).
  exists context, st1, result, st2. repeat (split; [assumption|]).
  unfold Chat.chat_query. apply catch_ok.
  rewrite (bind_ok _ _ _ _ _ Hkb), (bind_ok _ _ _ _ _ Hgen). reflexivity.
Qed.

Lemma Quiet_chat_query request : Quiet (Chat.chat_query w request).
Proof.
  pose proof Quiet_chat_knowledge_base_context.
  pose proof (LLMFacts.Quiet_generate_response w).
  unfold Chat.chat_query. prove_quiet.
Qed.

Lemma adds_chat_query_chroma request :
  adds_at_most is_chroma_query 1 (Chat.chat_query w request).
Proof.
  unfold Chat.chat_query, Chat.knowledge_base_context,
    Embeddings.search_similar_chunks, LLMService.generate_response,
    LLMService.generate_response_openai, LLMService.generate_response_gemini.
  bound_adds.
Qed.

Lemma adds_chat_query_http request :
  adds_at_most is_http_get 0 (Chat.chat_query w request).
Proof.
  unfold Chat.chat_query, Chat.knowledge_base_context,
    Embeddings.search_similar_chunks, LLMService.generate_response,
    LLMService.generate_response_openai, LLMService.generate_response_gemini.
  bound_adds.
Qed.

End WithWorld.
End ChatFacts.

Module ChatExtras.
Import PyVal Runtime Observations Measures RuntimeFacts MeasureFacts ChatFacts.
Local Open Scope string_scope.

(** X7. The chat endpoint always answers: the HTTP error of its handler
    cannot occur, a failing knowledge base or provider only shows in the
    response. It queries the vector index at most once, sends no web
    search request, and leaves the execution log alone: chat queries are
    not logged. *)
Theorem chat_query_always_answers
        (w : World) (request : Chat.ChatRequest) (st : State) :
  exists r st' evs,
    Chat.chat_query w request st = (Ok r, st') /\
    trace st' = (trace st ++ evs)%list /\
    (count is_chroma_query evs <= 1)%nat /\
    count is_http_get evs = 0%nat /\
    count is_log evs = 0%nat /\
    execution_logs st' = execution_logs st.
Proof.
  destruct (chat_query_ok w request st)
    as (context & st1 & result & st2 & _ & _ & Hrun).
  destruct (adds_chat_query_chroma w request st) as (evs & Hevs & Hchroma).
  destruct (adds_chat_query_http w request st) as (evs' & Hevs' & Hhttp).
  destruct (Quiet_chat_query w request st) as [Hcalls Hrows].
  rewrite Hrun in Hevs, Hevs', Hcalls, Hrows. cbn [snd] in *.
  rewrite (added_unique _ _ _ _ Hevs' Hevs) in Hhttp.
  exists (chat_response result context), st2, evs.
  repeat (split; [first [assumption | lia]|]). split; [|assumption].
  unfold log_calls in Hcalls. rewrite Hevs, filter_app in Hcalls.
  unfold count. rewrite <- (app_nil_r (filter is_log (trace st))) in Hcalls at 2.
  apply app_inv_head in Hcalls. now rewrite Hcalls.
Qed.

(** X8. A workflow run whose definition switches nothing (no web search,
    no model of its own: a definition without an LLM Engine node, say) and
    whose temperature is the default answers exactly as the chat endpoint
    does for the same query, preference and knowledge base settings. The
    run differs in that it is logged. *)
Theorem chat_is_run_without_definition
        (w : World) (c : Chat.ChatRequest) (r : Workflow.WorkflowRunRequest)
        (use_web_search : pyval) (st st' : State) :
  Chat.query c = Workflow.query r ->
  Chat.preferred_model c = Workflow.preferred_model r ->
  Chat.use_knowledge_base c = Workflow.use_knowledge_base r ->
  Chat.max_context_chunks c = Workflow.max_context_chunks r ->
  Workflow.temperature r = Chat.default_temperature ->
  Workflow.extract_config (Workflow.workflow r) (Workflow.preferred_model r)
  = Ok (use_web_search, Workflow.opt_str (Workflow.preferred_model r)) ->
  truthy use_web_search = false ->
  exists answer,
    fst (Chat.chat_query w c st) = Ok answer /\
    fst (Workflow.run_workflow w r st') = Ok (as_run_response answer).
Proof.
  intros Hq Hpm Hkb Hn Ht Hcfg Hoff.
  destruct (chat_query_ok w c st) as (context & st1 & result & st2 & Hctx & Hgen & Hchat).
  destruct (WorkflowFacts.run_workflow_ok w r st' _ _ Hcfg)
    as (context' & st1' & web_context & st2' & result' & st3' & st4'
        & Hctx' & Hweb & Hgen' & _ & Hrun).
  rewrite (WorkflowFacts.web_search_context_disabled w _ _ _ Hoff) in Hweb.
  injection Hweb as <- <-.
  rewrite WorkflowFacts.combine_contexts_empty_web in Hgen', Hrun.
  assert (Hsame : context' = context).
  { rewrite <- (chat_knowledge_base_context_same w c r Hq Hkb Hn) in Hctx'.
    pose proof (Steady_chat_knowledge_base_context w c (tick st') st) as S.
    rewrite Hctx', Hctx in S. cbn in S. congruence. }
  subst context'.
  assert (Hresult : result' = result).
  { pose proof (Steady_generate_response w (Workflow.query r) context
                  (Workflow.opt_str (Workflow.preferred_model r))
                  (Workflow.temperature r) st1' st1) as S.
    rewrite Hgen' in S. rewrite <- Hq, <- Hpm, Ht, Hgen in S. cbn in S. congruence. }
  subst result'.
  exists (chat_response result context). rewrite Hchat, Hrun. split; reflexivity.
Qed.

Lemma chat_is_run_without_definition_witness :
  exists answer,
    fst (Chat.chat_query Scenarios.online MoreScenarios.chat_request Scenarios.start)
    = Ok answer /\
    fst (Workflow.run_workflow Scenarios.online MoreScenarios.bare_run_request
                               Scenarios.start)
    = Ok (as_run_response answer).
Proof.
  apply (chat_is_run_without_definition
           Scenarios.online MoreScenarios.chat_request MoreScenarios.bare_run_request
           (PyBool false) Scenarios.start Scenarios.start);
    reflexivity.
Defined.

End ChatExtras.

(* ===================================================================== *)
(** * The model test *)
(* ===================================================================== *)

Module ProbeFacts.
Import PyVal Runtime Observations Measures RuntimeFacts MeasureFacts.
Import LLMService LLMFacts LLMProbe.
Local Open Scope string_scope.

#[local] Arguments generate_response_openai : simpl never.
#[local] Arguments generate_response_gemini : simpl never.

Section WithWorld.
Variable w : World.

Lemma Steady_generate_response_gemini query context temperature :
  Steady (generate_response_gemini w query context temperature).
Proof.
  pose proof (Steady_gemini_loop w). unfold generate_response_gemini.
  apply Steady_catch; [cbv zeta; auto | intros e; apply Steady_raise].
Qed.

(** An answer of the Gemini loop is the answer of the first model that
    does not raise. *)
Lemma gemini_loop_ok_inv models prompt temperature : forall st text st',
  gemini_loop w models prompt temperature st = (Ok text, st') ->
  exists passed model_name rest,
    models = (passed ++ model_name :: rest)%list /\
    Forall (fun m => exists msg, gemini_generate w m prompt temperature = inl msg)
           passed /\
    gemini_generate w model_name prompt temperature = inr text.
Proof.
  induction models as [|m models IH]; intros st text st' H; [discriminate|].
  cbn in H. destruct (gemini_generate w m prompt temperature) as [msg|answer] eqn:Hm.
  - cbn in H. destruct (IH _ _ _ H) as (passed & model_name & rest & -> & Hp & Ha).
    exists (m :: passed), model_name, rest. repeat split; [|exact Ha].
    constructor; [now exists msg | exact Hp].
  - cbn in H. injection H as -> _. exists [], m, models. now repeat split.
Qed.

Lemma generate_response_gemini_ok_iff query context temperature st text :
  (exists st', generate_response_gemini w query context temperature st = (Ok text, st'))
  <->
  exists passed model_name rest,
    gemini_models = (passed ++ model_name :: rest)%list /\
    Forall (fun m => exists msg,
              gemini_generate w m (build_prompt query context) temperature = inl msg)
           passed /\
    gemini_generate w model_name (build_prompt query context) temperature = inr text.
Proof.
  unfold generate_response_gemini. cbv zeta. split.
  - intros (st' & H).
    destruct (gemini_loop w gemini_models (build_prompt query context) temperature st)
      as [[answer|e] st1] eqn:Hloop.
    + rewrite (catch_ok _ _ _ _ _ Hloop) in H. injection H as -> _.
      exact (gemini_loop_ok_inv _ _ _ _ _ _ Hloop).
    + rewrite (catch_raise _ _ _ _ _ Hloop) in H. discriminate.
  - intros (passed & model_name & rest & Hsplit & Hpassed & Hanswer).
    eexists. apply catch_ok. rewrite Hsplit.
    now apply LLMExtras.gemini_loop_first_answer.
Qed.

Lemma gemini_verdict_anywhere st st' : gemini_verdict w st = gemini_verdict w st'.
Proof.
  unfold gemini_verdict.
  now rewrite (Steady_generate_response_gemini "Hello" "" Chat.default_temperature st st').
Qed.

Lemma test_models_spec st :
  exists st',
    test_models w st
    = (Ok {| openai := openai_verdict w; gemini := gemini_verdict w st |}, st') /\
    (openai_available w = false -> gemini_available w = false -> st' = st).
Proof.
  unfold test_models, openai_verdict. cbv zeta.
  destruct (openai_available w) eqn:Ao.
  - destruct (openai_chat w "gpt-4o-mini" (build_prompt "Hello" "")
                          Chat.default_temperature) as [msg|text] eqn:Hchat.
    + erewrite bind_ok
        by (erewrite catch_raise
              by (erewrite bind_raise
                    by exact (generate_response_openai_raises w _ _ _ st _ Hchat);
                  reflexivity);
            reflexivity).
      rewrite (gemini_verdict_anywhere st (after_openai "Hello" "" st)).
      unfold gemini_verdict. destruct (gemini_available w).
      * cbn. run_gemini; eexists; (split; [reflexivity | discriminate]).
      * cbn. eexists; split; [reflexivity | discriminate].
    + erewrite bind_ok
        by (apply catch_ok;
            erewrite bind_ok
              by exact (generate_response_openai_ok w _ _ _ st _ Hchat);
            reflexivity).
      rewrite (gemini_verdict_anywhere st (after_openai "Hello" "" st)).
      unfold gemini_verdict. destruct (gemini_available w).
      * cbn. run_gemini; eexists; (split; [reflexivity | discriminate]).
      * cbn. eexists; split; [reflexivity | discriminate].
  - unfold gemini_verdict. destruct (gemini_available w).
    + cbn. run_gemini; eexists; (split; [reflexivity | discriminate]).
    + cbn. eexists; split; reflexivity.
Qed.

Lemma Quiet_test_models : Quiet (test_models w).
Proof.
  unfold test_models, generate_response_openai, generate_response_gemini.
  pose proof (Quiet_gemini_loop w). prove_quiet.
Qed.

Ltac open_test_models :=
  unfold test_models, generate_response_openai, generate_response_gemini,
    gemini_models; cbn [gemini_loop].

Lemma adds_test_models_openai : adds_at_most is_openai_call 1 (test_models w).
Proof. open_test_models. bound_adds. Qed.

Lemma adds_test_models_gemini : adds_at_most is_gemini_call 3 (test_models w).
Proof. open_test_models. bound_adds. Qed.

Lemma adds_test_models_no_openai :
  openai_available w = false -> adds_at_most is_openai_call 0 (test_models w).
Proof. intros H. open_test_models. rewrite H. bound_adds. Qed.

Lemma adds_test_models_no_gemini :
  gemini_available w = false -> adds_at_most is_gemini_call 0 (test_models w).
Proof. intros H. open_test_models. rewrite H. bound_adds. Qed.

Lemma adds_test_models_other p :
  p = is_embeddings_call \/ p = is_chroma_query \/ p = is_http_get \/ p = is_log ->
  adds_at_most p 0 (test_models w).
Proof. intros [-> | [-> | [-> | ->]]]; open_test_models; bound_adds. Qed.

End WithWorld.
End ProbeFacts.

Module ProbeExtras.
Import PyVal Runtime Observations Measures RuntimeFacts MeasureFacts.
Import LLMService LLMFacts LLMProbe ProbeFacts.
Local Open Scope string_scope.

(** X9. [test_models] never raises and reports what its own two probes
    saw. OpenAI is reported as working exactly when it has a credential and
    its answer to the probe ("Hello", model "gpt-4o-mini", the default
    temperature) is a text that is not empty; Gemini exactly when it has a
    credential and the first of its models that does not raise answers with
    a text that is not empty. An empty answer counts as not working, and a
    failure of the first probe does not stop the second. The test calls
    OpenAI at most once and Gemini at most three times, a provider without
    credential not at all, and nothing else: no embedding, no index, no
    web search, no log; without any credential it leaves the state as it
    was. *)
Theorem test_models_reports_the_probe (w : World) (st : State) :
  let prompt := build_prompt "Hello" "" in
  exists results st' evs,
    test_models w st = (Ok results, st') /\
    trace st' = (trace st ++ evs)%list /\
    execution_logs st' = execution_logs st /\
    (openai results = true <->
     openai_available w = true /\
     exists text,
       openai_chat w "gpt-4o-mini" prompt Chat.default_temperature = inr text /\
       text <> "") /\
    (gemini results = true <->
     gemini_available w = true /\
     exists passed model_name rest text,
       gemini_models = (passed ++ model_name :: rest)%list /\
       Forall (fun m => exists msg,
                 gemini_generate w m prompt Chat.default_temperature = inl msg)
              passed /\
       gemini_generate w model_name prompt Chat.default_temperature = inr text /\
       text <> "") /\
    (count is_openai_call evs <= 1)%nat /\
    (count is_gemini_call evs <= 3)%nat /\
    (openai_available w = false -> count is_openai_call evs = 0%nat) /\
    (gemini_available w = false -> count is_gemini_call evs = 0%nat) /\
    count is_embeddings_call evs = 0%nat /\
    count is_chroma_query evs = 0%nat /\
    count is_http_get evs = 0%nat /\
    count is_log evs = 0%nat /\
    (openai_available w = false -> gemini_available w = false -> st' = st).
Proof.
  intros prompt.
  destruct (test_models_spec w st) as (st' & Hrun & Hsame).
  destruct (adds_test_models_openai w st) as (evs & Hevs & _).
  rewrite Hrun in Hevs. cbn [snd] in Hevs.
  assert (Hcount : forall p n,
            adds_at_most p n (test_models w) -> (count p evs <= n)%nat).
  { intros p n Hp. destruct (Hp st) as (evs' & Hevs' & Hle).
    rewrite Hrun in Hevs'. cbn [snd] in Hevs'.
    now rewrite (added_unique _ _ _ _ Hevs Hevs'). }
  assert (Hnone : forall p, adds_at_most p 0 (test_models w) -> count p evs = 0%nat).
  { intros p Hp. apply Hcount in Hp. lia. }
  exists {| openai := openai_verdict w; gemini := gemini_verdict w st |}, st', evs.
  split; [exact Hrun|]. split; [exact Hevs|]. cbn [openai gemini].
  split.
  { pose proof (Quiet_test_models w st) as [_ Hrows].
    now rewrite Hrun in Hrows. }
  split.
  { unfold openai_verdict. fold prompt. destruct (openai_available w).
    - destruct (openai_chat w "gpt-4o-mini" prompt Chat.default_temperature)
        as [msg|text].
      + split; [discriminate|]. now intros (_ & text & [=] & _).
      + unfold Workflow.nonempty. destruct (String.eqb_spec text "") as [->|Hne]; cbn.
        * split; [discriminate|]. now intros (_ & text & [= <-] & Hne).
        * split; [|reflexivity]. intros _. split; [reflexivity|]. now exists text.
    - split; [discriminate|]. now intros [[=] _]. }
  split.
  { unfold gemini_verdict. destruct (gemini_available w).
    - destruct (generate_response_gemini w "Hello" "" Chat.default_temperature st)
        as [[text|e] st1] eqn:Hgemini; cbn [fst].
      + assert (Hsplit : exists st1,
                  generate_response_gemini w "Hello" "" Chat.default_temperature st
                  = (Ok text, st1)) by now exists st1.
        apply generate_response_gemini_ok_iff in Hsplit.
        destruct Hsplit as (passed & model_name & rest & Hmodels & Hpassed & Hanswer).
        unfold Workflow.nonempty. destruct (String.eqb_spec text "") as [->|Hne]; cbn.
        * split; [discriminate|].
          intros (_ & passed' & model_name' & rest' & text' & Hm' & Hp' & Ha' & Hne').
          assert (Hother : exists st1,
                    generate_response_gemini w "Hello" "" Chat.default_temperature st
                    = (Ok text', st1))
            by (apply generate_response_gemini_ok_iff; eauto 6).
          destruct Hother as (st2 & Hother). rewrite Hgemini in Hother.
          injection Hother as <- _. exfalso. now apply Hne'.
        * split; [|reflexivity]. intros _. split; [reflexivity|].
          exists passed, model_name, rest, text. now repeat split.
      + split; [discriminate|].
        intros (_ & passed' & model_name' & rest' & text' & Hm' & Hp' & Ha' & _).
        assert (Hother : exists st1,
                  generate_response_gemini w "Hello" "" Chat.default_temperature st
                  = (Ok text', st1))
          by (apply generate_response_gemini_ok_iff; eauto 6).
        destruct Hother as (st2 & Hother). rewrite Hgemini in Hother. discriminate.
    - split; [discriminate|]. now intros [[=] _]. }
  split; [apply Hcount, adds_test_models_openai|].
  split; [apply Hcount, adds_test_models_gemini|].
  split; [intros Ho; apply Hnone; now apply adds_test_models_no_openai|].
  split; [intros Hg; apply Hnone; now apply adds_test_models_no_gemini|].
  repeat (split; [apply Hnone; apply adds_test_models_other; auto|]).
  exact Hsame.
Qed.

(** OpenAI has a credential and answers "ok": it is reported as working. *)
Lemma test_models_reports_the_probe_witness :
  exists results st',
    test_models Scenarios.online Scenarios.start = (Ok results, st') /\
    openai results = true /\ gemini results = false.
Proof.
  destruct (test_models_reports_the_probe Scenarios.online Scenarios.start)
    as (results & st' & evs & Hrun & _ & _ & Ho & Hg & _).
  exists results, st'. split; [exact Hrun|]. split.
  - apply Ho. split; [reflexivity|]. exists "ok". split; [reflexivity | discriminate].
  - destruct (gemini results); [|reflexivity].
    destruct Hg as [Hg _]. destruct (Hg eq_refl) as [Hfalse _]. discriminate Hfalse.
Defined.

End ProbeExtras.

(* ===================================================================== *)
(** * More on the workflow run *)
(* ===================================================================== *)

Module WorkflowExtras.
Import PyVal Runtime Observations Measures RuntimeFacts MeasureFacts.
Import Workflow WorkflowFacts.
Local Open Scope string_scope.

Section WithWorld.
Variable w : World.

Lemma log_execution_trace query response model_used success error workflow_id
      execution_time st :
  trace (snd (log_execution w query response model_used success error workflow_id
                            execution_time st))
  = (trace st ++ [LogExecution workflow_id query response model_used success error])%list.
Proof.
  unfold log_execution, db. cbn.
  destruct (db_fault w DbConnect); cbn; [reflexivity|].
  destruct (db_fault w DbCursor); cbn; [reflexivity|].
  destruct (db_fault w DbExecute); cbn; [reflexivity|].
  destruct (db_fault w DbCommit); cbn; [reflexivity|].
  destruct (db_fault w DbCursorClose); cbn; [reflexivity|].
  destruct (db_fault w DbClose); reflexivity.
Qed.

(** The first LLM Engine node has no [id]. *)
Lemma extract_config_missing_id definition preferred before node after :
  lookup "nodes" definition = Some (PyList (before ++ PyDict node :: after)) ->
  has_key "configs" definition = true ->
  Forall passed_over before ->
  lookup "type" node = Some (PyStr "llmEngine") ->
  lookup "id" node = None ->
  extract_config definition preferred = Raise (KeyError (PyStr "id")).
Proof.
  intros Hnodes Hconfigs Hbefore Htype Hid.
  unfold extract_config. rewrite Hconfigs. unfold has_key at 1, getitem.
  rewrite Hnodes.
  assert (Hwf : truthy (PyDict definition) = true)
    by (destruct definition; [discriminate | reflexivity]).
  rewrite Hwf. cbn [andb bind Monad_result iter].
  rewrite (find_llm_node_first before (PyDict node) after (PyStr "llmEngine"));
    [|assumption|cbn; now rewrite Htype|reflexivity].
  assert (Hnode : truthy (PyDict node) = true)
    by (destruct node; [discriminate | reflexivity]).
  rewrite Hnode. cbn [subscript]. unfold getitem. now rewrite Hid.
Qed.

End WithWorld.

(** The calls a run may make, by kind. *)
Lemma adds_run_workflow w request p n :
  budget p n -> adds_at_most p n (run_workflow w request).
Proof.
  unfold budget.
  intros [[-> ->] | [[-> ->] | [[-> ->] | [[-> ->] | [[-> ->] | [-> ->]]]]]];
    unfold run_workflow, knowledge_base_context, web_search_context, log_execution,
      Embeddings.search_similar_chunks, Embeddings.generate_embeddings,
      Embeddings.generate_embeddings_local, WebSearch.web_search,
      WebSearch.serpapi_search, WebSearch.brave_search,
      LLMService.generate_response, LLMService.generate_response_openai,
      LLMService.generate_response_gemini;
    bound_adds.
Qed.

(** X10. When the first LLM Engine node of the definition has no [id], the
    run ends in HTTP 500 with the key in the detail. It fails before any
    service is called: the only thing on record is the log entry, a
    failure of the model "unknown", even though nothing is wrong with the
    query or the providers. *)
Theorem missing_node_id_fails_fast
        (w : World) (request : WorkflowRunRequest) (st : State)
        (before after : list pyval) (node : list (string * pyval)) :
  lookup "nodes" (workflow request) = Some (PyList (before ++ PyDict node :: after)) ->
  has_key "configs" (workflow request) = true ->
  Forall passed_over before ->
  lookup "type" node = Some (PyStr "llmEngine") ->
  lookup "id" node = None ->
  exists st',
    run_workflow w request st
    = (Raise (HTTPException 500 ("Workflow execution error: "
                                 ++ py_repr w (PyStr "id"))), st') /\
    trace st' = (trace st
                 ++ [LogExecution None (query request) "" "unknown" false
                                  (Some (py_repr w (PyStr "id")))])%list.
Proof.
  intros Hnodes Hconfigs Hbefore Htype Hid.
  pose proof (extract_config_missing_id (workflow request) (preferred_model request)
                before node after Hnodes Hconfigs Hbefore Htype Hid) as Hcfg.
  destruct (run_workflow_raise w request st _ Hcfg) as (st' & Hlog & Hrun).
  exists st'. split; [exact Hrun|].
  pose proof (log_execution_trace w (query request) "" "unknown" false
                (Some (str_exn w (KeyError (PyStr "id")))) None
                (Some (clock w (S (ticks st)) - clock w (ticks st))%Q)
                (tick (tick st))) as Htrace.
  rewrite Hlog in Htrace. exact Htrace.
Qed.

Lemma missing_node_id_fails_fast_witness :
  exists st',
    run_workflow Scenarios.online MoreScenarios.nameless_node_request Scenarios.start
    = (Raise (HTTPException 500 "Workflow execution error: <repr>"), st') /\
    trace st' = [LogExecution None "hi" "" "unknown" false (Some "<repr>")].
Proof.
  assert (Hbefore : Forall passed_over [Scenarios.query_node]).
  { constructor; [|constructor]. exists (PyStr "userQuery"). split; reflexivity. }
  exact (missing_node_id_fails_fast
           Scenarios.online MoreScenarios.nameless_node_request Scenarios.start
           [Scenarios.query_node] [] [("type", PyStr "llmEngine")]
           eq_refl eq_refl Hbefore eq_refl eq_refl).
Defined.

(** X11. What a run costs, whatever the request and the surroundings: at
    most two requests to OpenAI, one for the embedding of the query and one
    chat completion; at most one run of the local embedding model; at most
    one query of the vector index; at most two web search requests; at
    most three calls to Gemini. *)
Theorem run_workflow_call_budget
        (w : World) (request : WorkflowRunRequest) (st : State) :
  exists evs,
    trace (snd (run_workflow w request st)) = (trace st ++ evs)%list /\
    (count is_embeddings_call evs <= 1)%nat /\
    (count is_openai_call evs <= 1)%nat /\
    (count is_local_encode evs <= 1)%nat /\
    (count is_chroma_query evs <= 1)%nat /\
    (count is_http_get evs <= 2)%nat /\
    (count is_gemini_call evs <= 3)%nat.
Proof.
  assert (Hfirst : budget is_embeddings_call 1) by (unfold budget; auto).
  destruct (adds_run_workflow w request _ _ Hfirst st) as (evs & Hevs & _).
  assert (Hcount : forall p n,
            budget p n -> (count p evs <= n)%nat).
  { intros p n Hp.
    destruct (adds_run_workflow w request p n Hp st) as (evs' & Hevs' & Hle').
    now rewrite (added_unique _ _ _ _ Hevs Hevs'). }
  exists evs. split; [exact Hevs|].
  repeat split; apply Hcount; unfold budget; auto 8.
Qed.

End WorkflowExtras.

(* ===================================================================== *)
(** * More on the chunker *)
(* ===================================================================== *)

Module ChunkerExtras.
Import Observations Embeddings EmbeddingsFacts ChunkerFacts.

(** X12. With an overlap as large as the chunk size, or larger, the chunker
    does not return on any text longer than one chunk: the start of the
    window never moves forward, whatever the number of iterations
    allowed. *)
Theorem chunker_never_returns
        {char : Type} (t : list char) (chunk_size overlap : Z) :
  chunk_size <= overlap ->
  chunk_size < Py.len t ->
  t <> [] ->
  forall fuel, split_text_into_chunks fuel t chunk_size overlap = None.
Proof.
  intros Hstep Hlong Hne fuel. unfold split_text_into_chunks.
  destruct (Z.leb_spec (Py.len t) chunk_size); [lia|].
  apply ChunkerClaims.chunk_loop_stuck; [assumption|].
  unfold Py.len. destruct t; [contradiction | simpl; lia].
Qed.

Lemma chunker_never_returns_witness :
  split_text_into_chunks 100 (chars "abcde") 4 4 = None.
Proof.
  apply (chunker_never_returns (chars "abcde") 4 4); [lia | reflexivity | discriminate].
Defined.

End ChunkerExtras.

(* ===================================================================== *)
(** * Some runs *)
(* ===================================================================== *)

Module Runs.
Import PyVal Runtime Observations Workflow.
Local Open Scope string_scope.

(** Defaults only: the knowledge base is read, the web is not, and OpenAI
    answers. *)
Example run_plain_request :
  fst (run_workflow Scenarios.online Scenarios.plain_request Scenarios.start)
  = Ok {| response := "ok";
          model_used := "openai";
          context_used := Some ("Context 1: foo" ++ blank_line ++ "Context 2: bar");
          success := true;
          error := Some "" |}.
Proof. reflexivity. Qed.

(** The same run sends two requests to OpenAI: one for the embedding of
    the query, one for the answer. *)
Example run_plain_request_calls :
  trace (snd (run_workflow Scenarios.online Scenarios.plain_request Scenarios.start))
  = [EmbeddingsCall "hi";
     ChromaQuery [1 # 3; 2 # 3] (Some 3);
     OpenAICall "gpt-4o-mini"
                (LLMService.build_prompt
                   "hi" ("Context 1: foo" ++ blank_line ++ "Context 2: bar"));
     LogExecution None "hi" "ok" "openai" true (Some "")].
Proof. reflexivity. Qed.

(** When OpenAI gives no embedding the local model does, and the index is
    queried with its vector. *)
Example search_with_local_embedding :
  snd (Embeddings.search_similar_chunks Scenarios.offline "hi" (Some 3) Scenarios.start)
  = {| trace := [EmbeddingsCall "hi"; LocalEncode "hi";
                 ChromaQuery [1 # 2; 1 # 4] (Some 3)];
       execution_logs := [];
       ticks := 0 |}.
Proof. reflexivity. Qed.

(** The first LLM Engine node asks for web search and for Gemini, which has
    no credential here: both contexts are gathered, the generation fails,
    and the failure is returned and logged once. *)
Example run_graph_request :
  run_workflow Scenarios.online Scenarios.graph_request Scenarios.start
  = (Ok {| response := "";
           model_used := "";
           context_used :=
             Some ("Context 1: foo" ++ blank_line ++ "Context 2: bar" ++ blank_line
                   ++ "Web Result 1: Baz: a page (https://baz.example)");
           success := false;
           error := Some "Preferred model 'gemini' not available" |},
     {| trace :=
          [EmbeddingsCall "hi";
           ChromaQuery [1 # 3; 2 # 3] (Some 3);
           HttpGet "https://api.search.brave.com/res/v1/web/search" "hi";
           LogExecution None "hi" "" "" false
                        (Some "Preferred model 'gemini' not available")];
        execution_logs :=
          [{| log_workflow_id := None;
              log_query := "hi";
              log_response := "";
              log_model_used := "";
              log_success := false;
              log_error := Some "Preferred model 'gemini' not available";
              log_execution_time := Some (1 - 0)%Q;
              log_timestamp := 2%Q |}];
        ticks := 3 |}).
Proof. reflexivity. Qed.

(** A node list that cannot be iterated ends the run in the HTTP error,
    logged as a failure of the model "unknown". *)
Example run_malformed_request :
  run_workflow Scenarios.offline Scenarios.malformed_request Scenarios.start
  = (Raise (HTTPException 500
              "Workflow execution error: 'int' object is not iterable"),
     {| trace := [LogExecution None "hi" "" "unknown" false
                               (Some "'int' object is not iterable")];
        execution_logs :=
          [{| log_workflow_id := None;
              log_query := "hi";
              log_response := "";
              log_model_used := "unknown";
              log_success := false;
              log_error := Some "'int' object is not iterable";
              log_execution_time := Some (1 - 0)%Q;
              log_timestamp := 2%Q |}];
        ticks := 3 |}).
Proof. reflexivity. Qed.

(** The last window can be as short as one character. *)
Example chunks_of_ten :
  Embeddings.split_text_into_chunks 10 (chars "abcdefghij") 4 1
  = Some [chars "abcd"; chars "defg"; chars "ghij"; chars "j"].
Proof. reflexivity. Qed.

(** With the overlap as large as the chunk the loop never ends. *)
Example chunks_stuck :
  Embeddings.split_text_into_chunks 1000 (chars "abcdefghij") 4 4 = None.
Proof. reflexivity. Qed.

(** [len] counts characters: the two bytes of U+00E9 are one. *)
Example len_of_e_acute :
  str_len (String "195" (String "169" "!")) = 2%Z /\
  String.length (String "195" (String "169" "!")) = 3%nat.
Proof. split; reflexivity. Qed.

End Runs.

(* ===================================================================== *)
(** * Indexing a document *)
(* ===================================================================== *)

Module IndexingFacts.
Import PyVal Runtime Observations Measures Indexing.
Local Open Scope string_scope.

(** ** Decimal numerals *)

Lemma to_int_not_nil n : Z.to_int n <> Decimal.Pos Decimal.Nil /\ Z.to_int n <> Decimal.Neg Decimal.Nil.
Proof.
  destruct n as [|p|p]; cbn; split; try discriminate;
    intros [= H]; now apply DecimalPos.Unsigned.to_uint_nonnil in H.
Qed.

Lemma str_int_inj n m : str_int n = str_int m -> n = m.
Proof.
  unfold str_int. intros H. apply DecimalZ.to_int_inj.
  apply (f_equal NilZero.int_of_string) in H.
  destruct (to_int_not_nil n), (to_int_not_nil m).
  rewrite !NilZero.isi in H by assumption. now injection H.
Qed.

Lemma digits_no_underscore d : has_char "_" (NilEmpty.string_of_uint d) = false.
Proof. induction d; cbn; trivial. Qed.

Lemma str_int_no_underscore n : has_char "_" (str_int n) = false.
Proof.
  unfold str_int. destruct (Z.to_int n) as [d|d]; cbn.
  - destruct d; cbn; trivial; apply digits_no_underscore.
  - destruct d; cbn; trivial; apply digits_no_underscore.
Qed.

(** Two texts without underscore, each followed by an underscore and more,
    are equal only if they and what follows them are. *)
Lemma split_at_underscore a : forall b x y,
  has_char "_" a = false -> has_char "_" b = false ->
  a ++ String "_" x = b ++ String "_" y -> a = b /\ x = y.
Proof.
  induction a as [|c a IH]; intros [|c' b] x y Ha Hb H; cbn in *.
  - now injection H.
  - injection H as <- _. cbn in Hb. discriminate.
  - injection H as -> _. cbn in Ha. discriminate.
  - injection H as <- H. apply orb_false_iff in Ha as [_ Ha].
    apply orb_false_iff in Hb as [_ Hb].
    destruct (IH b x y Ha Hb H) as [-> ->]. now split.
Qed.

Lemma chunk_id_inj doc_id i doc_id' i' :
  chunk_id doc_id i = chunk_id doc_id' i' -> doc_id = doc_id' /\ i = i'.
Proof.
  unfold chunk_id. cbn. intros [= H].
  apply split_at_underscore in H as [Hd Hi]; try apply str_int_no_underscore.
  injection Hi as Hi. split; now apply str_int_inj.
Qed.

(** ** Embedding one text *)

Section WithBackends.
Variable b : Backends.

Lemma generate_embeddings_spec text s :
  match chosen_embedding b text with
  | Some v => generate_embeddings b text s = (Ok v, (s ++ attempts b text)%list)
  | None =>
      exists msg,
        generate_embeddings b text s
        = (Raise (Exception ("Error generating local embeddings: " ++ msg)),
           (s ++ attempts b text)%list)
  end.
Proof.
  unfold chosen_embedding, attempts, generate_embeddings, generate_embeddings_local.
  cbn. destruct (openai_embedding b text) as [msg|v]; cbn; [|reflexivity].
  destruct (local_embedding b text) as [msg'|v]; cbn.
  - exists msg'. now rewrite <- app_assoc.
  - now rewrite <- app_assoc.
Qed.

Lemma I_bind_ok {A B : Type} (c : I A) (k : A -> I B) s a s' :
  c s = (Ok a, s') -> bind c k s = k a s'.
Proof. intros H. cbn. now rewrite H. Qed.

Lemma I_bind_raise {A B : Type} (c : I A) (k : A -> I B) s e s' :
  c s = (Raise e, s') -> bind c k s = (Raise e, s').
Proof. intros H. cbn. now rewrite H. Qed.

(** ** The loop over the chunks *)

Lemma store_loop_spec doc_id file items : forall embeddings metadatas ids s,
  exists acts,
    snd (store_loop b items doc_id file embeddings metadatas ids s) = (s ++ acts)%list /\
    filter is_add acts = [] /\
    match fst (store_loop b items doc_id file embeddings metadatas ids s) with
    | Ok (embeddings', metadatas', ids') =>
        exists vs,
          embeddings' = (embeddings ++ vs)%list /\
          Forall2 (fun item v => chosen_embedding b (snd item) = Some v) items vs /\
          metadatas' = (metadatas ++ map (metadata_of doc_id file) items)%list /\
          ids' = (ids ++ map (fun item => chunk_id doc_id (fst item)) items)%list
    | Raise e =>
        exists msg, e = Exception ("Error generating local embeddings: " ++ msg)
    end.
Proof.
  induction items as [|[i chunk] rest IH]; intros embeddings metadatas ids s.
  - exists []. cbn. rewrite !app_nil_r. repeat split.
    exists []. rewrite app_nil_r. repeat split. constructor.
  - cbn [store_loop]. pose proof (generate_embeddings_spec chunk s) as Hg.
    assert (Hquiet : filter is_add (attempts b chunk) = [])
      by (unfold attempts; now destruct (openai_embedding b chunk)).
    destruct (chosen_embedding b chunk) as [v|] eqn:Hv.
    + rewrite (I_bind_ok _ _ _ _ _ Hg).
      destruct (IH (embeddings ++ [v])%list
                   (metadatas ++ [metadata_of doc_id file (i, chunk)])%list
                   (ids ++ [chunk_id doc_id i])%list
                   (s ++ attempts b chunk)%list) as (acts & Hs & Hadd & Hr).
      exists (attempts b chunk ++ acts)%list.
      unfold metadata_of in Hs, Hr. cbn [fst snd] in Hs, Hr.
      rewrite Hs, app_assoc. split; [reflexivity|].
      split; [now rewrite filter_app, Hquiet, Hadd|].
      destruct (fst (store_loop b rest doc_id file _ _ _ _)) as [[[E Ms] Is]|e];
        [|exact Hr].
      destruct Hr as (vs & -> & Hvs & -> & ->). exists (v :: vs).
      rewrite <- !app_assoc. repeat split. now constructor.
    + destruct Hg as (msg & Hg). rewrite (I_bind_raise _ _ _ _ _ Hg). cbn.
      exists (attempts b chunk). repeat split; [assumption|]. now exists msg.
Qed.

End WithBackends.

(** ** The numbers of the chunks *)

Lemma enumerate_indices {A : Type} (l : list A) : forall start,
  map fst (combine (map Z.of_nat (seq start (length l))) l)
  = map Z.of_nat (seq start (length l)).
Proof.
  induction l as [|x l IH]; intros start; [reflexivity|].
  cbn. now rewrite IH.
Qed.

Lemma enumerate_values {A : Type} (l : list A) : forall start,
  map snd (combine (map Z.of_nat (seq start (length l))) l) = l.
Proof.
  induction l as [|x l IH]; intros start; [reflexivity|].
  cbn. now rewrite IH.
Qed.

Lemma Forall2_numbered {A B C : Type} (Q : B -> C -> Prop)
      (items : list (A * B)) (vs : list C) :
  Forall2 (fun item v => Q (snd item) v) items vs ->
  Forall2 Q (map snd items) vs.
Proof. induction 1; cbn; now constructor. Qed.

Lemma NoDup_map_injective {A B : Type} (f : A -> B) (l : list A) :
  (forall x y, f x = f y -> x = y) -> NoDup l -> NoDup (map f l).
Proof.
  intros Hf Hl. induction Hl as [|x l Hx Hl IH]; cbn; constructor; [|exact IH].
  intros Hin. apply in_map_iff in Hin as (y & Hy & Hin).
  apply Hf in Hy. now subst.
Qed.

Lemma chunk_ids_NoDup {A : Type} doc_id (l : list A) :
  NoDup (map (fun item => chunk_id doc_id (fst item)) (enumerate l)).
Proof.
  rewrite <- (map_map fst (chunk_id doc_id)). unfold enumerate.
  rewrite enumerate_indices.
  apply NoDup_map_injective.
  - intros i j H. now apply chunk_id_inj in H.
  - apply NoDup_map_injective; [|apply seq_NoDup].
    intros i j H. now apply Nat2Z.inj.
Qed.

End IndexingFacts.

Module IndexingExtras.
Import PyVal Runtime Indexing Measures IndexingFacts.
Local Open Scope string_scope.

(** X13. [store_embeddings_in_chroma] (services/embeddings.py) names its
    vectors [f"doc_{document_id}_chunk_{i}"]. Two such ids are equal only
    for the same document and the same chunk number: the chunks of one
    document never take the id of a chunk of another one, whatever the
    signs and sizes of the two numbers. *)
Theorem chunk_ids_identify (doc_id i doc_id' i' : Z) :
  chunk_id doc_id i = chunk_id doc_id' i' <-> doc_id = doc_id' /\ i = i'.
Proof.
  split.
  - apply chunk_id_inj.
  - now intros [-> ->].
Qed.

(** X14. [generate_embeddings] (services/embeddings.py) asks the remote
    service first and the local model only when the remote call raised.
    It returns the remote vector if there is one, else the local one, and
    raises only when both calls raised; the exception then carries the
    local model's message after "Error generating local embeddings: ", the
    remote failure is not reported. *)
Theorem generate_embeddings_falls_back (b : Backends) (text : string)
        (s : list action) :
  snd (generate_embeddings b text s) = (s ++ attempts b text)%list /\
  match openai_embedding b text, local_embedding b text with
  | inr v, _ =>
      fst (generate_embeddings b text s) = Ok v /\
      attempts b text = [EmbedRemote text]
  | inl _, inr v =>
      fst (generate_embeddings b text s) = Ok v /\
      attempts b text = [EmbedRemote text; EmbedLocal text]
  | inl _, inl msg =>
      fst (generate_embeddings b text s)
      = Raise (Exception ("Error generating local embeddings: " ++ msg)) /\
      attempts b text = [EmbedRemote text; EmbedLocal text]
  end.
Proof.
  unfold attempts, generate_embeddings, generate_embeddings_local. cbn.
  destruct (openai_embedding b text) as [msg|v]; cbn; [|now repeat split].
  destruct (local_embedding b text) as [msg'|v]; cbn;
    rewrite <- app_assoc; now repeat split.
Qed.

(** X15. [store_embeddings_in_chroma] (services/embeddings.py) writes all
    chunks of a document or none. When it returns, it returns the number of
    chunks and has called [collection.add] exactly once, with the chunks as
    documents, one embedding per chunk (the one [generate_embeddings]
    chooses for it), the metadata of each chunk in order (the document, the
    file, the number of the chunk and its length in characters) and
    pairwise distinct ids. When it raises, no add has completed, and the exception is
    a plain [Exception] whose text starts with
    "Error storing embeddings in ChromaDB: ". *)
Theorem store_is_all_or_nothing (b : Backends) (text_chunks : list string)
        (doc_id : Z) (file : string) (s : list action) :
  exists acts,
    snd (store_embeddings_in_chroma b text_chunks doc_id file s)
    = (s ++ acts)%list /\
    match fst (store_embeddings_in_chroma b text_chunks doc_id file s) with
    | Ok n =>
        n = Z.of_nat (length text_chunks) /\
        exists vs,
          filter is_add acts
          = [ChromaAdd
               {| embeddings := vs;
                  documents := text_chunks;
                  metadatas := map (metadata_of doc_id file)
                                   (enumerate text_chunks);
                  ids := map (fun item => chunk_id doc_id (fst item))
                             (enumerate text_chunks) |}] /\
          Forall2 (fun chunk v => chosen_embedding b chunk = Some v)
                  text_chunks vs /\
          NoDup (map (fun item => chunk_id doc_id (fst item))
                     (enumerate text_chunks))
    | Raise e =>
        filter is_add acts = [] /\
        exists msg,
          e = Exception ("Error storing embeddings in ChromaDB: " ++ msg)
    end.
Proof.
  unfold store_embeddings_in_chroma.
  destruct (chroma_collection b) as [msg|] eqn:Hc.
  - exists []. cbn. rewrite app_nil_r. repeat split. now exists msg.
  - destruct (store_loop_spec b doc_id file (enumerate text_chunks) [] [] [] s)
      as (acts & Hs & Hadd & Hr).
    destruct (store_loop b (enumerate text_chunks) doc_id file [] [] [] s)
      as [[[[E Ms] Is]|e] s'] eqn:Hloop; cbn in Hs, Hr; subst s'.
    + destruct Hr as (vs & -> & Hvs & -> & ->). cbn. rewrite Hloop. cbn.
      match goal with
      | |- context [chroma_add b ?c] => destruct (chroma_add b c) as [msg|]
      end; cbn.
      * exists acts. repeat split; [assumption|now exists msg].
      * eexists. split; [now rewrite <- app_assoc|].
        split; [reflexivity|]. exists vs.
        rewrite filter_app, Hadd. cbn. repeat split.
        -- apply (Forall2_numbered
                    (fun chunk v => chosen_embedding b chunk = Some v)) in Hvs.
           unfold enumerate in Hvs. now rewrite enumerate_values in Hvs.
        -- apply chunk_ids_NoDup.
    + destruct Hr as (msg & ->). cbn. rewrite Hloop. cbn.
      exists acts. repeat split; [assumption|]. eexists. reflexivity.
Qed.

(** One chunk, "caf" and U+00E9, embedded by the local model: the add
    holds its length in characters, 4, not the 5 bytes of its encoding. *)
Lemma store_is_all_or_nothing_witness :
  exists vs,
    filter is_add
           (snd (store_embeddings_in_chroma MoreScenarios.local_index
                   [MoreScenarios.cafe] 7 "menu.txt" []))
    = [ChromaAdd {| embeddings := vs;
                    documents := [MoreScenarios.cafe];
                    metadatas := [{| document_id := 7;
                                     filename := "menu.txt";
                                     chunk_index := 0;
                                     chunk_size := 4 |}];
                    ids := ["doc_7_chunk_0"] |}].
Proof.
  destruct (store_is_all_or_nothing MoreScenarios.local_index
              [MoreScenarios.cafe] 7 "menu.txt" []) as (acts & Hs & H).
  rewrite Hs. cbn [app].
  assert (Hok : fst (store_embeddings_in_chroma MoreScenarios.local_index
                       [MoreScenarios.cafe] 7 "menu.txt" []) = Ok 1)
    by reflexivity.
  rewrite Hok in H. destruct H as (_ & vs & Hadd & _).
  exists vs. exact Hadd.
Defined.

End IndexingExtras.

(* ===================================================================== *)
(** * The templates and the chat history *)
(* ===================================================================== *)

Module TemplateFacts.
Import PyVal Runtime Observations Measures RuntimeFacts Templates.
Local Open Scope Z_scope.

Section WithTable.
Variable w : World.
Variable isoformat : Q -> string.
Variable DEFAULT_TEMPLATES : list Entry.t.

Lemma list_index_in_range {A : Type} (l : list A) (i : Z) :
  0 <= i < Py.len l ->
  exists a, nth_error l (Z.to_nat i) = Some a /\ list_index l i = Ok a.
Proof.
  intros Hi. unfold list_index.
  destruct (Z.ltb_spec i 0); [lia|].
  destruct (Z.ltb_spec i 0); [lia|].
  destruct (Z.leb_spec (Py.len l) i); [lia|]. cbn.
  destruct (nth_error l (Z.to_nat i)) as [a|] eqn:Hn; [now exists a|].
  apply nth_error_None in Hn. unfold Py.len in Hi. lia.
Qed.

Lemma templates_loop_spec items : forall templates st,
  exists r st',
    templates_loop w isoformat items templates st = (Ok r, st') /\
    map sans_date r = (map sans_date templates ++ map listed items)%list /\
    ticks st' = (ticks st + length items)%nat /\
    trace st' = trace st /\
    execution_logs st' = execution_logs st.
Proof.
  induction items as [|[i template] rest IH]; intros templates st.
  - exists templates, st. cbn. rewrite app_nil_r. repeat split. lia.
  - cbn [templates_loop]. cbn.
    match goal with
    | |- context [templates_loop w isoformat rest ?ts ?s] =>
        destruct (IH ts s) as (r & st' & Hrun & Hr & Ht & Htr & Hl)
    end.
    exists r, st'. split; [exact Hrun|].
    rewrite Hr, map_app, <- app_assoc. cbn in *. repeat split; try assumption. lia.
Qed.

End WithTable.

Lemma nth_error_numbered {A : Type} (l : list A) : forall start n a,
  nth_error l n = Some a ->
  nth_error (combine (map Z.of_nat (seq start (length l))) l) n
  = Some (Z.of_nat (start + n), a).
Proof.
  induction l as [|x l IH]; intros start [|n] a H; try discriminate.
  - cbn in *. injection H as ->. now rewrite Nat.add_0_r.
  - cbn in *. rewrite (IH (S start) n a H). do 3 f_equal. lia.
Qed.

Lemma nth_error_enumerate_listed (l : list Entry.t) (i : Z) template :
  nth_error l (Z.to_nat i) = Some template ->
  0 <= i ->
  nth_error (map listed (enumerate l)) (Z.to_nat i) = Some (listed (i, template)).
Proof.
  intros Hn Hi. rewrite nth_error_map. unfold enumerate.
  rewrite (nth_error_numbered l 0 _ _ Hn). cbn [option_map Nat.add].
  now rewrite Z2Nat.id.
Qed.

End TemplateFacts.

Module ChatHistoryFacts.
Import PyVal Runtime Measures ChatHistory.
Local Open Scope string_scope.

Section WithClock.
Variable isoformat : Q -> string.

Lemma messages_loop_flat rows : forall messages,
  messages_loop isoformat rows messages
  = (messages ++ flat_map (row_messages isoformat) rows)%list.
Proof.
  induction rows as [|row rest IH]; intros messages; cbn.
  - now rewrite app_nil_r.
  - now rewrite IH, app_assoc.
Qed.

Lemma text_set_spec s :
  text_set (Some s) = if String.eqb s "" then None else Some s.
Proof. reflexivity. Qed.

Lemma stored_messages request_workflow_id id utcnow msg :
  map said (row_messages isoformat (stored request_workflow_id (id, utcnow, msg)))
  = (if kept msg then [said msg] else []) /\
  Forall (fun m => ChatHistory.id m = Some id /\
                   workflow_id m = Some request_workflow_id /\
                   model_used m = None /\
                   is_workflow m = Some false /\
                   timestamp m = Some (isoformat utcnow))
         (row_messages isoformat (stored request_workflow_id (id, utcnow, msg))).
Proof.
  unfold stored, insert_values, row_messages, kept, said. cbn.
  destruct (String.eqb_spec (sender msg) "user") as [Hu|Hu].
  - rewrite Hu. cbn.
    destruct (String.eqb_spec (message msg) ""); cbn; repeat constructor.
  - destruct (String.eqb_spec (sender msg) "bot") as [Hb|Hb]; cbn.
    + rewrite Hb.
      destruct (String.eqb_spec (message msg) ""); cbn; repeat constructor.
    + repeat constructor.
Qed.

End WithClock.
End ChatHistoryFacts.

Module TemplateExtras.
Import PyVal Runtime Observations Measures RuntimeFacts Templates TemplateFacts.
Local Open Scope Z_scope.

(** X16. [get_workflow_template] (routes/workflow.py) answers a template
    number outside 1..len(DEFAULT_TEMPLATES) with status 500, never with
    the 404 it raises first: the [HTTPException] is raised inside the [try]
    whose [except Exception] wraps whatever it catches in a 500. A number
    in the range gives the entry of that position, with the number as its
    id. *)
Theorem template_lookup_never_404
        (w : World) (isoformat : Q -> string)
        (DEFAULT_TEMPLATES : list Entry.t) (template_id : Z) (st : State) :
  match fst (get_workflow_template w isoformat DEFAULT_TEMPLATES template_id st) with
  | Ok t =>
      1 <= template_id <= Py.len DEFAULT_TEMPLATES /\
      exists template,
        nth_error DEFAULT_TEMPLATES (Z.to_nat (template_id - 1)) = Some template /\
        sans_date t = listed (template_id - 1, template) /\
        created_at t = Some (isoformat (clock w (ticks st)))
  | Raise e =>
      (template_id <= 0 \/ Py.len DEFAULT_TEMPLATES < template_id) /\
      exists detail, e = HTTPException 500 detail
  end.
Proof.
  unfold get_workflow_template.
  destruct (Z.leb_spec template_id 0) as [Hlo|Hlo]; cbn.
  - split; [now left|]. eexists. reflexivity.
  - destruct (Z.ltb_spec (Py.len DEFAULT_TEMPLATES) template_id) as [Hhi|Hhi]; cbn.
    + split; [now right|]. eexists. reflexivity.
    + destruct (list_index_in_range DEFAULT_TEMPLATES (template_id - 1))
        as (template & Hn & Hi); [lia|].
      unfold lift. rewrite Hi. cbn. split; [lia|].
      exists template. repeat split. exact Hn.
      unfold sans_date, listed. cbn.
      now replace (template_id - 1 + 1) with template_id by lia.
Qed.

(** X17. [get_workflow_templates] (routes/workflow.py) always succeeds: it
    returns one template per entry of [DEFAULT_TEMPLATES], in the order of
    the table and numbered from 1, reads the clock once per template, and
    calls no service and writes no log. *)
Theorem template_list_is_the_table
        (w : World) (isoformat : Q -> string)
        (DEFAULT_TEMPLATES : list Entry.t) (st : State) :
  exists r st',
    get_workflow_templates w isoformat DEFAULT_TEMPLATES st = (Ok r, st') /\
    success r = true /\
    error r = None /\
    map sans_date (templates r) = map listed (enumerate DEFAULT_TEMPLATES) /\
    ticks st' = (ticks st + length DEFAULT_TEMPLATES)%nat /\
    trace st' = trace st /\
    execution_logs st' = execution_logs st.
Proof.
  unfold get_workflow_templates.
  destruct (templates_loop_spec w isoformat (enumerate DEFAULT_TEMPLATES) [] st)
    as (r & st' & Hrun & Hr & Ht & Htr & Hl).
  eexists. exists st'. cbn. rewrite Hrun. cbn. split; [reflexivity|].
  cbn. repeat split; try assumption.
  rewrite Ht. unfold enumerate. now rewrite length_combine, length_map, length_seq, Nat.min_id.
Qed.

(** X18. The two template endpoints agree: for a number in the range,
    [get_workflow_template] returns, up to the date, the template that
    [get_workflow_templates] lists at that position. *)
Theorem template_lookup_agrees_with_list
        (w : World) (isoformat : Q -> string)
        (DEFAULT_TEMPLATES : list Entry.t) (template_id : Z) (st st' : State) :
  1 <= template_id <= Py.len DEFAULT_TEMPLATES ->
  exists t r,
    fst (get_workflow_template w isoformat DEFAULT_TEMPLATES template_id st) = Ok t /\
    fst (get_workflow_templates w isoformat DEFAULT_TEMPLATES st') = Ok r /\
    nth_error (map sans_date (templates r)) (Z.to_nat (template_id - 1))
    = Some (sans_date t).
Proof.
  intros Hid.
  destruct (list_index_in_range DEFAULT_TEMPLATES (template_id - 1))
    as (template & Hn & Hi); [lia|].
  destruct (templates_loop_spec w isoformat (enumerate DEFAULT_TEMPLATES) [] st')
    as (r & st'' & Hrun & Hr & _).
  eexists. eexists. repeat split.
  - unfold get_workflow_template.
    destruct (Z.leb_spec template_id 0); [lia|].
    destruct (Z.ltb_spec (Py.len DEFAULT_TEMPLATES) template_id); [lia|].
    cbn. unfold lift. rewrite Hi. cbn. reflexivity.
  - unfold get_workflow_templates. cbn. rewrite Hrun. reflexivity.
  - cbn. rewrite Hr. cbn.
    rewrite (nth_error_enumerate_listed _ _ _ Hn) by lia.
    unfold sans_date, listed. cbn.
    now replace (template_id - 1 + 1) with template_id by lia.
Qed.

Lemma template_lookup_agrees_with_list_witness :
  exists t r,
    fst (get_workflow_template Scenarios.online MoreScenarios.no_date
           MoreScenarios.two_templates 2 Scenarios.start) = Ok t /\
    fst (get_workflow_templates Scenarios.online MoreScenarios.no_date
           MoreScenarios.two_templates Scenarios.start) = Ok r /\
    nth_error (map sans_date (templates r)) (Z.to_nat (2 - 1))
    = Some (sans_date t).
Proof.
  apply (template_lookup_agrees_with_list Scenarios.online MoreScenarios.no_date
           MoreScenarios.two_templates 2 Scenarios.start Scenarios.start).
  cbn. lia.
Defined.

End TemplateExtras.

Module ChatHistoryExtras.
Import PyVal Runtime Measures ChatHistory ChatHistoryFacts.
Local Open Scope string_scope.

(** X19. What [get_chat_history] (routes/workflow.py) reads back from the
    rows [save_chat_history] inserts: the messages whose sender is 'user'
    or 'bot' and whose text is not empty, in order, with their sender and
    text. A message of any other sender, or an empty one, is stored as a
    row of two empty columns and does not come back. Of a message that
    comes back, [model_used] and [is_workflow] are lost: they read [None]
    and [False]; its [workflow_id] is the one of the request. *)
Theorem chat_history_round_trip
        (isoformat : Q -> string) (request_workflow_id : Z)
        (entries : list (Z * Q * ChatMessage)) :
  let rows := map (stored request_workflow_id) entries in
  map said (messages_loop isoformat rows [])
  = map said (filter kept (map snd entries)) /\
  Forall (fun m => workflow_id m = Some request_workflow_id /\
                   model_used m = None /\
                   is_workflow m = Some false)
         (messages_loop isoformat rows []).
Proof.
  cbn zeta. rewrite messages_loop_flat. cbn [app].
  induction entries as [|[[id utcnow] msg] rest [IHs IHf]]; [now split|].
  cbn [map flat_map filter snd].
  destruct (stored_messages isoformat request_workflow_id id utcnow msg)
    as [Hs Hf].
  split.
  - rewrite map_app, Hs, IHs. now destruct (kept msg).
  - apply Forall_app. split; [|exact IHf].
    eapply Forall_impl; [|exact Hf]. cbn. tauto.
Qed.

End ChatHistoryExtras.
